(** * CrossSiameseNet: triplet datasets and the training loop

    A shallow embedding of [CrossSiameseNet/datasets/cf_datasets.py] and of
    the epoch loop of [CrossSiameseNet/train_new.py].

    Python objects are records, exceptions are values of an error type and
    every function that can raise returns a [result].  The two sources of
    randomness of the program (the process-wide [random] module and an
    isolated [numpy.random.RandomState]) are explicit: a generator state is
    passed in and the advanced state is passed out. *)

From Stdlib Require Import List ZArith Bool Lia String Ascii Arith.
From Stdlib Require Import SpecFloat DecimalString DecimalZ.
Import ListNotations.

Local Open Scope string_scope.
Local Open Scope list_scope.
Local Open Scope Z_scope.

(** ** Exceptions and results *)

(** The exceptions the embedded code can raise.  [Exception] is the explicit
    [raise Exception(msg)] of the constructor; the others are raised by the
    interpreter, by torch or by numpy.  [ExternalError] is a failure of a
    collaborator that is not in the repository (a loader, the model). *)
Inductive exn : Type :=
| Exception (msg : string)
| TypeError
| AttributeError
| IndexError
| ValueError
| OverflowError
| ZeroDivisionError
| UnboundLocalError
| RuntimeError
| ExternalError.

Inductive result (A : Type) : Type :=
| Ok (a : A)
| Raise (e : exn).

Arguments Ok {A} a.
Arguments Raise {A} e.

Definition bind {A B : Type} (r : result A) (k : A -> result B) : result B :=
  match r with
  | Ok a => k a
  | Raise e => Raise e
  end.

Notation "x <- c ;; k" := (bind c (fun x => k))
  (at level 61, c at next level, right associativity).
Notation "' pat <- c ;; k" := (bind c (fun x => match x with pat => k end))
  (at level 61, pat pattern, c at next level, right associativity).

Definition is_ok {A : Type} (r : result A) : bool :=
  match r with Ok _ => true | Raise _ => false end.

(** ** Python values that are tested for truth or formatted *)

(** The flag [use_fixed_triplets] is declared [bool] but is tested with
    [not] and [and], so any object is accepted; [get_dataset] passes it the
    integer [123]. *)
Inductive pyval : Type :=
| PyNone
| PyBool (b : bool)
| PyInt (n : Z).

Definition truthy (v : pyval) : bool :=
  match v with
  | PyNone => false
  | PyBool b => b
  | PyInt n => negb (n =? 0)
  end.

(** [str(v)], as an f-string formats it. *)
Definition py_str (v : pyval) : string :=
  match v with
  | PyNone => "None"
  | PyBool true => "True"
  | PyBool false => "False"
  | PyInt n => NilZero.string_of_int (Z.to_int n)
  end.

(** ** Floating point *)

(** torch tensors hold binary32 numbers, Python floats are binary64. *)
Definition float32 := spec_float.
Definition float64 := spec_float.

Definition f32_of_Z (n : Z) : float32 := binary_normalize 24 128 n 0 false.
Definition f64_of_Z (n : Z) : float64 := binary_normalize 53 1024 n 0 false.

(** [tensor.tolist()] and [tensor.item()]: binary32 to binary64, exact. *)
Definition f32_to_f64 (x : float32) : float64 :=
  match x with
  | S754_finite s m e => binary_normalize 53 1024 (cond_Zopp s (Zpos m)) e s
  | _ => x
  end.

(** [torch.tensor] of a Python float: binary64 to binary32, rounded to
    nearest even. *)
Definition f64_to_f32 (x : float64) : float32 :=
  match x with
  | S754_finite s m e => binary_normalize 24 128 (cond_Zopp s (Zpos m)) e s
  | _ => x
  end.

(** [len(a) / len(b)]: true division of two lengths.  Lengths of lists that
    fit in memory are below [2^53], where the conversion to binary64 is
    exact and the quotient is the correctly rounded one. *)
Definition py_truediv (a b : nat) : result float64 :=
  match b with
  | O => Raise ZeroDivisionError
  | S _ => Ok (SFdiv 53 1024 (f64_of_Z (Z.of_nat a)) (f64_of_Z (Z.of_nat b)))
  end.

(** [int(x)] of a Python float: truncation toward zero. *)
Definition py_int (x : float64) : result Z :=
  match x with
  | S754_zero _ => Ok 0
  | S754_infinity _ => Raise OverflowError
  | S754_nan => Raise ValueError
  | S754_finite s m e =>
      Ok (cond_Zopp s (match e with
                       | Zneg p => Z.shiftr (Zpos m) (Zpos p)
                       | _ => Z.shiftl (Zpos m) e
                       end))
  end.

(** [t == c] on binary32 entries, [x == c] on Python floats. *)
Definition f32_eq (x : float32) (c : Z) : bool := SFeqb x (f32_of_Z c).
Definition f64_eq (x : float64) (c : Z) : bool := SFeqb x (f64_of_Z c).

(** ** Generators *)

(** [numpy.random.RandomState]: seeding from an integer and the bounded
    draw [randint(0, n)] that [choice] uses.  The Mersenne twister itself is
    numpy's; here it is an interface, and every theorem holds for every
    implementation of it. *)
Record NumpyRandom : Type := {
  np_state : Type;
  np_seed : Z -> np_state;
  np_randint : nat -> np_state -> nat * np_state;
  np_randint_lt : forall n g, (0 < n)%nat -> (fst (np_randint n g) < n)%nat
}.

(** The process-wide generator of Python's [random] module: [_randbelow(n)]. *)
Record PyRandom : Type := {
  py_state : Type;
  py_randbelow : nat -> py_state -> nat * py_state;
  py_randbelow_lt : forall n g, (0 < n)%nat -> (fst (py_randbelow n g) < n)%nat
}.

(** ** Tensors, arrays and the objects a triplet is made of *)

(** A molecule's circular fingerprint: one row of [X]. *)
Definition fingerprint := list float32.

Inductive pyobj : Type :=
| Tensor2 (rows : list fingerprint)
| Tensor1 (row : fingerprint)
| Tensor0 (v : float32)
| PyFloat (v : float64).

(** [o[i]] for a non-negative integer [i].  A Python float has no
    [__getitem__]. *)
Definition subscript (o : pyobj) (i : nat) : result pyobj :=
  match o with
  | Tensor2 rows =>
      match nth_error rows i with
      | Some r => Ok (Tensor1 r)
      | None => Raise IndexError
      end
  | Tensor1 row =>
      match nth_error row i with
      | Some v => Ok (Tensor0 v)
      | None => Raise IndexError
      end
  | Tensor0 _ => Raise IndexError
  | PyFloat _ => Raise TypeError
  end.

(** [l[k]] on a Python list. *)
Definition list_item {A : Type} (l : list A) (k : nat) : result A :=
  match nth_error l k with
  | Some a => Ok a
  | None => Raise IndexError
  end.

(** [t[idx]] where [idx] is a list of row numbers (tensor or ndarray). *)
Fixpoint index_rows {A : Type} (t : list A) (idx : list nat) : result (list A) :=
  match idx with
  | [] => Ok []
  | i :: rest =>
      a <- list_item t i ;;
      others <- index_rows t rest ;;
      Ok (a :: others)
  end.

(** [torch.cat(ts)] along dimension 0, every element of [ts] a tensor.
    An empty list is refused ("expected a non-empty list of Tensors"), with
    [ValueError] in current releases of torch and with [RuntimeError] in
    older ones; the code reaches it only with an oversampling multiplier of
    0. *)
Definition torch_cat {A : Type} (ts : list (list A)) : result (list A) :=
  match ts with
  | [] => Raise ValueError
  | _ :: _ => Ok (List.concat ts)
  end.

(** [torch.cat(arrs)] where the elements are numpy arrays: torch accepts
    tensors only ("expected Tensor as element 0 in argument 0, but got
    numpy.ndarray"). *)
Definition torch_cat_ndarray {A : Type} (arrs : list (list A)) : result (list A) :=
  match arrs with
  | [] => Raise ValueError
  | _ :: _ => Raise TypeError
  end.

(** [(t == c).nonzero()[:,0].tolist()] for [t] of shape (N, 1): the rows
    whose entry equals [c], in increasing order. *)
Fixpoint rows_equal_from (k : nat) (t : list float32) (c : Z) : list nat :=
  match t with
  | [] => []
  | v :: rest =>
      if f32_eq v c then k :: rows_equal_from (S k) rest c
      else rows_equal_from (S k) rest c
  end.

Definition rows_equal (t : list float32) (c : Z) : list nat :=
  rows_equal_from 0 t c.

(** ** The store *)

(** DeepChem's dataset: [X] fingerprints, [y] labels of shape (N, 1) (one
    task), [ids] SMILES strings; the arrays are numpy's, of binary64. *)
Record dc_Datset : Type := {
  dc_X : list (list float64);
  dc_y : list float64;
  dc_ids : list string
}.

Record MolDataset : Type := {
  md_X : list fingerprint;
  md_y : list float32;
  md_smiles : list string;
  md_n_molecules : nat
}.

(** [MolDataset.__init__] *)
Definition MolDataset_init (dc_dataset : dc_Datset) : MolDataset :=
  {| md_X := map (map f64_to_f32) (dc_X dc_dataset);
     md_y := map f64_to_f32 (dc_y dc_dataset);
     md_smiles := dc_ids dc_dataset;
     md_n_molecules := List.length (dc_ids dc_dataset) |}.

(** [MolDataset.__len__] *)
Definition MolDataset_len (self : MolDataset) : nat := md_n_molecules self.

(** ** MolDatasetTriplet *)

(** The attributes of a constructed object.  [fixed_triplets] is set only by
    the fixed branch of the constructor and by [refresh_fixed_triplets];
    reading it while it is unset raises [AttributeError]. *)
Record MolDatasetTriplet : Type := {
  X : list fingerprint;
  y : list float32;
  smiles : list string;
  n_molecules : nat;
  train : bool;
  oversample : bool;
  use_fixed_triplets : pyval;
  seed_fixed_triplets : option Z;
  indices_0 : list nat;
  indices_1 : list nat;
  fixed_triplets : option (list pyobj)
}.

Definition set_seed (self : MolDatasetTriplet) (s : option Z) : MolDatasetTriplet :=
  {| X := X self; y := y self; smiles := smiles self;
     n_molecules := n_molecules self; train := train self;
     oversample := oversample self;
     use_fixed_triplets := use_fixed_triplets self;
     seed_fixed_triplets := s;
     indices_0 := indices_0 self; indices_1 := indices_1 self;
     fixed_triplets := fixed_triplets self |}.

Definition set_fixed_triplets (self : MolDatasetTriplet) (c : list pyobj)
  : MolDatasetTriplet :=
  {| X := X self; y := y self; smiles := smiles self;
     n_molecules := n_molecules self; train := train self;
     oversample := oversample self;
     use_fixed_triplets := use_fixed_triplets self;
     seed_fixed_triplets := seed_fixed_triplets self;
     indices_0 := indices_0 self; indices_1 := indices_1 self;
     fixed_triplets := Some c |}.

(** The message of the constructor's configuration error. *)
Definition wrong_parameters_msg (oversample : bool) (use_fixed_triplets : pyval)
  : string :=
  String.concat ""
    [ "MolDatasetTriplet initiated with wrong parameters: oversample(value: ";
      py_str (PyBool oversample);
      ") and use_fixed_triplets(value: ";
      py_str use_fixed_triplets;
      ")" ].

Section Methods.

Variable np : NumpyRandom.
Variable py : PyRandom.

(** [np.random.RandomState(seed)].  With [None] the state comes from the
    operating system's entropy, here the argument [fresh]; an integer seed
    must lie in [0, 2^32 - 1]. *)
Definition RandomState (fresh : np_state np) (seed : option Z)
  : result (np_state np) :=
  match seed with
  | None => Ok fresh
  | Some s =>
      if (0 <=? s) && (s <? 2 ^ 32) then Ok (np_seed np s)
      else Raise ValueError
  end.

(** [random_state.choice(a)] for a list [a]: one [randint(0, len(a))] and
    the element there; numpy refuses an empty [a]. *)
Definition choice (a : list nat) (g : np_state np)
  : result (nat * np_state np) :=
  match a with
  | [] => Raise ValueError
  | _ :: _ =>
      let (k, g') := np_randint np (List.length a) g in
      v <- list_item a k ;;
      Ok (v, g')
  end.

(** [self.y.tolist()]: one packed label per record. *)
Definition tolist (t : list float32) : list (list float64) :=
  map (fun v => [f32_to_f64 v]) t.

(** The loop of [__get_fixed_dataset] from the record at hand on: the
    lists of drawn indices so far, and the loop variable [anchor_label],
    unbound until the first record. *)
Fixpoint fixed_loop (labels : list (list float64)) (i0 i1 : list nat)
    (random_state : np_state np)
    (positive_indices negative_indices : list nat)
    (anchor_label : option float64)
  : result (list nat * list nat * option float64) :=
  match labels with
  | [] => Ok (positive_indices, negative_indices, anchor_label)
  | label_packed :: rest =>
      anchor_label' <- list_item label_packed 0 ;;
      if f64_eq anchor_label' 1 then
        '(p, g1) <- choice i1 random_state ;;
        '(n, g2) <- choice i0 g1 ;;
        fixed_loop rest i0 i1 g2
          (positive_indices ++ [p]) (negative_indices ++ [n])
          (Some anchor_label')
      else
        '(p, g1) <- choice i0 random_state ;;
        '(n, g2) <- choice i1 g1 ;;
        fixed_loop rest i0 i1 g2
          (positive_indices ++ [p]) (negative_indices ++ [n])
          (Some anchor_label')
  end.

(** The indices [__get_fixed_dataset] draws, before the features are
    gathered. *)
Definition fixed_indices (fresh : np_state np) (self : MolDatasetTriplet)
  : result (list nat * list nat * option float64) :=
  random_state <- RandomState fresh (seed_fixed_triplets self) ;;
  fixed_loop (tolist (y self)) (indices_0 self) (indices_1 self)
    random_state [] [] None.

(** [MolDatasetTriplet.__get_fixed_dataset] *)
Definition __get_fixed_dataset (fresh : np_state np) (self : MolDatasetTriplet)
  : result (list pyobj) :=
  '(positive_indices, negative_indices, anchor_label) <- fixed_indices fresh self ;;
  let anchor_mf := X self in
  positive_mf <- index_rows (X self) positive_indices ;;
  negative_mf <- index_rows (X self) negative_indices ;;
  match anchor_label with
  | None => Raise UnboundLocalError
  | Some l =>
      Ok [Tensor2 anchor_mf; Tensor2 positive_mf; Tensor2 negative_mf; PyFloat l]
  end.

(** [MolDatasetTriplet.__init__] *)
Definition MolDatasetTriplet_init (fresh : np_state np)
    (dc_dataset : dc_Datset) (train : bool) (oversample : bool)
    (use_fixed_triplets : pyval) (seed_fixed_triplets : option Z)
  : result MolDatasetTriplet :=
  let super := MolDataset_init dc_dataset in
  let indices_0 := rows_equal (md_y super) 0 in
  let indices_1 := rows_equal (md_y super) 1 in
  if oversample && negb (truthy use_fixed_triplets) then
    ratio <- py_truediv (List.length indices_0) (List.length indices_1) ;;
    oversampling_multiplicator <- py_int ratio ;;
    let m := Z.to_nat oversampling_multiplicator in
    X_0 <- index_rows (md_X super) indices_0 ;;
    X_1 <- index_rows (md_X super) indices_1 ;;
    y_0 <- index_rows (md_y super) indices_0 ;;
    y_1 <- index_rows (md_y super) indices_1 ;;
    smiles_0 <- index_rows (md_smiles super) indices_0 ;;
    smiles_1 <- index_rows (md_smiles super) indices_1 ;;
    oversampled_X_1 <- torch_cat (repeat X_1 m) ;;
    oversampled_y_1 <- torch_cat (repeat y_1 m) ;;
    oversampled_smiles_1 <- torch_cat_ndarray (repeat smiles_1 m) ;;
    X' <- torch_cat [X_0; oversampled_X_1] ;;
    y' <- torch_cat [y_0; oversampled_y_1] ;;
    smiles' <- torch_cat_ndarray [smiles_0; oversampled_smiles_1] ;;
    Ok {| X := X'; y := y'; smiles := smiles';
          n_molecules := md_n_molecules super;
          train := train; oversample := oversample;
          use_fixed_triplets := use_fixed_triplets;
          seed_fixed_triplets := seed_fixed_triplets;
          indices_0 := rows_equal y' 0;
          indices_1 := rows_equal y' 1;
          fixed_triplets := None |}
  else
    let self :=
      {| X := md_X super; y := md_y super; smiles := md_smiles super;
         n_molecules := md_n_molecules super;
         train := train; oversample := oversample;
         use_fixed_triplets := use_fixed_triplets;
         seed_fixed_triplets := seed_fixed_triplets;
         indices_0 := indices_0;
         indices_1 := indices_1;
         fixed_triplets := None |} in
    if negb oversample && negb (truthy use_fixed_triplets) then
      Ok self
    else if oversample && truthy use_fixed_triplets then
      Raise (Exception (wrong_parameters_msg oversample use_fixed_triplets))
    else if truthy use_fixed_triplets then
      cache <- __get_fixed_dataset fresh self ;;
      Ok (set_fixed_triplets self cache)
    else
      (* no test of the chain holds: the four tests exclude it *)
      Ok self.

(** Computations that draw from the process-wide generator of [random]:
    from its state to an outcome and its state afterwards.  The state
    survives an exception. *)
Definition drawing (A : Type) : Type := py_state py -> result A * py_state py.

Definition pure {A : Type} (r : result A) : drawing A := fun g => (r, g).

Definition and_then {A B : Type} (c : drawing A) (k : A -> drawing B)
  : drawing B :=
  fun g =>
    match c g with
    | (Ok a, g') => k a g'
    | (Raise e, g') => (Raise e, g')
    end.

Notation "x <~ c ;; k" := (and_then c (fun x => k))
  (at level 61, c at next level, right associativity).

(** [random.choice(seq)]: [seq[_randbelow(len(seq))]]; an empty sequence
    raises [IndexError]. *)
Definition random_choice (seq : list nat) : drawing nat :=
  fun g =>
    match seq with
    | [] => (Raise IndexError, g)
    | _ :: _ =>
        let (k, g') := py_randbelow py (List.length seq) g in
        (list_item seq k, g')
    end.

(** [MolDatasetTriplet.__getitem__] *)
Definition __getitem__ (self : MolDatasetTriplet) (id0 : nat)
  : drawing (pyobj * pyobj * pyobj * pyobj) :=
  if negb (truthy (use_fixed_triplets self)) && Bool.eqb (train self) false then
    anchor_mf <~ pure (list_item (X self) id0) ;;
    label <~ pure (list_item (y self) id0) ;;
    let anchor_label := f32_to_f64 label in
    drawn <~ (if f64_eq anchor_label 1 then
                positive_index <~ random_choice (indices_1 self) ;;
                negative_index <~ random_choice (indices_0 self) ;;
                pure (Ok (positive_index, negative_index))
              else
                positive_index <~ random_choice (indices_0 self) ;;
                negative_index <~ random_choice (indices_1 self) ;;
                pure (Ok (positive_index, negative_index))) ;;
    positive_mf <~ pure (list_item (X self) (fst drawn)) ;;
    negative_mf <~ pure (list_item (X self) (snd drawn)) ;;
    pure (Ok (Tensor1 anchor_mf, Tensor1 positive_mf, Tensor1 negative_mf,
              PyFloat anchor_label))
  else
    pure (match fixed_triplets self with
          | None => Raise AttributeError
          | Some cache =>
              c0 <- list_item cache 0 ;;
              anchor_mf <- subscript c0 id0 ;;
              c1 <- list_item cache 1 ;;
              positive_mf <- subscript c1 id0 ;;
              c2 <- list_item cache 2 ;;
              negative_mf <- subscript c2 id0 ;;
              c3 <- list_item cache 3 ;;
              anchor_label <- subscript c3 id0 ;;
              Ok (anchor_mf, positive_mf, negative_mf, anchor_label)
          end).

(** [MolDatasetTriplet.get_pos_weights]: a binary32 tensor of two
    entries. *)
Definition get_pos_weights (self : MolDatasetTriplet) : result (list float32) :=
  w1 <- py_truediv (List.length (indices_0 self)) (List.length (indices_1 self)) ;;
  Ok [f32_of_Z 1; f64_to_f32 w1].

(** [MolDatasetTriplet.refresh_fixed_triplets]: the outcome and the object
    as the call leaves it.  The seed is stored before the cache is
    rebuilt, so it stays stored when the rebuild raises. *)
Definition refresh_fixed_triplets (fresh : np_state np)
    (self : MolDatasetTriplet) (seed_fixed_triplets : option Z)
  : result unit * MolDatasetTriplet :=
  let self1 := set_seed self seed_fixed_triplets in
  match __get_fixed_dataset fresh self1 with
  | Ok cache => (Ok tt, set_fixed_triplets self1 cache)
  | Raise e => (Raise e, self1)
  end.

End Methods.

(** ** get_dataset *)

(** DeepChem's MolNet loaders and splitters are not part of the repository.
    A loader is called as [load(featurizer, splitter)] and returns
    [(tasks, datasets, transformers)]; only the tuple [datasets] is used.
    The featurizer is [CircularFingerprint(cf_radius, cf_size)]. *)
Record DeepChem : Type := {
  Splitter : Type;
  load_hiv : Z * Z -> option Splitter -> result (list dc_Datset);
  load_delaney : Z * Z -> option Splitter -> result (list dc_Datset);
  load_lipo : Z * Z -> option Splitter -> result (list dc_Datset);
  load_freesolv : Z * Z -> option Splitter -> result (list dc_Datset);
  load_tox21 : Z * Z -> option Splitter -> list string -> result (list dc_Datset)
}.

(** What [get_dataset] returns: [None] after the warning, three triplet
    datasets, three pair datasets, or the loader's first dataset as it is. *)
Inductive loaded : Type :=
| NoDataset
| TripletSplits (train_dataset valid_dataset test_dataset : MolDatasetTriplet)
| PairSplits (train_dataset valid_dataset test_dataset : MolDataset)
| Unsplit (dataset : dc_Datset).

(** [s[s.find("_")+1:]]: [find] is [-1] when there is no underscore, and the
    slice is then the whole string. *)
Definition after_underscore (s : string) : string :=
  match String.index 0 "_" s with
  | Some k => substring (S k) (String.length s - S k) s
  | None => s
  end.

Section Factory.

Variable np : NumpyRandom.
Variable dc : DeepChem.

(** The variable [datasets] after the chain of name tests: [None] when no
    test matched and the variable was never bound. *)
Definition load_by_name (dataset_name : string) (featurizer : Z * Z)
    (splitter : option (Splitter dc)) : result (option (list dc_Datset)) :=
  if String.eqb dataset_name "hiv" then
    datasets <- load_hiv dc featurizer splitter ;; Ok (Some datasets)
  else if String.eqb dataset_name "delaney" then
    datasets <- load_delaney dc featurizer splitter ;; Ok (Some datasets)
  else if String.eqb dataset_name "lipo" then
    datasets <- load_lipo dc featurizer splitter ;; Ok (Some datasets)
  else if String.eqb dataset_name "freesolv" then
    datasets <- load_freesolv dc featurizer splitter ;; Ok (Some datasets)
  else if String.eqb (substring 0 5 dataset_name) "tox21" then
    let task := after_underscore dataset_name in
    datasets <- load_tox21 dc featurizer splitter [task] ;; Ok (Some datasets)
  else
    Ok None.

(** [datasets[k]] *)
Definition datasets_item (datasets : option (list dc_Datset)) (k : nat)
  : result dc_Datset :=
  match datasets with
  | None => Raise UnboundLocalError
  | Some l => list_item l k
  end.

(** [get_dataset].  [entropy k] is what the operating system would hand to
    the [k]-th dataset constructed, should it seed a generator from
    [None].  The evaluation datasets are built by the positional calls
    [MolDatasetTriplet(datasets[1], False, True, 123)] and
    [MolDatasetTriplet(datasets[2], False, True, 123)]: the parameters
    after [dc_dataset] are [train], [oversample], [use_fixed_triplets],
    [seed_fixed_triplets], so [True] binds [oversample], [123] binds
    [use_fixed_triplets] and the seed keeps its default [None]. *)
Definition get_dataset (entropy : nat -> np_state np)
    (dataset_name : string) (splitter : option (Splitter dc))
    (cf_radius cf_size : Z) (triplet_loss oversample : bool)
    (use_fixed_train_triplets : bool) (seed_fixed_train_triplets : option Z)
  : result loaded :=
  if use_fixed_train_triplets && negb triplet_loss then
    Ok NoDataset
  else
    let featurizer := (cf_radius, cf_size) in
    datasets <- load_by_name dataset_name featurizer splitter ;;
    match splitter with
    | Some _ =>
        if triplet_loss then
          d0 <- datasets_item datasets 0 ;;
          train_dataset <- MolDatasetTriplet_init np (entropy 0%nat) d0 true
                             oversample (PyBool use_fixed_train_triplets)
                             seed_fixed_train_triplets ;;
          d1 <- datasets_item datasets 1 ;;
          valid_dataset <- MolDatasetTriplet_init np (entropy 1%nat) d1 false
                             true (PyInt 123) None ;;
          d2 <- datasets_item datasets 2 ;;
          test_dataset <- MolDatasetTriplet_init np (entropy 2%nat) d2 false
                            true (PyInt 123) None ;;
          Ok (TripletSplits train_dataset valid_dataset test_dataset)
        else
          d0 <- datasets_item datasets 0 ;;
          d1 <- datasets_item datasets 1 ;;
          d2 <- datasets_item datasets 2 ;;
          Ok (PairSplits (MolDataset_init d0) (MolDataset_init d1)
                (MolDataset_init d2))
    | None =>
        d0 <- datasets_item datasets 0 ;;
        Ok (Unsplit d0)
    end.

End Factory.

(** ** train_triplet *)

(** What the loop does to the training dataset, in order: a call of
    [refresh_fixed_triplets] with its argument, and the two phases of an
    epoch with the seed the dataset holds when they start. *)
Inductive event : Type :=
| Refreshed (epoch : nat) (seed : Z)
| Phases (epoch : nat) (seed_held : option Z).

Section Training.

Variable np : NumpyRandom.

(** Everything the loop owns besides the training dataset: the model, the
    optimizer, the test loader, the loss histories. *)
Variable World : Type.

(** The train phase and the test phase of one epoch followed by the
    checkpoint; the model, the loaders, [BatchShaper], the loss and
    [save_checkpoint] are collaborators outside the repository, and so is
    the method [shuffle_data] that the train phase calls on the dataset. *)
Variable phases : nat -> World -> MolDatasetTriplet
                  -> result (World * MolDatasetTriplet).

(** The body of [for epoch in range(0, n_epochs)], from [epoch] on for
    [remaining] more epochs. *)
Fixpoint epochs (fresh : np_state np) (use_fixed_training_triplets : bool)
    (remaining epoch : nat) (w : World) (dataset : MolDatasetTriplet)
    (trace : list event) : result World * list event :=
  match remaining with
  | O => (Ok w, trace)
  | S remaining' =>
      let refreshed :=
        if (0 <? epoch)%nat && use_fixed_training_triplets then
          match seed_fixed_triplets dataset with
          | None => (Raise TypeError, dataset, trace)
          | Some s =>
              let seed := s + Z.of_nat epoch in
              let (outcome, dataset') :=
                refresh_fixed_triplets np fresh dataset (Some seed) in
              (outcome, dataset', trace ++ [Refreshed epoch seed])
          end
        else (Ok tt, dataset, trace) in
      match refreshed with
      | (Raise e, _, trace1) => (Raise e, trace1)
      | (Ok _, dataset1, trace1) =>
          let trace2 := trace1 ++ [Phases epoch (seed_fixed_triplets dataset1)] in
          match phases epoch w dataset1 with
          | Raise e => (Raise e, trace2)
          | Ok (w', dataset2) =>
              epochs fresh use_fixed_training_triplets remaining' (S epoch)
                w' dataset2 trace2
          end
      end
  end.

(** [train_triplet], as far as the training dataset is concerned:
    [weights_1] is computed from its partitions before the first epoch. *)
Definition train_triplet (fresh : np_state np) (w : World)
    (dataset : MolDatasetTriplet) (n_epochs : nat)
    (use_fixed_training_triplets : bool) : result World * list event :=
  match py_truediv (List.length (indices_0 dataset))
                   (List.length (indices_1 dataset)) with
  | Raise e => (Raise e, [])
  | Ok weights_1 =>
      epochs fresh use_fixed_training_triplets n_epochs 0 w dataset []
  end.

End Training.

(** ** MolDataset.__getitem__ *)

Section PairDataset.

Variable py : PyRandom.

Notation "x <~ c ;; k" := (and_then py c (fun x => k))
  (at level 61, c at next level, right associativity).

(** [random.randint(a, b)] is [randrange(a, b + 1)]: [a] plus
    [_randbelow(width)] for a positive [width = b + 1 - a], and
    [ValueError] ("empty range") otherwise. *)
Definition random_randint (a b : Z) : drawing py Z :=
  fun g =>
    let width := b + 1 - a in
    if 0 <? width then
      let (k, g') := py_randbelow py (Z.to_nat width) g in
      (Ok (a + Z.of_nat k), g')
    else (Raise ValueError, g).

(** [MolDataset.__getitem__]: the fingerprints of molecule [id0] and of a
    random other molecule, and the absolute difference of their labels, a
    binary32 tensor of one entry. *)
Definition MolDataset__getitem__ (self : MolDataset) (id0 : nat)
  : drawing py (pyobj * pyobj * pyobj) :=
  id1 <~ random_randint 0 (Z.of_nat (MolDataset_len self) - 1) ;;
  mf0 <~ pure py (list_item (md_X self) id0) ;;
  mf1 <~ pure py (list_item (md_X self) (Z.to_nat id1)) ;;
  y0 <~ pure py (list_item (md_y self) id0) ;;
  y1 <~ pure py (list_item (md_y self) (Z.to_nat id1)) ;;
  pure py (Ok (Tensor1 mf0, Tensor1 mf1,
               Tensor1 [SFabs (SFsub 24 128 y0 y1)])).

End PairDataset.

(** ** The loss accounting of train_triplet *)

(** The record [train_triplet] hands to [save_checkpoint]. *)
Record checkpoint (StateDict : Type) : Type := {
  ck_epoch : nat;
  ck_model_state_dict : StateDict;
  ck_dataset : string;
  ck_train_loss : list float64;
  ck_test_loss : list float64;
  ck_used_fixed_training_triplets : bool;
  ck_save_dttm : string
}.

Arguments ck_epoch {StateDict} c.
Arguments ck_model_state_dict {StateDict} c.
Arguments ck_dataset {StateDict} c.
Arguments ck_train_loss {StateDict} c.
Arguments ck_test_loss {StateDict} c.
Arguments ck_used_fixed_training_triplets {StateDict} c.
Arguments ck_save_dttm {StateDict} c.

(** The local variables of [train_triplet] that outlive an epoch: the two
    loss histories and [batch_id], which the batch loop binds and which
    stays bound after it; next to them the checkpoints handed to
    [save_checkpoint] so far with their paths, and the state [Ext] of
    everything outside the repository (model, optimizer, loaders, clock,
    files). *)
Record loop_state (StateDict Ext : Type) : Type := {
  train_loss : list float64;
  test_loss : list float64;
  batch_id : option nat;
  saved : list (string * checkpoint StateDict);
  ext : Ext
}.

Arguments train_loss {StateDict Ext} l.
Arguments test_loss {StateDict Ext} l.
Arguments batch_id {StateDict Ext} l.
Arguments saved {StateDict Ext} l.
Arguments ext {StateDict Ext} l.

(** [f"{checkpoints_dir}/{dataset_name}_{epoch}"] *)
Definition checkpoint_path (checkpoints_dir dataset_name : string) (epoch : nat)
  : string :=
  String.concat ""
    [checkpoints_dir; "/"; dataset_name; "_"; py_str (PyInt (Z.of_nat epoch))].

Section LossAccounting.

Variables StateDict Ext : Type.

(** The collaborators.  [set_mode true] is [model.train()], [set_mode
    false] is [model.eval()]; [shuffle_data] is the dataset method the train
    phase calls (not defined in the repository); [run_batches] is the
    iteration of a phase's loader with everything done per batch, and
    returns [loss.item()] of every batch in order; [round5 x] is
    [round(x, 5)]. *)
Variable set_mode : bool -> Ext -> result Ext.
Variable shuffle_data : MolDatasetTriplet -> Ext -> result (MolDatasetTriplet * Ext).
Variable run_batches : bool -> nat -> MolDatasetTriplet -> Ext
                       -> result (list float64 * Ext).
Variable round5 : float64 -> float64.
Variable state_dict : Ext -> StateDict.
Variable now : Ext -> string.
Variable save_checkpoint : checkpoint StateDict -> string -> Ext -> result Ext.

Variable dataset_name : string.
Variable checkpoints_dir : string.
Variable use_fixed_training_triplets : bool.

(** One pass of [for state, loader in zip(["train", "test"], ...)];
    [is_train] is [state == "train"]. *)
Definition phase (is_train : bool) (epoch : nat)
    (st : loop_state StateDict Ext) (dataset : MolDatasetTriplet)
  : result (loop_state StateDict Ext * MolDatasetTriplet) :=
  ext1 <- set_mode is_train (ext st) ;;
  '(dataset1, ext2) <- (if is_train then shuffle_data dataset ext1
                        else Ok (dataset, ext1)) ;;
  '(losses, ext3) <- run_batches is_train epoch dataset1 ext2 ;;
  let running_loss := fold_left (SFadd 53 1024) losses (S754_zero false) in
  let batch_id' :=
    match losses with
    | [] => batch_id st
    | _ :: _ => Some (List.length losses - 1)%nat
    end in
  match batch_id' with
  | None => Raise UnboundLocalError
  | Some b =>
      let epoch_loss :=
        round5 (SFdiv 53 1024 running_loss (f64_of_Z (Z.of_nat b + 1))) in
      Ok ({| train_loss := if is_train then train_loss st ++ [epoch_loss]
                           else train_loss st;
             test_loss := if is_train then test_loss st
                          else test_loss st ++ [epoch_loss];
             batch_id := Some b;
             saved := saved st;
             ext := ext3 |}, dataset1)
  end.

(** The two phases of an epoch and its checkpoint. *)
Definition epoch_phases (epoch : nat) (st : loop_state StateDict Ext)
    (dataset : MolDatasetTriplet)
  : result (loop_state StateDict Ext * MolDatasetTriplet) :=
  '(st1, dataset1) <- phase true epoch st dataset ;;
  '(st2, dataset2) <- phase false epoch st1 dataset1 ;;
  let checkpoint :=
    {| ck_epoch := epoch;
       ck_model_state_dict := state_dict (ext st2);
       ck_dataset := dataset_name;
       ck_train_loss := train_loss st2;
       ck_test_loss := test_loss st2;
       ck_used_fixed_training_triplets := use_fixed_training_triplets;
       ck_save_dttm := now (ext st2) |} in
  let checkpoint_path := checkpoint_path checkpoints_dir dataset_name epoch in
  ext' <- save_checkpoint checkpoint checkpoint_path (ext st2) ;;
  Ok ({| train_loss := train_loss st2; test_loss := test_loss st2;
         batch_id := batch_id st2;
         saved := saved st2 ++ [(checkpoint_path, checkpoint)];
         ext := ext' |}, dataset2).

(** The locals before the first epoch. *)
Definition first_state (e : Ext) : loop_state StateDict Ext :=
  {| train_loss := []; test_loss := []; batch_id := None; saved := [];
     ext := e |}.

(** [pd.DataFrame({"epoch": ..., "train_loss": ..., "test_loss": ...})]:
    the columns must have one length. *)
Definition report_df (n_epochs : nat) (st : loop_state StateDict Ext)
  : result (list (nat * float64 * float64)) :=
  if (List.length (train_loss st) =? n_epochs)%nat
     && (List.length (test_loss st) =? n_epochs)%nat then
    Ok (combine (combine (seq 0 n_epochs) (train_loss st)) (test_loss st))
  else Raise ValueError.

(** [train_triplet] with its accounting: the loop of [train_triplet] run
    on these phases, then the report. *)
Definition train_triplet_report (np : NumpyRandom) (fresh : np_state np)
    (e : Ext) (dataset : MolDatasetTriplet) (n_epochs : nat)
  : result (loop_state StateDict Ext * list (nat * float64 * float64)) :=
  match train_triplet np (loop_state StateDict Ext) epoch_phases fresh
          (first_state e) dataset n_epochs use_fixed_training_triplets with
  | (Raise err, _) => Raise err
  | (Ok st, _) =>
      report <- report_df n_epochs st ;;
      Ok (st, report)
  end.

End LossAccounting.

(** ** Instances to run the definitions on *)

(** A linear congruential generator behind both interfaces.  It stands in
    for the Mersenne twisters of numpy and of Python wherever a definition
    is evaluated on an example; no theorem depends on it. *)
Definition lcg_next (g : Z) : Z := (g * 1103515245 + 12345) mod 2 ^ 31.

Definition lcg_draw (n : nat) (g : Z) : nat * Z :=
  (Z.to_nat (g mod Z.of_nat n), lcg_next g).

Definition lcg_draw_lt (n : nat) (g : Z) :
  (0 < n)%nat -> (fst (lcg_draw n g) < n)%nat.
Proof.
  intros Hn. unfold lcg_draw. cbn [fst].
  assert (0 <= g mod Z.of_nat n < Z.of_nat n) by (apply Z.mod_pos_bound; lia).
  lia.
Qed.

Definition lcg_numpy : NumpyRandom :=
  {| np_state := Z; np_seed := fun s => s;
     np_randint := lcg_draw; np_randint_lt := lcg_draw_lt |}.

Definition lcg_python : PyRandom :=
  {| py_state := Z; py_randbelow := lcg_draw; py_randbelow_lt := lcg_draw_lt |}.

(** A store of [zeros] records labelled 0 followed by [ones] records
    labelled 1, each with a two-bit fingerprint and a SMILES string. *)
Definition molecule_X (label : Z) : list float64 := [f64_of_Z label; f64_of_Z 1].

Definition store_of (zeros ones : nat) : dc_Datset :=
  {| dc_X := repeat (molecule_X 0) zeros ++ repeat (molecule_X 1) ones;
     dc_y := repeat (f64_of_Z 0) zeros ++ repeat (f64_of_Z 1) ones;
     dc_ids := repeat "C" zeros ++ repeat "CO" ones |}.

(** A store whose fingerprints tell its records apart: record [k] with
    the label [l] has the fingerprint [l, k]. *)
Definition numbered_store (labels : list Z) : dc_Datset :=
  {| dc_X := map (fun kl => [f64_of_Z (snd kl); f64_of_Z (Z.of_nat (fst kl))])
                 (combine (seq 0 (List.length labels)) labels);
     dc_y := map f64_of_Z labels;
     dc_ids := map (fun _ => "C") labels |}.

(** A loader that is not shuffled, with batches of one: [enumerate(loader)]
    asks the dataset for the items [0 .. len(dataset) - 1] in turn. *)
Fixpoint fetch_items (py : PyRandom) (dataset : MolDatasetTriplet)
    (ids : list nat) : drawing py (list (pyobj * pyobj * pyobj * pyobj)) :=
  match ids with
  | [] => pure py (Ok [])
  | id0 :: rest =>
      and_then py (__getitem__ py dataset id0) (fun item =>
      and_then py (fetch_items py dataset rest) (fun items =>
      pure py (Ok (item :: items))))
  end.

(** The batch loops of the two phases over such loaders, the train loader
    over the training dataset and the test loader over [test_dataset]: one
    loss per item, taken to be 1.0 (the model and the loss are outside the
    repository).  The state of the world outside is the generator of
    [random]. *)
Definition sequential_batches (py : PyRandom) (test_dataset : MolDatasetTriplet)
    (is_train : bool) (epoch : nat) (dataset : MolDatasetTriplet)
    (g : py_state py) : result (list float64 * py_state py) :=
  let served := if is_train then dataset else test_dataset in
  match fetch_items py served (seq 0 (n_molecules served)) g with
  | (Ok items, g') => Ok (map (fun _ => f64_of_Z 1) items, g')
  | (Raise e, _) => Raise e
  end.

(** The phases of an epoch over those loaders.  The method [shuffle_data]
    that the train phase calls, and that the repository does not define, is
    supplied as one that leaves the dataset as it is; the model's modes, the
    clock and the checkpoint file do nothing. *)
Definition served_phases (py : PyRandom) (test_dataset : MolDatasetTriplet)
  : nat -> loop_state unit (py_state py) -> MolDatasetTriplet
    -> result (loop_state unit (py_state py) * MolDatasetTriplet) :=
  epoch_phases unit (py_state py) (fun _ g => Ok g) (fun d g => Ok (d, g))
    (sequential_batches py test_dataset) (fun x => x) (fun _ => tt)
    (fun _ => "2024-01-01 00:00:00") (fun _ _ g => Ok g)
    "hiv" "checkpoints" true.

(** Loaders that return the same three splits for every name. *)
Definition three_splits : DeepChem :=
  {| Splitter := unit;
     load_hiv := fun _ _ => Ok [store_of 3 1; store_of 2 1; store_of 2 1];
     load_delaney := fun _ _ => Ok [store_of 3 1; store_of 2 1; store_of 2 1];
     load_lipo := fun _ _ => Ok [store_of 3 1; store_of 2 1; store_of 2 1];
     load_freesolv := fun _ _ => Ok [store_of 3 1; store_of 2 1; store_of 2 1];
     load_tox21 := fun _ _ _ => Ok [store_of 3 1; store_of 2 1; store_of 2 1] |}.

(** ** Notions the properties are stated with *)

(** A dataset whose partitions are the ones its own labels define. *)
Definition partitions_current (self : MolDatasetTriplet) : Prop :=
  indices_0 self = rows_equal (y self) 0 /\
  indices_1 self = rows_equal (y self) 1.

(** The object the constructor has built when it reaches the branches
    that keep the store. *)
Definition kept_store (dc_dataset : dc_Datset) (train oversample : bool)
    (use_fixed_triplets : pyval) (seed : option Z) : MolDatasetTriplet :=
  let super := MolDataset_init dc_dataset in
  {| X := md_X super; y := md_y super; smiles := md_smiles super;
     n_molecules := md_n_molecules super;
     train := train; oversample := oversample;
     use_fixed_triplets := use_fixed_triplets;
     seed_fixed_triplets := seed;
     indices_0 := rows_equal (md_y super) 0;
     indices_1 := rows_equal (md_y super) 1;
     fixed_triplets := None |}.

(** A seed [RandomState] accepts: [None], or an integer of 32 bits. *)
Definition seed_accepted (seed : option Z) : Prop :=
  match seed with
  | None => True
  | Some s => 0 <= s < 2 ^ 32
  end.

(** The value the loop variable [anchor_label] holds after the records [t],
    having held [before] (or nothing) before them. *)
Definition leaked_label (t : list float32) (before : option float64)
  : option float64 :=
  fold_left (fun _ v => Some (f32_to_f64 v)) t before.

(** [1 + 2 + ... + e] *)
Fixpoint sum_to (e : nat) : Z :=
  match e with
  | O => 0
  | S e' => sum_to e' + Z.of_nat e
  end.

(** What epoch [e] does to a training dataset constructed with the seed
    [s0], in fixed mode: from epoch 1 on a refresh, then the phases. *)
Definition epoch_events (s0 : Z) (e : nat) : list event :=
  (if (0 <? e)%nat then [Refreshed e (s0 + sum_to e)] else [])
  ++ [Phases e (Some (s0 + sum_to e))].


(** [floor(log2(num / den))] for two positive integers. *)
Definition ilog2_ratio (num den : Z) : Z :=
  let k := Z.log2 den + 1 in Z.log2 (num * 2 ^ k / den) - k.

(** The fraction [n / d] rounded to the nearest integer, a fraction half
    way between two integers going to the even one. *)
Definition half_even (n d : Z) : Z :=
  match 2 * (n mod d) ?= d with
  | Lt => n / d
  | Eq => if Z.even (n / d) then n / d else n / d + 1
  | Gt => n / d + 1
  end.

(** The quotient [num / den] of two integers, [num >= 0] and [den > 0],
    as a real number, rounded to the nearest number with [prec] significant
    bits, ties to even: the float [m * 2^e] with [2^(prec-1) <= m < 2^prec].
    The exponent is not bounded. *)
Definition nearest_even (prec num den : Z) : spec_float :=
  if num =? 0 then S754_zero false
  else
    let e := ilog2_ratio num den - (prec - 1) in
    let m := half_even (num * 2 ^ Z.max (- e) 0) (den * 2 ^ Z.max e 0) in
    if m =? 2 ^ prec then S754_finite false (Z.to_pos (2 ^ (prec - 1))) (e + 1)
    else S754_finite false (Z.to_pos m) e.

(** The specification's weight [count(label=0) / count(label=1)] as a
    binary32 tensor entry can hold it: the quotient rounded to binary64
    (Python's float), and that number rounded to binary32 (torch's default
    dtype). *)
Definition rounded_quotient (n0 n1 : Z) : float32 :=
  match nearest_even 53 n0 n1 with
  | S754_finite _ m e =>
      nearest_even 24 (Zpos m * 2 ^ Z.max e 0) (2 ^ Z.max (- e) 0)
  | z => z
  end.

(** The float [x] is the fraction [num / den], exactly. *)
Definition is_fraction (x : spec_float) (num den : Z) : Prop :=
  match x with
  | S754_zero _ => num = 0
  | S754_finite false m e =>
      Zpos m * 2 ^ Z.max e 0 * den = num * 2 ^ Z.max (- e) 0
  | _ => False
  end.

(** Where the fraction [r / d], in [0, 1), lies with respect to one half. *)
Definition loc_of (r d : Z) : location :=
  if r =? 0 then loc_Exact else loc_Inexact (2 * r ?= d).

(** A record of [shr] stands for the fraction [n / d]: its mantissa is the
    integer part, its two bits place the rest with respect to one half. *)
Definition stands_for (mrs : shr_record) (n d : Z) : Prop :=
  shr_m mrs = n / d /\ loc_of_shr_record mrs = loc_of (n mod d) d.

(** The two draws of the on-the-fly branch: positive first, from the
    partition of the anchor's class, then negative from the other one. *)
Definition two_draws (py : PyRandom) (self : MolDatasetTriplet)
    (anchor_label : float64) : drawing py (nat * nat) :=
  if f64_eq anchor_label 1 then
    and_then py (random_choice py (indices_1 self)) (fun positive_index =>
    and_then py (random_choice py (indices_0 self)) (fun negative_index =>
    pure py (Ok (positive_index, negative_index))))
  else
    and_then py (random_choice py (indices_0 self)) (fun positive_index =>
    and_then py (random_choice py (indices_1 self)) (fun negative_index =>
    pure py (Ok (positive_index, negative_index)))).

(** The accounting of [train_triplet] after [e] epochs: [e] losses in
    either history and [e] checkpoints, the one of epoch [k] under the path
    of epoch [k] and holding the histories as they were after epoch [k]. *)
Definition accounted {StateDict Ext : Type} (checkpoints_dir dataset_name : string)
    (fixed : bool) (e : nat) (st : loop_state StateDict Ext) : Prop :=
  List.length (train_loss st) = e
  /\ List.length (test_loss st) = e
  /\ List.length (saved st) = e
  /\ forall k path ck,
       nth_error (saved st) k = Some (path, ck) ->
       path = checkpoint_path checkpoints_dir dataset_name k
       /\ ck_epoch ck = k
       /\ ck_dataset ck = dataset_name
       /\ ck_used_fixed_training_triplets ck = fixed
       /\ ck_train_loss ck = firstn (S k) (train_loss st)
       /\ ck_test_loss ck = firstn (S k) (test_loss st).

(** * Properties *)

(** ** Reasoning about results *)

Lemma bind_ok {A B : Type} (c : result A) (k : A -> result B) (b : B) :
  bind c k = Ok b -> exists a, c = Ok a /\ k a = Ok b.
Proof.
  destruct c as [a | e]; cbn; intros H; [eauto | discriminate].
Qed.

(** Splits a hypothesis [x <- c ;; k = Ok b] into [c = Ok a] and
    [k a = Ok b], as long as the head of the hypothesis is a bind. *)
Ltac bind_inv H :=
  repeat match type of H with
         | bind ?c _ = Ok _ =>
             let a := fresh "a" in
             let E := fresh "E" in
             apply bind_ok in H; destruct H as (a & E & H)
         | (let (_, _) := ?p in _) = Ok _ => destruct p
         | (match ?p with pair _ _ => _ end) = Ok _ => destruct p
         end.

(** ** Label partitions *)

Lemma f32_of_Z_0 : f32_of_Z 0 = S754_zero false.
Proof. vm_compute. reflexivity. Qed.

Lemma f32_of_Z_1 : f32_of_Z 1 = S754_finite false 8388608 (-23).
Proof. vm_compute. reflexivity. Qed.

Lemma f32_eq_zero_one (v : float32) :
  f32_eq v 0 = true -> f32_eq v 1 = true -> False.
Proof.
  unfold f32_eq. rewrite f32_of_Z_0, f32_of_Z_1.
  destruct v as [s | s | | s m e]; try destruct s;
    cbv [SFeqb SFcompare]; congruence.
Qed.

Lemma In_rows_equal_from (t : list float32) (c : Z) :
  forall k i,
    In i (rows_equal_from k t c) <->
    (k <= i)%nat /\ exists v, nth_error t (i - k) = Some v /\ f32_eq v c = true.
Proof.
  induction t as [| v t IH]; intros k i; cbn [rows_equal_from].
  - split; [intros [] |].
    intros (_ & w & Hw & _). destruct (i - k)%nat; discriminate.
  - assert (Hrest :
        In i (rows_equal_from (S k) t c) <->
        (k < i)%nat /\ exists w, nth_error (v :: t) (i - k) = Some w /\ f32_eq w c = true).
    { rewrite IH. split.
      - intros (Hk & w & Hw & Hc). split; [lia |].
        exists w. split; [| exact Hc].
        replace (i - k)%nat with (S (i - S k)) by lia. exact Hw.
      - intros (Hk & w & Hw & Hc). split; [lia |].
        exists w. split; [| exact Hc].
        replace (i - k)%nat with (S (i - S k)) in Hw by lia. exact Hw. }
    destruct (f32_eq v c) eqn:Hv.
    + cbn [In]. rewrite Hrest. split.
      * intros [<- | (Hk & Hw)].
        -- split; [lia |]. exists v. rewrite Nat.sub_diag. auto.
        -- split; [lia | exact Hw].
      * intros (Hk & Hw).
        destruct (Nat.eq_dec k i) as [-> | Hne]; [now left | right].
        split; [lia | exact Hw].
    + rewrite Hrest. split.
      * intros (Hk & Hw). split; [lia | exact Hw].
      * intros (Hk & w & Hw & Hc).
        destruct (Nat.eq_dec k i) as [-> | Hne].
        -- rewrite Nat.sub_diag in Hw. cbn in Hw. congruence.
        -- split; [lia |]. now exists w.
Qed.

Lemma In_rows_equal (t : list float32) (c : Z) (i : nat) :
  In i (rows_equal t c) <-> exists v, nth_error t i = Some v /\ f32_eq v c = true.
Proof.
  unfold rows_equal. rewrite In_rows_equal_from, Nat.sub_0_r.
  split; [intros (_ & H); exact H | intros H; split; [lia | exact H]].
Qed.

Lemma rows_equal_lt (t : list float32) (c : Z) (i : nat) :
  In i (rows_equal t c) -> (i < List.length t)%nat.
Proof.
  rewrite In_rows_equal. intros (v & Hv & _).
  apply nth_error_Some. congruence.
Qed.

Lemma rows_equal_from_NoDup (t : list float32) (c : Z) :
  forall k, NoDup (rows_equal_from k t c).
Proof.
  induction t as [| v t IH]; intros k; cbn [rows_equal_from].
  - constructor.
  - destruct (f32_eq v c); [| apply IH].
    constructor; [| apply IH].
    rewrite In_rows_equal_from. intros (Hk & _). lia.
Qed.

(** The two partitions of a binary-labelled tensor: every row is in one of
    them and in one only, and they hold nothing but rows. *)
Lemma rows_equal_partition (t : list float32) :
  Forall (fun v => f32_eq v 0 = true \/ f32_eq v 1 = true) t ->
  (forall i, (i < List.length t)%nat ->
     (In i (rows_equal t 0) /\ ~ In i (rows_equal t 1)) \/
     (~ In i (rows_equal t 0) /\ In i (rows_equal t 1)))
  /\ (forall i, In i (rows_equal t 0) \/ In i (rows_equal t 1)
                <-> (i < List.length t)%nat).
Proof.
  intros Hbin.
  assert (Hcase : forall i, (i < List.length t)%nat ->
     (In i (rows_equal t 0) /\ ~ In i (rows_equal t 1)) \/
     (~ In i (rows_equal t 0) /\ In i (rows_equal t 1))).
  { intros i Hi.
    destruct (nth_error t i) as [v |] eqn:Hv;
      [| apply nth_error_None in Hv; lia].
    rewrite Forall_forall in Hbin.
    destruct (Hbin v (nth_error_In _ _ Hv)) as [H0 | H1].
    - left. split.
      + apply In_rows_equal. eauto.
      + rewrite In_rows_equal. intros (w & Hw & Hc).
        rewrite Hv in Hw. injection Hw as <-. exact (f32_eq_zero_one v H0 Hc).
    - right. split.
      + rewrite In_rows_equal. intros (w & Hw & Hc).
        rewrite Hv in Hw. injection Hw as <-. exact (f32_eq_zero_one v Hc H1).
      + apply In_rows_equal. eauto. }
  split; [exact Hcase |].
  intros i. split.
  - intros [H | H]; eapply rows_equal_lt; exact H.
  - intros Hi. destruct (Hcase i Hi) as [(H & _) | (_ & H)]; auto.
Qed.

Section Construction.

Variable np : NumpyRandom.

(** Every branch of the constructor that returns leaves the partitions of
    the store it leaves: the original ones, or the ones recomputed from
    the oversampled labels. *)
Lemma init_partitions_current fresh dc_dataset train oversample
    use_fixed_triplets seed self :
  MolDatasetTriplet_init np fresh dc_dataset train oversample
    use_fixed_triplets seed = Ok self ->
  partitions_current self.
Proof.
  unfold MolDatasetTriplet_init, partitions_current.
  destruct oversample, (truthy use_fixed_triplets); cbn [andb negb];
    intros H.
  - discriminate.
  - bind_inv H. injection H as <-. cbn. auto.
  - bind_inv H. injection H as <-. cbn. auto.
  - injection H as <-. cbn. auto.
Qed.

End Construction.

(** C9.  Over binary labels the partitions of a constructed triplet dataset
    are exclusive and exhaustive: every store index lies in exactly one of
    [indices_0] and [indices_1], and their union is the set of store
    indices.  This holds whichever branch of the constructor returned the
    dataset, the store and the partitions being the ones the dataset holds
    (the originals, or the ones recomputed after oversampling). *)
Theorem partitions_exclusive_exhaustive np fresh dc_dataset train oversample
    use_fixed_triplets seed self :
  MolDatasetTriplet_init np fresh dc_dataset train oversample
    use_fixed_triplets seed = Ok self ->
  Forall (fun v => f32_eq v 0 = true \/ f32_eq v 1 = true) (y self) ->
  (forall i, (i < List.length (y self))%nat ->
     (In i (indices_0 self) /\ ~ In i (indices_1 self)) \/
     (~ In i (indices_0 self) /\ In i (indices_1 self)))
  /\ (forall i, In i (indices_0 self) \/ In i (indices_1 self)
                <-> (i < List.length (y self))%nat).
Proof.
  intros Hinit Hbin.
  destruct (init_partitions_current np _ _ _ _ _ _ _ Hinit) as [-> ->].
  apply rows_equal_partition. exact Hbin.
Qed.

(** A dataset constructed in fixed mode over two records labelled 0 and one
    labelled 1: row 2 is in [indices_1] and not in [indices_0]. *)
Lemma partitions_exclusive_exhaustive_witness :
  match MolDatasetTriplet_init lcg_numpy 0 (store_of 2 1) false false
          (PyBool true) (Some 7) with
  | Ok self =>
      Forall (fun v => f32_eq v 0 = true \/ f32_eq v 1 = true) (y self)
      /\ ((In 2%nat (indices_0 self) /\ ~ In 2%nat (indices_1 self)) \/
          (~ In 2%nat (indices_0 self) /\ In 2%nat (indices_1 self)))
  | Raise _ => False
  end.
Proof.
  destruct (MolDatasetTriplet_init lcg_numpy 0 (store_of 2 1) false false
              (PyBool true) (Some 7)) as [self | e] eqn:Hinit;
    [| vm_compute in Hinit; discriminate Hinit].
  assert (Hy : y self = [f32_of_Z 0; f32_of_Z 0; f32_of_Z 1]).
  { pose proof Hinit as Hvalue. vm_compute in Hvalue.
    injection Hvalue as <-. vm_compute. reflexivity. }
  assert (Hbin : Forall (fun v => f32_eq v 0 = true \/ f32_eq v 1 = true) (y self)).
  { rewrite Hy.
    constructor; [left; vm_compute; reflexivity |].
    constructor; [left; vm_compute; reflexivity |].
    constructor; [right; vm_compute; reflexivity | constructor]. }
  split; [exact Hbin |].
  apply (proj1 (partitions_exclusive_exhaustive _ _ _ _ _ _ _ _ Hinit Hbin)).
  rewrite Hy. cbn [List.length]. lia.
Defined.

(** ** The branches of the constructor *)

Section Branches.

Variable np : NumpyRandom.
Variable py : PyRandom.

Lemma init_plain fresh dc_dataset train use_fixed_triplets seed :
  truthy use_fixed_triplets = false ->
  MolDatasetTriplet_init np fresh dc_dataset train false use_fixed_triplets seed
  = Ok (kept_store dc_dataset train false use_fixed_triplets seed).
Proof.
  intros Hf. unfold MolDatasetTriplet_init. rewrite Hf. reflexivity.
Qed.

Lemma init_fixed fresh dc_dataset train use_fixed_triplets seed :
  truthy use_fixed_triplets = true ->
  MolDatasetTriplet_init np fresh dc_dataset train false use_fixed_triplets seed
  = (cache <- __get_fixed_dataset np fresh
                (kept_store dc_dataset train false use_fixed_triplets seed) ;;
     Ok (set_fixed_triplets
           (kept_store dc_dataset train false use_fixed_triplets seed) cache)).
Proof.
  intros Hf. unfold MolDatasetTriplet_init. rewrite Hf. reflexivity.
Qed.

(** The guard of the constructor, for every true value of the flag. *)
Lemma init_wrong_parameters fresh dc_dataset train use_fixed_triplets seed :
  truthy use_fixed_triplets = true ->
  MolDatasetTriplet_init np fresh dc_dataset train true use_fixed_triplets seed
  = Raise (Exception (wrong_parameters_msg true use_fixed_triplets)).
Proof.
  intros Hf. unfold MolDatasetTriplet_init. rewrite Hf. reflexivity.
Qed.

(** The oversampling branch concatenates the SMILES arrays with
    [torch.cat] and never gets past it. *)
Lemma init_oversample_never_returns fresh dc_dataset train
    use_fixed_triplets seed self :
  truthy use_fixed_triplets = false ->
  MolDatasetTriplet_init np fresh dc_dataset train true use_fixed_triplets seed
  <> Ok self.
Proof.
  intros Hf H. unfold MolDatasetTriplet_init in H. rewrite Hf in H.
  cbn [andb negb] in H. bind_inv H.
  match goal with
  | E : torch_cat_ndarray (repeat ?s ?m) = Ok _ |- _ =>
      unfold torch_cat_ndarray in E; destruct (repeat s m); discriminate E
  end.
Qed.

(** What the statements before that concatenation compute: the labels
    [y_0] followed by [m] copies of [y_1] (and likewise for [X]) have
    [len(indices_0) + m * len(indices_1)] rows. *)
Lemma index_rows_length {A : Type} (t : list A) (idx : list nat) (rows : list A) :
  index_rows t idx = Ok rows -> List.length rows = List.length idx.
Proof.
  revert rows. induction idx as [| i idx IH]; cbn [index_rows]; intros rows H.
  - injection H as <-. reflexivity.
  - bind_inv H. injection H as <-. cbn. f_equal. now apply IH.
Qed.

Lemma concat_repeat_length {A : Type} (l : list A) (m : nat) :
  List.length (List.concat (repeat l m)) = (m * List.length l)%nat.
Proof.
  induction m as [| m IH]; cbn; [reflexivity |].
  rewrite length_app, IH. reflexivity.
Qed.

Lemma oversampled_rows {A : Type} (t : list A) (i0 i1 : list nat) (m : nat)
    (t_0 t_1 oversampled_t_1 t' : list A) :
  index_rows t i0 = Ok t_0 ->
  index_rows t i1 = Ok t_1 ->
  torch_cat (repeat t_1 m) = Ok oversampled_t_1 ->
  torch_cat [t_0; oversampled_t_1] = Ok t' ->
  List.length t' = (List.length i0 + m * List.length i1)%nat.
Proof.
  intros H0 H1 Hm H'.
  apply index_rows_length in H0, H1.
  assert (Hlen : List.length oversampled_t_1 = (m * List.length t_1)%nat).
  { unfold torch_cat in Hm. destruct m as [| m]; [discriminate |].
    cbn [repeat] in Hm. injection Hm as <-.
    exact (concat_repeat_length t_1 (S m)). }
  unfold torch_cat in H'. injection H' as <-.
  cbn [List.concat]. rewrite app_nil_r, length_app, Hlen. lia.
Qed.

Lemma index_rows_In {A : Type} (t : list A) (idx : list nat) (rows : list A) :
  index_rows t idx = Ok rows -> forall r, In r rows -> In r t.
Proof.
  revert rows. induction idx as [| i idx IH]; cbn [index_rows]; intros rows H r Hr.
  - injection H as <-. destruct Hr.
  - bind_inv H. injection H as <-. destruct Hr as [<- | Hr].
    + unfold list_item in E. destruct (nth_error t i) eqn:Hi; [| discriminate].
      injection E as <-. eapply nth_error_In. exact Hi.
    + eapply IH; eauto.
Qed.

Lemma torch_cat_In {A : Type} (ts : list (list A)) (t : list A) (v : A) :
  torch_cat ts = Ok t -> In v t -> exists part, In part ts /\ In v part.
Proof.
  unfold torch_cat. destruct ts as [| first others]; [discriminate |].
  intros H Hv. injection H as <-.
  exact (proj1 (in_concat (first :: others) v) Hv).
Qed.

(** The labels the oversampling branch assembles are labels of the
    original store, so binary if those are, and the partitions it
    recomputes from them are exclusive and exhaustive again. *)
Lemma oversampled_labels_partition (labels : list float32) (i0 i1 : list nat)
    (m : nat) (y_0 y_1 oversampled_y_1 y' : list float32) :
  Forall (fun v => f32_eq v 0 = true \/ f32_eq v 1 = true) labels ->
  index_rows labels i0 = Ok y_0 ->
  index_rows labels i1 = Ok y_1 ->
  torch_cat (repeat y_1 m) = Ok oversampled_y_1 ->
  torch_cat [y_0; oversampled_y_1] = Ok y' ->
  (forall i, (i < List.length y')%nat ->
     (In i (rows_equal y' 0) /\ ~ In i (rows_equal y' 1)) \/
     (~ In i (rows_equal y' 0) /\ In i (rows_equal y' 1)))
  /\ (forall i, In i (rows_equal y' 0) \/ In i (rows_equal y' 1)
                <-> (i < List.length y')%nat).
Proof.
  intros Hbin H0 H1 Hm H'.
  apply rows_equal_partition.
  rewrite Forall_forall in Hbin |- *. intros v Hv. apply Hbin.
  destruct (torch_cat_In _ _ _ H' Hv) as (part & [<- | [<- | []]] & Hpart).
  - exact (index_rows_In _ _ _ H0 v Hpart).
  - destruct (torch_cat_In _ _ _ Hm Hpart) as (copy & Hcopy & Hvcopy).
    apply repeat_spec in Hcopy. subst copy.
    exact (index_rows_In _ _ _ H1 v Hvcopy).
Qed.

(** A dataset built for training without fixed triplets has no cache, and
    [__getitem__] looks for one. *)
Lemma getitem_training_unfixed fresh dc_dataset oversample use_fixed_triplets
    seed self id0 g :
  truthy use_fixed_triplets = false ->
  MolDatasetTriplet_init np fresh dc_dataset true oversample
    use_fixed_triplets seed = Ok self ->
  __getitem__ py self id0 g = (Raise AttributeError, g).
Proof.
  intros Hf Hinit. destruct oversample.
  - now apply init_oversample_never_returns in Hinit.
  - rewrite init_plain in Hinit by exact Hf. injection Hinit as <-.
    unfold __getitem__, kept_store. cbn. rewrite Hf. reflexivity.
Qed.

End Branches.

(** C5.  With [oversample] and [use_fixed_triplets] both true the
    constructor raises its configuration error, whose message names the two
    flags: for every store, every [train] and every seed, with every
    generator and whatever the operating system would supply.  The error
    comes before the store is touched and before a cache is built: it is
    the outcome also for the stores on which oversampling or cache
    generation would raise on their own. *)
Theorem init_oversample_and_fixed_raises np fresh dc_dataset train seed :
  MolDatasetTriplet_init np fresh dc_dataset train true (PyBool true) seed
  = Raise (Exception
      "MolDatasetTriplet initiated with wrong parameters: oversample(value: True) and use_fixed_triplets(value: True)").
Proof.
  rewrite init_wrong_parameters by reflexivity. reflexivity.
Qed.

(** A store with as many fingerprints as labels stays so in every dataset
    constructed from it. *)
Lemma init_store_aligned np fresh dc_dataset train_flag oversample_flag
    fixed_flag seed self :
  List.length (dc_X dc_dataset) = List.length (dc_y dc_dataset) ->
  MolDatasetTriplet_init np fresh dc_dataset train_flag oversample_flag
    fixed_flag seed = Ok self ->
  List.length (X self) = List.length (y self).
Proof.
  intros Hlen Hinit.
  destruct oversample_flag, (truthy fixed_flag) eqn:Hf.
  - rewrite init_wrong_parameters in Hinit by exact Hf. discriminate.
  - now apply init_oversample_never_returns in Hinit.
  - rewrite init_fixed in Hinit by exact Hf.
    apply bind_ok in Hinit. destruct Hinit as (cache & _ & Hself).
    injection Hself as <-. cbn. now rewrite !length_map.
  - rewrite init_plain in Hinit by exact Hf.
    injection Hinit as <-. cbn. now rewrite !length_map.
Qed.

(** ** Fixed-triplet generation *)

Lemma leaked_label_last (t : list float32) (v : float32) (before : option float64) :
  leaked_label (t ++ [v]) before = Some (f32_to_f64 v).
Proof.
  unfold leaked_label. rewrite fold_left_app. reflexivity.
Qed.

Section FixedTriplets.

Variable np : NumpyRandom.

Lemma RandomState_ok fresh seed :
  seed_accepted seed -> exists g, RandomState np fresh seed = Ok g.
Proof.
  destruct seed as [s |]; cbn [RandomState seed_accepted]; intros Hs.
  - assert (H : (0 <=? s) && (s <? 2 ^ 32) = true).
    { apply andb_true_intro. split; [apply Z.leb_le | apply Z.ltb_lt]; lia. }
    unfold RandomState. rewrite H. eauto.
  - eauto.
Qed.

Lemma choice_ok (a : list nat) (g : np_state np) :
  a <> [] -> exists v g', choice np a g = Ok (v, g') /\ In v a.
Proof.
  intros Ha. unfold choice. destruct a as [| x a']; [congruence |].
  pose proof (np_randint_lt np (List.length (x :: a')) g) as Hlt.
  destruct (np_randint np (List.length (x :: a')) g) as [k g'].
  cbn [fst] in Hlt.
  destruct (nth_error (x :: a') k) as [v |] eqn:Hk.
  - exists v, g'. unfold list_item. rewrite Hk. cbn [bind].
    split; [reflexivity | eapply nth_error_In; exact Hk].
  - apply nth_error_None in Hk. cbn [List.length] in Hlt, Hk. lia.
Qed.

(** With two non-empty partitions the loop draws, for each record, a
    positive index from the partition of the record's own label and a
    negative index from the other one, and leaves the last label in
    [anchor_label]. *)
Lemma fixed_loop_ok (i0 i1 : list nat) :
  i0 <> [] -> i1 <> [] ->
  forall (t : list float32) g acc_p acc_n before,
  exists pos neg,
    fixed_loop np (tolist t) i0 i1 g acc_p acc_n before
    = Ok (acc_p ++ pos, acc_n ++ neg, leaked_label t before)
    /\ Forall2 (fun v p => In p (if f64_eq (f32_to_f64 v) 1 then i1 else i0)) t pos
    /\ Forall2 (fun v n => In n (if f64_eq (f32_to_f64 v) 1 then i0 else i1)) t neg.
Proof.
  intros H0 H1. induction t as [| v t IH]; intros g acc_p acc_n before.
  - exists [], []. cbn. rewrite !app_nil_r. repeat split; constructor.
  - change (tolist (v :: t)) with ([f32_to_f64 v] :: tolist t).
    cbn [fixed_loop]. unfold list_item at 1. cbn [nth_error bind].
    destruct (f64_eq (f32_to_f64 v) 1) eqn:Hv.
    + destruct (choice_ok i1 g H1) as (p & g1 & -> & Hp). cbn [bind].
      destruct (choice_ok i0 g1 H0) as (n & g2 & -> & Hn). cbn [bind].
      destruct (IH g2 (acc_p ++ [p]) (acc_n ++ [n]) (Some (f32_to_f64 v)))
        as (pos & neg & -> & Hpos & Hneg).
      exists (p :: pos), (n :: neg).
      rewrite <- !app_assoc. cbn [app]. split; [reflexivity |].
      split; constructor; try assumption; rewrite Hv; assumption.
    + destruct (choice_ok i0 g H0) as (p & g1 & -> & Hp). cbn [bind].
      destruct (choice_ok i1 g1 H1) as (n & g2 & -> & Hn). cbn [bind].
      destruct (IH g2 (acc_p ++ [p]) (acc_n ++ [n]) (Some (f32_to_f64 v)))
        as (pos & neg & -> & Hpos & Hneg).
      exists (p :: pos), (n :: neg).
      rewrite <- !app_assoc. cbn [app]. split; [reflexivity |].
      split; constructor; try assumption; rewrite Hv; assumption.
Qed.

Lemma index_rows_ok {A : Type} (t : list A) (idx : list nat) :
  (forall i, In i idx -> (i < List.length t)%nat) ->
  exists rows, index_rows t idx = Ok rows
               /\ Forall2 (fun i r => nth_error t i = Some r) idx rows.
Proof.
  induction idx as [| i idx IH]; intros Hidx.
  - exists []. split; [reflexivity | constructor].
  - destruct IH as (rows & Hrows & Hall); [intros j Hj; apply Hidx; now right |].
    destruct (nth_error t i) as [r |] eqn:Hr.
    + exists (r :: rows). cbn [index_rows]. unfold list_item. rewrite Hr.
      cbn [bind]. rewrite Hrows. cbn [bind].
      split; [reflexivity | now constructor].
    + apply nth_error_None in Hr. specialize (Hidx i (or_introl eq_refl)). lia.
Qed.

Lemma Forall2_In_bound {A : Type} (P : A -> nat -> Prop) (bound : nat)
    (t : list A) (idx : list nat) :
  Forall2 P t idx ->
  (forall v i, P v i -> (i < bound)%nat) ->
  forall i, In i idx -> (i < bound)%nat.
Proof.
  intros Hall HP. induction Hall as [| v i t idx Hvi _ IH]; intros j Hj.
  - destruct Hj.
  - destruct Hj as [<- | Hj]; [eapply HP; exact Hvi | now apply IH].
Qed.

(** The cache [__get_fixed_dataset] builds for a dataset with records,
    with two non-empty partitions of rows of [X], and with a seed numpy
    accepts: all features, the features at the drawn positive and negative
    indices, and one scalar, the label of the last record. *)
Lemma get_fixed_dataset_ok fresh self :
  seed_accepted (seed_fixed_triplets self) ->
  indices_0 self <> [] -> indices_1 self <> [] -> y self <> [] ->
  (forall i, In i (indices_0 self) \/ In i (indices_1 self) ->
             (i < List.length (X self))%nat) ->
  exists pos neg positive_mf negative_mf l,
    fixed_indices np fresh self = Ok (pos, neg, Some l)
    /\ leaked_label (y self) None = Some l
    /\ Forall2 (fun v p => In p (if f64_eq (f32_to_f64 v) 1
                                 then indices_1 self else indices_0 self))
         (y self) pos
    /\ Forall2 (fun v n => In n (if f64_eq (f32_to_f64 v) 1
                                 then indices_0 self else indices_1 self))
         (y self) neg
    /\ Forall2 (fun i r => nth_error (X self) i = Some r) pos positive_mf
    /\ Forall2 (fun i r => nth_error (X self) i = Some r) neg negative_mf
    /\ __get_fixed_dataset np fresh self
       = Ok [Tensor2 (X self); Tensor2 positive_mf; Tensor2 negative_mf; PyFloat l].
Proof.
  intros Hseed H0 H1 Hy Hrows.
  destruct (RandomState_ok fresh _ Hseed) as (g & Hg).
  destruct (fixed_loop_ok _ _ H0 H1 (y self) g [] [] None)
    as (pos & neg & Hloop & Hpos & Hneg).
  cbn [app] in Hloop.
  assert (Hl : exists l, leaked_label (y self) None = Some l).
  { destruct (exists_last Hy) as (t & v & ->).
    rewrite leaked_label_last. eauto. }
  destruct Hl as (l & Hl). rewrite Hl in Hloop.
  assert (Hfi : fixed_indices np fresh self = Ok (pos, neg, Some l)).
  { unfold fixed_indices. rewrite Hg. cbn [bind]. exact Hloop. }
  destruct (index_rows_ok (X self) pos) as (positive_mf & Hpmf & Hprows).
  { eapply Forall2_In_bound; [exact Hpos |].
    intros v i. cbv beta. destruct (f64_eq (f32_to_f64 v) 1); auto. }
  destruct (index_rows_ok (X self) neg) as (negative_mf & Hnmf & Hnrows).
  { eapply Forall2_In_bound; [exact Hneg |].
    intros v i. cbv beta. destruct (f64_eq (f32_to_f64 v) 1); auto. }
  exists pos, neg, positive_mf, negative_mf, l.
  repeat (split; [assumption |]).
  unfold __get_fixed_dataset. rewrite Hfi. cbn [bind].
  rewrite Hpmf. cbn [bind]. rewrite Hnmf. reflexivity.
Qed.

End FixedTriplets.

(** ** Reading the cache *)

Section Cache.

Variable np : NumpyRandom.
Variable py : PyRandom.

Lemma fixed_loop_lengths (i0 i1 : list nat) :
  forall labels g acc_p acc_n before pos neg last,
    fixed_loop np labels i0 i1 g acc_p acc_n before = Ok (pos, neg, last) ->
    List.length pos = (List.length acc_p + List.length labels)%nat /\
    List.length neg = (List.length acc_n + List.length labels)%nat.
Proof.
  induction labels as [| label_packed rest IH];
    intros g acc_p acc_n before pos neg last H; cbn [fixed_loop] in H.
  - injection H as <- <- _. cbn. lia.
  - apply bind_ok in H. destruct H as (a & _ & H).
    destruct (f64_eq a 1); bind_inv H;
      apply IH in H; rewrite !length_app in H; cbn [List.length] in *; lia.
Qed.

(** Whatever [__get_fixed_dataset] returns is a list of three tensors
    with one row per record and one Python float. *)
Lemma get_fixed_dataset_shape fresh self cache :
  __get_fixed_dataset np fresh self = Ok cache ->
  exists positive_mf negative_mf l,
    cache = [Tensor2 (X self); Tensor2 positive_mf; Tensor2 negative_mf; PyFloat l]
    /\ List.length positive_mf = List.length (y self)
    /\ List.length negative_mf = List.length (y self).
Proof.
  unfold __get_fixed_dataset. intros H.
  apply bind_ok in H. destruct H as (((pos & neg) & last) & Hfi & H).
  bind_inv H. destruct last as [l |]; [| discriminate].
  injection H as <-.
  unfold fixed_indices in Hfi. bind_inv Hfi.
  apply fixed_loop_lengths in Hfi. destruct Hfi as (Hp & Hn).
  unfold tolist in Hp, Hn. rewrite length_map in Hp, Hn. cbn in Hp, Hn.
  match goal with
  | E1 : index_rows _ pos = Ok ?p, E2 : index_rows _ neg = Ok ?n |- _ =>
      exists p, n, l;
      apply index_rows_length in E1, E2
  end.
  repeat split; congruence.
Qed.

(** [__getitem__] on a cache of that shape: the three tensors are read at
    row [id0], then the float is subscripted. *)
Lemma getitem_cache_raises self anchor_mf positive_mf negative_mf l id0 g :
  negb (truthy (use_fixed_triplets self)) && Bool.eqb (train self) false = false ->
  fixed_triplets self
  = Some [Tensor2 anchor_mf; Tensor2 positive_mf; Tensor2 negative_mf; PyFloat l] ->
  (id0 < List.length anchor_mf)%nat ->
  (id0 < List.length positive_mf)%nat ->
  (id0 < List.length negative_mf)%nat ->
  __getitem__ py self id0 g = (Raise TypeError, g).
Proof.
  intros Hpath Hcache Ha Hp Hn.
  unfold __getitem__. rewrite Hpath, Hcache.
  unfold list_item. cbn [nth_error bind subscript].
  apply nth_error_Some in Ha, Hp, Hn.
  destruct (nth_error anchor_mf id0); [| congruence].
  destruct (nth_error positive_mf id0); [| congruence].
  destruct (nth_error negative_mf id0); [| congruence].
  reflexivity.
Qed.

(** So every valid index of every dataset constructed in fixed mode. *)
Lemma getitem_fixed_raises fresh dc_dataset train_flag fixed_flag seed self id0 g :
  truthy fixed_flag = true ->
  MolDatasetTriplet_init np fresh dc_dataset train_flag false fixed_flag seed
  = Ok self ->
  (id0 < List.length (X self))%nat ->
  (id0 < List.length (y self))%nat ->
  __getitem__ py self id0 g = (Raise TypeError, g).
Proof.
  intros Hf Hinit HX Hy.
  rewrite init_fixed in Hinit by exact Hf.
  apply bind_ok in Hinit. destruct Hinit as (cache & Hcache & Hself).
  injection Hself as <-.
  apply get_fixed_dataset_shape in Hcache.
  destruct Hcache as (positive_mf & negative_mf & l & -> & Hp & Hn).
  cbn in HX, Hy, Hp, Hn.
  eapply getitem_cache_raises.
  - cbn. rewrite Hf. reflexivity.
  - reflexivity.
  - exact HX.
  - rewrite Hp. exact Hy.
  - rewrite Hn. exact Hy.
Qed.

End Cache.

(** ** The constructor and [__getitem__] on examples *)

(** C7.  Three records labelled 0 and one labelled 1, [oversample] true and
    [use_fixed_triplets] false: the constructor raises [TypeError].  The
    multiplier is 3 and the oversampled features and labels are formed, but
    the SMILES copies are numpy arrays and [torch.cat] refuses them, so the
    store is never replaced and no dataset of length 6 is returned. *)
Theorem init_oversample_3_1_raises :
  MolDatasetTriplet_init lcg_numpy 0 (store_of 3 1) true true (PyBool false) None
  = Raise TypeError.
Proof. vm_compute. reflexivity. Qed.

(** The multiplier of that example is the one expected. *)
Lemma oversampling_multiplicator_3_1 :
  (ratio <- py_truediv 3 1 ;; py_int ratio) = Ok 3.
Proof. vm_compute. reflexivity. Qed.

(** C2.  A dataset constructed with [train] true and [use_fixed_triplets]
    false is returned by the constructor, and [__getitem__] on it raises
    [AttributeError]: the on-the-fly branch is taken only when [train] is
    false, and the other branch reads a cache that was never built. *)
Theorem getitem_training_unfixed_raises :
  match MolDatasetTriplet_init lcg_numpy 0 (store_of 1 1) true false
          (PyBool false) None with
  | Ok self => fst (__getitem__ lcg_python self 0 5) = Raise AttributeError
  | Raise _ => False
  end.
Proof. vm_compute. reflexivity. Qed.

(** C3.  A dataset constructed in fixed mode is returned by the
    constructor, and [__getitem__] at a valid index raises [TypeError]: the
    fourth component of the cache is the label of the last record, a Python
    float, and [__getitem__] subscripts it like the three tensors. *)
Theorem getitem_fixed_raises_at_0 :
  match MolDatasetTriplet_init lcg_numpy 0 (store_of 2 1) false false
          (PyBool true) (Some 7) with
  | Ok self => fst (__getitem__ lcg_python self 0 5) = Raise TypeError
  | Raise _ => False
  end.
Proof. vm_compute. reflexivity. Qed.

(** ** get_dataset with a splitter and the triplet loss *)

(** The call never returns: the evaluation datasets are requested with
    [oversample] true and a true [use_fixed_triplets]. *)
Lemma get_dataset_triplet_splits_never_return np dc entropy dataset_name
    splitter cf_radius cf_size oversample use_fixed_train_triplets seed out :
  get_dataset np dc entropy dataset_name (Some splitter) cf_radius cf_size
    true oversample use_fixed_train_triplets seed <> Ok out.
Proof.
  unfold get_dataset. rewrite andb_false_r. intros H. bind_inv H.
  match goal with
  | E : MolDatasetTriplet_init _ _ _ false true (PyInt 123) None = Ok _ |- _ =>
      rewrite init_wrong_parameters in E by reflexivity; discriminate E
  end.
Qed.

(** C1.  [get_dataset] with a splitter and the triplet loss, on loaders
    that deliver three splits with both classes: the training dataset is
    built, and the construction of the validation dataset raises the
    configuration error.  In [MolDatasetTriplet(datasets[1], False, True,
    123)] the value [123] is the flag [use_fixed_triplets], not the seed,
    and [True] is [oversample]; no evaluation dataset is returned. *)
Theorem get_dataset_triplet_splits_raises :
  get_dataset lcg_numpy three_splits (fun k => Z.of_nat k) "hiv" (Some tt)
    4 2048 true false false None
  = Raise (Exception
      "MolDatasetTriplet initiated with wrong parameters: oversample(value: True) and use_fixed_triplets(value: 123)").
Proof. vm_compute. reflexivity. Qed.

(** ** Determinism of the fixed-triplet cache *)

Section Determinism.

Variable np : NumpyRandom.

(** With an integer seed, what [__get_fixed_dataset] draws and builds
    depends on the labels, the partitions, the features and the seed, and
    on nothing else: not on the operating system's entropy, not on the
    other attributes of the object. *)
Lemma get_fixed_dataset_ext fresh1 fresh2 self1 self2 s :
  X self1 = X self2 -> y self1 = y self2 ->
  indices_0 self1 = indices_0 self2 -> indices_1 self1 = indices_1 self2 ->
  seed_fixed_triplets self1 = Some s -> seed_fixed_triplets self2 = Some s ->
  fixed_indices np fresh1 self1 = fixed_indices np fresh2 self2 /\
  __get_fixed_dataset np fresh1 self1 = __get_fixed_dataset np fresh2 self2.
Proof.
  intros HX Hy H0 H1 Hs1 Hs2.
  assert (Hfi : fixed_indices np fresh1 self1 = fixed_indices np fresh2 self2).
  { unfold fixed_indices. rewrite Hy, H0, H1, Hs1, Hs2. reflexivity. }
  split; [exact Hfi |].
  unfold __get_fixed_dataset. rewrite Hfi, HX. reflexivity.
Qed.

(** The indices drawn do not depend on the cache the object holds. *)
Lemma fixed_indices_set_fixed_triplets fresh self cache :
  fixed_indices np fresh (set_fixed_triplets self cache)
  = fixed_indices np fresh self.
Proof. reflexivity. Qed.

End Determinism.

(** C6, as the code has it.  With an integer seed, fixed-triplet
    generation is a function of the store and of the seed.  (a) Two datasets
    constructed in fixed mode from the same store with the same integer seed
    hold the same cache, and the positive and negative index sequences drawn
    for them are the same sequences, whatever entropy the operating system
    holds at either construction and whatever the [train] flags or the true
    values of [use_fixed_triplets] are.  (b) [refresh_fixed_triplets(s)]
    called a second time with the same integer [s] has the same outcome and
    leaves the object, cache included, as the first call left it. *)
Theorem fixed_triplets_deterministic (np : NumpyRandom) :
  (forall fresh1 fresh2 dc_dataset train1 train2 flag1 flag2 s self1 self2,
      truthy flag1 = true -> truthy flag2 = true ->
      MolDatasetTriplet_init np fresh1 dc_dataset train1 false flag1 (Some s)
      = Ok self1 ->
      MolDatasetTriplet_init np fresh2 dc_dataset train2 false flag2 (Some s)
      = Ok self2 ->
      fixed_triplets self1 = fixed_triplets self2
      /\ fixed_indices np fresh1 self1 = fixed_indices np fresh2 self2
      /\ exists positive_indices negative_indices anchor_label,
           fixed_indices np fresh1 self1
           = Ok (positive_indices, negative_indices, anchor_label))
  /\ (forall fresh1 fresh2 self s,
      let (outcome1, self1) := refresh_fixed_triplets np fresh1 self (Some s) in
      let (outcome2, self2) := refresh_fixed_triplets np fresh2 self1 (Some s) in
      outcome2 = outcome1 /\ self2 = self1).
Proof.
  split.
  - intros fresh1 fresh2 dc_dataset train1 train2 flag1 flag2 s self1 self2
      Hf1 Hf2 H1 H2.
    rewrite init_fixed in H1, H2 by assumption.
    apply bind_ok in H1, H2.
    destruct H1 as (cache1 & Hc1 & H1). destruct H2 as (cache2 & Hc2 & H2).
    injection H1 as <-. injection H2 as <-.
    rewrite !fixed_indices_set_fixed_triplets.
    destruct (get_fixed_dataset_ext np fresh1 fresh2
                (kept_store dc_dataset train1 false flag1 (Some s))
                (kept_store dc_dataset train2 false flag2 (Some s)) s)
      as (Hfi & Hgf); try reflexivity.
    split; [| split].
    + cbn. rewrite Hgf in Hc1. congruence.
    + exact Hfi.
    + unfold __get_fixed_dataset in Hc1. apply bind_ok in Hc1.
      destruct Hc1 as (((pos & neg) & last) & Hdrawn & _). eauto.
  - intros fresh1 fresh2 self s.
    unfold refresh_fixed_triplets at 1.
    destruct (__get_fixed_dataset np fresh1 (set_seed self (Some s)))
      as [cache | e] eqn:Hc.
    + unfold refresh_fixed_triplets.
      destruct (get_fixed_dataset_ext np fresh2 fresh1
                  (set_seed (set_fixed_triplets (set_seed self (Some s)) cache) (Some s))
                  (set_seed self (Some s)) s) as (_ & Hgf); try reflexivity.
      rewrite Hgf, Hc. split; reflexivity.
    + unfold refresh_fixed_triplets.
      destruct (get_fixed_dataset_ext np fresh2 fresh1
                  (set_seed (set_seed self (Some s)) (Some s))
                  (set_seed self (Some s)) s) as (_ & Hgf); try reflexivity.
      rewrite Hgf, Hc. split; reflexivity.
Qed.

(** Two constructions that differ in the entropy, in the [train] flag and
    in the true value of the flag, and a repeated refresh. *)
Lemma fixed_triplets_deterministic_witness :
  match MolDatasetTriplet_init lcg_numpy 11 (store_of 2 1) true false
          (PyBool true) (Some 7),
        MolDatasetTriplet_init lcg_numpy 42 (store_of 2 1) false false
          (PyInt 123) (Some 7) with
  | Ok self1, Ok self2 =>
      fixed_triplets self1 = fixed_triplets self2
      /\ fixed_indices lcg_numpy 11 self1 = fixed_indices lcg_numpy 42 self2
  | _, _ => False
  end.
Proof.
  destruct (MolDatasetTriplet_init lcg_numpy 11 (store_of 2 1) true false
              (PyBool true) (Some 7)) as [self1 | e1] eqn:H1;
    [| vm_compute in H1; discriminate H1].
  destruct (MolDatasetTriplet_init lcg_numpy 42 (store_of 2 1) false false
              (PyInt 123) (Some 7)) as [self2 | e2] eqn:H2;
    [| vm_compute in H2; discriminate H2].
  destruct (proj1 (fixed_triplets_deterministic lcg_numpy)
              11 42 (store_of 2 1) true false (PyBool true) (PyInt 123) 7
              self1 self2 eq_refl eq_refl H1 H2) as (Hc & Hi & _).
  split; [exact Hc | exact Hi].
Defined.

(** With the seed [None], the default of the constructor, the claim fails:
    numpy seeds the generator from the operating system's entropy, which
    differs from one call to the next.  Two datasets constructed in fixed
    mode from one store, both with the seed [None], are drawn different
    index sequences and hold different caches; and a second
    [refresh_fixed_triplets(None)] on the unchanged store leaves a cache
    that is not the one of the first. *)
Lemma fixed_triplets_seed_None_differ :
  match MolDatasetTriplet_init lcg_numpy 0 (numbered_store [0; 0; 1; 1])
          false false (PyBool true) None,
        MolDatasetTriplet_init lcg_numpy 1 (numbered_store [0; 0; 1; 1])
          false false (PyBool true) None with
  | Ok self1, Ok self2 =>
      seed_fixed_triplets self1 = seed_fixed_triplets self2
      /\ X self1 = X self2 /\ y self1 = y self2
      /\ fixed_indices lcg_numpy 0 self1 <> fixed_indices lcg_numpy 1 self2
      /\ fixed_triplets self1 <> fixed_triplets self2
      /\ (let (outcome1, once) := refresh_fixed_triplets lcg_numpy 0 self1 None in
          let (outcome2, twice) := refresh_fixed_triplets lcg_numpy 1 once None in
          outcome1 = Ok tt /\ outcome2 = Ok tt
          /\ X twice = X once /\ y twice = y once
          /\ fixed_triplets twice <> fixed_triplets once)
  | _, _ => False
  end.
Proof.
  vm_compute.
  repeat split; try reflexivity; intros H; discriminate H.
Qed.

(** ** get_pos_weights *)

(** *** The quotient of two integers, rounded *)

Lemma pow2_max_pos (x : Z) : 0 < 2 ^ Z.max x 0.
Proof. apply Z.pow_pos_nonneg; lia. Qed.

(** [ilog2_ratio num den] is the [L] with [2^L <= num / den < 2^(L+1)]. *)
Lemma ilog2_ratio_unique (num den L : Z) :
  0 < num -> 0 < den ->
  den * 2 ^ Z.max L 0 <= num * 2 ^ Z.max (- L) 0 < 2 * (den * 2 ^ Z.max L 0) ->
  ilog2_ratio num den = L.
Proof.
  intros Hn Hd [Hlo Hhi]. unfold ilog2_ratio.
  set (k := Z.log2 den + 1).
  assert (Hk : 0 < k) by (pose proof (Z.log2_nonneg den); lia).
  assert (Hden : den < 2 ^ k).
  { unfold k. apply Z.log2_spec. exact Hd. }
  assert (Hden' : 2 ^ (k - 1) <= den).
  { unfold k. replace (Z.log2 den + 1 - 1) with (Z.log2 den) by lia.
    apply Z.log2_spec. exact Hd. }
  assert (HLk : 0 <= L + k).
  { destruct (Z.lt_ge_cases (L + k) 0) as [Hneg | ?]; [| lia]. exfalso.
    rewrite (Z.max_r L 0), Z.pow_0_r, Z.mul_1_r in Hhi, Hlo by lia.
    rewrite (Z.max_l (- L) 0) in Hhi, Hlo by lia.
    assert (2 ^ (k + 1) <= 2 ^ (- L)) by (apply Z.pow_le_mono_r; lia).
    rewrite Z.pow_add_r in H by lia. nia. }
  enough (Z.log2 (num * 2 ^ k / den) = L + k) by lia.
  apply Z.log2_unique; [exact HLk |].
  assert (Hpk : 0 < 2 ^ k) by (apply Z.pow_pos_nonneg; lia).
  assert (E : 2 ^ (L + k) * 2 ^ Z.max (- L) 0 = 2 ^ k * 2 ^ Z.max L 0).
  { rewrite <- !Z.pow_add_r by lia. f_equal. lia. }
  pose proof (pow2_max_pos L) as HpL. pose proof (pow2_max_pos (- L)) as HpL'.
  assert (HP : 0 < 2 ^ (L + k)) by (apply Z.pow_pos_nonneg; lia).
  split.
  - apply Z.div_le_lower_bound; [exact Hd |]. nia.
  - apply Z.div_lt_upper_bound; [exact Hd |].
    rewrite Z.pow_succ_r by lia.
    nia.
Qed.

(** Rounding a fraction to the nearest integer does not depend on the
    fraction that stands for the number. *)
Lemma div_mod_ratio (n1 d1 n2 d2 : Z) :
  0 < d1 -> 0 < d2 -> n1 * d2 = n2 * d1 ->
  n1 / d1 = n2 / d2 /\ (n1 mod d1) * d2 = (n2 mod d2) * d1.
Proof.
  intros H1 H2 E.
  pose proof (Z.div_mod n1 d1 ltac:(lia)) as E1.
  pose proof (Z.mod_pos_bound n1 d1 H1) as B1.
  pose proof (Z.div_mod n2 d2 ltac:(lia)) as E2.
  pose proof (Z.mod_pos_bound n2 d2 H2) as B2.
  assert (Hq : n1 / d1 = n2 / d2).
  { set (q1 := n1 / d1) in *. set (q2 := n2 / d2) in *.
    set (r1 := n1 mod d1) in *. set (r2 := n2 mod d2) in *.
    assert (q1 * (d1 * d2) + r1 * d2 = q2 * (d1 * d2) + r2 * d1) by nia.
    assert (0 <= r1 * d2 < d1 * d2) by nia.
    assert (0 <= r2 * d1 < d1 * d2) by nia.
    nia. }
  split; [exact Hq |]. rewrite Hq in E1. nia.
Qed.

Lemma half_even_ratio (n1 d1 n2 d2 : Z) :
  0 < d1 -> 0 < d2 -> n1 * d2 = n2 * d1 ->
  half_even n1 d1 = half_even n2 d2.
Proof.
  intros H1 H2 E. destruct (div_mod_ratio n1 d1 n2 d2 H1 H2 E) as (Hq & Hr).
  unfold half_even. rewrite Hq.
  replace (2 * (n1 mod d1) ?= d1) with (2 * (n2 mod d2) ?= d2); [reflexivity |].
  destruct (Z.compare_spec (2 * (n2 mod d2)) d2) as [C | C | C]; symmetry.
  - apply Z.compare_eq_iff. nia.
  - apply Z.compare_lt_iff. nia.
  - apply Z.compare_gt_iff. nia.
Qed.

(** *** What SpecFloat's operations compute on exact fractions *)

Lemma digits2_pos_size (p : positive) : digits2_pos p = Pos.size p.
Proof. induction p; cbn; congruence. Qed.

Lemma Zdigits2_log2 (m : Z) : 0 < m -> Zdigits2 m = Z.log2 m + 1.
Proof.
  destruct m as [| p | p]; try lia. intros _. cbn [Zdigits2].
  rewrite digits2_pos_size. destruct p; cbn; lia.
Qed.

Lemma Zdigits2_unique (m d : Z) :
  0 < d -> 2 ^ (d - 1) <= m < 2 ^ d -> Zdigits2 m = d.
Proof.
  intros Hd H.
  assert (0 < m).
  { assert (0 < 2 ^ (d - 1)) by (apply Z.pow_pos_nonneg; lia). lia. }
  rewrite Zdigits2_log2 by assumption.
  rewrite (Z.log2_unique m (d - 1)); [lia | lia |].
  replace (Z.succ (d - 1)) with d by lia. exact H.
Qed.

Lemma Zdigits2_bounds (m : Z) :
  0 < m -> 2 ^ (Zdigits2 m - 1) <= m < 2 ^ Zdigits2 m /\ 0 < Zdigits2 m.
Proof.
  intros H. rewrite Zdigits2_log2 by exact H.
  pose proof (Z.log2_spec m H) as S. pose proof (Z.log2_nonneg m).
  replace (Z.log2 m + 1 - 1) with (Z.log2 m) by lia.
  replace (Z.log2 m + 1) with (Z.succ (Z.log2 m)) by lia. split; [exact S | lia].
Qed.

(** The location SpecFloat's division computes from a remainder. *)
Lemma new_location_loc_of (d r : Z) :
  0 < d -> 0 <= r < d -> new_location d r = loc_of r d.
Proof.
  intros Hd Hr. unfold new_location, new_location_even, new_location_odd, loc_of.
  destruct (Z.even d) eqn:Hev; [reflexivity |].
  destruct (r =? 0); [reflexivity |]. f_equal.
  assert (Hodd : Z.odd d = true) by (rewrite <- Z.negb_even, Hev; reflexivity).
  apply Z.odd_spec in Hodd. destruct Hodd as (k & ->).
  destruct (Z.compare_spec (2 * r + 1) (2 * k + 1)) as [C | C | C]; symmetry.
  - apply Z.compare_lt_iff. lia.
  - apply Z.compare_lt_iff. lia.
  - apply Z.compare_gt_iff. lia.
Qed.

Lemma loc_of_cases (r d : Z) :
  0 <= r < d ->
  (r = 0 /\ loc_of r d = loc_Exact)
  \/ (0 < r /\ 2 * r < d /\ loc_of r d = loc_Inexact Lt)
  \/ (2 * r = d /\ loc_of r d = loc_Inexact Eq)
  \/ (d < 2 * r /\ loc_of r d = loc_Inexact Gt).
Proof.
  intros H. unfold loc_of. destruct (Z.eqb_spec r 0) as [-> | Hr].
  - left. auto.
  - right. destruct (Z.compare_spec (2 * r) d) as [C | C | C].
    + right. left. auto.
    + left. repeat split; lia.
    + right. right. auto.
Qed.

Lemma halve (n d : Z) :
  0 < d -> 0 <= n ->
  n / (2 * d) = n / d / 2
  /\ n mod (2 * d) = (n / d) mod 2 * d + n mod d.
Proof.
  intros Hd Hn.
  pose proof (Z.div_mod n d ltac:(lia)) as E.
  pose proof (Z.mod_pos_bound n d Hd) as B.
  pose proof (Z.div_mod (n / d) 2 ltac:(lia)) as E2.
  pose proof (Z.mod_pos_bound (n / d) 2 ltac:(lia)) as B2.
  assert (Hq : n / (2 * d) = n / d / 2).
  { symmetry. apply Z.div_unique with ((n / d) mod 2 * d + n mod d); [nia | nia]. }
  split; [exact Hq |].
  pose proof (Z.div_mod n (2 * d) ltac:(lia)) as E3. rewrite Hq in E3. nia.
Qed.

(** One shift to the right halves the fraction a record stands for. *)
Lemma shr_1_stands_for (mrs : shr_record) (n d : Z) :
  0 < d -> 0 <= n -> stands_for mrs n d -> stands_for (shr_1 mrs) n (2 * d).
Proof.
  intros Hd Hn [Hm Hl].
  destruct (halve n d Hd Hn) as (Hq & Hr).
  pose proof (Z.mod_pos_bound n d Hd) as B.
  pose proof (Z.div_pos n d Hn Hd) as Hq0.
  unfold stands_for. rewrite Hq, Hr.
  destruct mrs as [m r s]. cbn [shr_m] in Hm. subst m.
  assert (Hrs : orb r s = negb (n mod d =? 0)).
  { destruct (loc_of_cases (n mod d) d B) as [(E & L) | [(E1 & E2 & L) | [(E & L) | (E & L)]]];
      rewrite L in Hl; destruct r, s; try discriminate Hl; cbn [orb];
      destruct (Z.eqb_spec (n mod d) 0); try reflexivity; lia. }
  assert (Hloc : forall b : bool,
             (n / d) mod 2 = (if b then 1 else 0) ->
             loc_of_shr_record (Build_shr_record (n / d / 2) b (orb r s))
             = loc_of ((n / d) mod 2 * d + n mod d) (2 * d)).
  { intros b Hb. rewrite Hrs, Hb. unfold loc_of.
    destruct b; destruct (Z.eqb_spec (n mod d) 0) as [E0 | E0]; cbn [negb].
    - rewrite E0. replace (1 * d + 0 =? 0) with false by (symmetry; apply Z.eqb_neq; lia).
      replace (2 * (1 * d + 0) ?= 2 * d) with Eq by (symmetry; apply Z.compare_eq_iff; lia).
      reflexivity.
    - replace (1 * d + n mod d =? 0) with false by (symmetry; apply Z.eqb_neq; lia).
      replace (2 * (1 * d + n mod d) ?= 2 * d) with Gt by (symmetry; apply Z.compare_gt_iff; lia).
      reflexivity.
    - rewrite E0. reflexivity.
    - replace (0 * d + n mod d =? 0) with false by (symmetry; apply Z.eqb_neq; lia).
      replace (2 * (0 * d + n mod d) ?= 2 * d) with Lt by (symmetry; apply Z.compare_lt_iff; lia).
      reflexivity. }
  destruct (n / d) as [| p | p] eqn:Hnd; [| | lia].
  - split; [reflexivity |]. apply (Hloc false). reflexivity.
  - destruct p as [p | p |]; cbn [shr_1 shr_m].
    + split; [rewrite Pos2Z.inj_xI, (Z.mul_comm 2), Z.div_add_l by lia; reflexivity |].
      rewrite <- (Hloc true); [| rewrite Pos2Z.inj_xI, (Z.mul_comm 2), Z.add_comm, Z.mod_add by lia; reflexivity].
      f_equal. rewrite Pos2Z.inj_xI, (Z.mul_comm 2), Z.div_add_l by lia. reflexivity.
    + split; [rewrite Pos2Z.inj_xO, (Z.mul_comm 2), Z.div_mul by lia; reflexivity |].
      rewrite <- (Hloc false); [| rewrite Pos2Z.inj_xO, (Z.mul_comm 2), Z.mod_mul by lia; reflexivity].
      f_equal. rewrite Pos2Z.inj_xO, (Z.mul_comm 2), Z.div_mul by lia. reflexivity.
    + split; [reflexivity |]. apply (Hloc true). reflexivity.
Qed.

Lemma iter_shr_1_stands_for (p : positive) :
  forall (mrs : shr_record) (n d : Z),
    0 < d -> 0 <= n -> stands_for mrs n d ->
    stands_for (iter_pos shr_1 p mrs) n (d * 2 ^ Zpos p).
Proof.
  induction p as [p IH | p IH |]; intros mrs n d Hd Hn H; cbn [iter_pos].
  - replace (d * 2 ^ Zpos p~1) with (2 * d * 2 ^ Zpos p * 2 ^ Zpos p).
    + apply IH; [| exact Hn |]. { assert (0 < 2 ^ Zpos p) by (apply Z.pow_pos_nonneg; lia). nia. }
      apply IH; [lia | exact Hn |]. apply shr_1_stands_for; assumption.
    + replace (Zpos p~1) with (Zpos p + Zpos p + 1) by lia.
      rewrite !Z.pow_add_r, Z.pow_1_r by lia. ring.
  - replace (d * 2 ^ Zpos p~0) with (d * 2 ^ Zpos p * 2 ^ Zpos p).
    + apply IH; [| exact Hn |]. { assert (0 < 2 ^ Zpos p) by (apply Z.pow_pos_nonneg; lia). nia. }
      apply IH; assumption.
    + replace (Zpos p~0) with (Zpos p + Zpos p) by lia.
      rewrite Z.pow_add_r by lia. ring.
  - rewrite Z.pow_1_r, Z.mul_comm. apply shr_1_stands_for; assumption.
Qed.

Lemma shr_stands_for (mrs : shr_record) (e k n d : Z) :
  0 < d -> 0 <= n -> 0 <= k -> stands_for mrs n d ->
  snd (shr mrs e k) = e + k
  /\ stands_for (fst (shr mrs e k)) n (d * 2 ^ k).
Proof.
  intros Hd Hn Hk H. destruct k as [| p | p]; [| | lia]; cbn [shr fst snd].
  - rewrite Z.pow_0_r, Z.mul_1_r, Z.add_0_r. auto.
  - split; [reflexivity |]. apply iter_shr_1_stands_for; assumption.
Qed.

Lemma shr_record_of_loc_stands_for (n d : Z) :
  stands_for (shr_record_of_loc (n / d) (loc_of (n mod d) d)) n d.
Proof.
  unfold stands_for.
  destruct (loc_of (n mod d) d) as [| []]; cbn; auto.
Qed.

Lemma round_nearest_even_half_even (mrs : shr_record) (n d : Z) :
  0 < d -> stands_for mrs n d ->
  round_nearest_even (shr_m mrs) (loc_of_shr_record mrs) = half_even n d.
Proof.
  intros Hd [-> ->]. unfold loc_of, half_even, round_nearest_even.
  destruct (Z.eqb_spec (n mod d) 0) as [E | E].
  - rewrite E. change (2 * 0) with 0. rewrite Hd. reflexivity.
  - reflexivity.
Qed.

Lemma half_even_bounds (n d lo hi : Z) :
  0 < d -> lo <= n / d < hi -> lo <= half_even n d <= hi.
Proof.
  intros Hd H. unfold half_even.
  destruct (2 * (n mod d) ?= d); [destruct (Z.even (n / d)) | |]; lia.
Qed.

Section Nearest.

Variables prec emax : Z.
Hypothesis prec_pos : 0 < prec.

(** The reference, where a fraction [N / D] is known to stand for
    [num / den / 2^ex]: the exponent of the result is [ex] plus the number
    of bits that [N / D] has beyond [prec], or one more when the
    significand is rounded up to [2^prec]. *)
Lemma nearest_even_at (N D ex num den : Z) :
  0 < N -> 0 < D -> 0 < num -> 0 < den ->
  N * den * 2 ^ Z.max ex 0 = num * D * 2 ^ Z.max (- ex) 0 ->
  prec <= Zdigits2 (N / D) ->
  let n := Zdigits2 (N / D) - prec in
  let m := half_even N (D * 2 ^ n) in
  2 ^ (prec - 1) <= N / (D * 2 ^ n) < 2 ^ prec
  /\ 2 ^ (prec - 1) <= m <= 2 ^ prec
  /\ nearest_even prec num den
     = if m =? 2 ^ prec
       then S754_finite false (Z.to_pos (2 ^ (prec - 1))) (ex + n + 1)
       else S754_finite false (Z.to_pos m) (ex + n).
Proof.
  intros HN HD Hnum Hden Hratio Hdig n m.
  set (mx := N / D) in *. set (dg := Zdigits2 mx) in *.
  assert (Hmx : 0 < mx).
  { assert (0 <= mx) by (apply Z.div_pos; lia).
    destruct (Z.eq_dec mx 0) as [E | E]; [| lia].
    unfold dg in Hdig. rewrite E in Hdig. cbn in Hdig. lia. }
  destruct (Zdigits2_bounds mx Hmx) as (Hbounds & _). fold dg in Hbounds.
  assert (Hn : 0 <= n) by (unfold n; lia).
  set (D1 := D * 2 ^ n) in *.
  assert (Hpn : 0 < 2 ^ n) by (apply Z.pow_pos_nonneg; lia).
  assert (HD1 : 0 < D1) by (unfold D1; nia).
  assert (Hq1 : N / D1 = mx / 2 ^ n).
  { unfold D1, mx. rewrite Z.div_div by lia. reflexivity. }
  assert (Hq1b : 2 ^ (prec - 1) <= N / D1 < 2 ^ prec).
  { rewrite Hq1.
    assert (E1 : 2 ^ (dg - 1) = 2 ^ (prec - 1) * 2 ^ n).
    { rewrite <- Z.pow_add_r by lia. f_equal. unfold n. lia. }
    assert (E2 : 2 ^ dg = 2 ^ prec * 2 ^ n).
    { rewrite <- Z.pow_add_r by lia. f_equal. unfold n. lia. }
    split.
    - apply Z.div_le_lower_bound; [exact Hpn |]. lia.
    - apply Z.div_lt_upper_bound; [exact Hpn |]. lia. }
  assert (HB : 2 ^ (prec - 1) * D1 <= N < 2 ^ prec * D1).
  { pose proof (Z.div_mod N D1 ltac:(lia)) as E.
    pose proof (Z.mod_pos_bound N D1 HD1) as B.
    nia. }
  split; [exact Hq1b |].
  split; [apply half_even_bounds; assumption |].
  set (e1 := ex + n) in *.
  pose proof (pow2_max_pos ex) as HP. pose proof (pow2_max_pos (- ex)) as HQ.
  set (P := 2 ^ Z.max ex 0) in *. set (Q := 2 ^ Z.max (- ex) 0) in *.
  unfold nearest_even.
  replace (num =? 0) with false by (symmetry; apply Z.eqb_neq; lia).
  assert (HL : ilog2_ratio num den = e1 + (prec - 1)).
  { apply ilog2_ratio_unique; [exact Hnum | exact Hden |].
    set (L := e1 + (prec - 1)).
    pose proof (pow2_max_pos L) as Hc. pose proof (pow2_max_pos (- L)) as Hb.
    set (c := 2 ^ Z.max L 0) in *. set (b := 2 ^ Z.max (- L) 0) in *.
    assert (Ha : 0 < 2 ^ (n + (prec - 1))) by (apply Z.pow_pos_nonneg; lia).
    assert (E : 2 ^ (n + (prec - 1)) * b * P = c * Q).
    { unfold b, c, P, Q. rewrite <- !Z.pow_add_r by lia. f_equal. unfold L, e1. lia. }
    assert (E' : 2 ^ (prec - 1) * D1 = D * 2 ^ (n + (prec - 1))).
    { unfold D1. rewrite Z.pow_add_r by lia. ring. }
    set (a := 2 ^ (n + (prec - 1))) in *.
    assert (E'' : 2 ^ prec * D1 = 2 * (D * a)).
    { rewrite <- E'. replace prec with (1 + (prec - 1)) at 1 by lia.
      rewrite Z.pow_add_r by lia. ring. }
    assert (K1 : den * a * P <= num * Q).
    { apply (Z.mul_le_mono_pos_l _ _ D HD).
      replace (D * (num * Q)) with (N * den * P) by (rewrite Hratio; ring).
      replace (D * (den * a * P)) with (D * a * (den * P)) by ring.
      replace (N * den * P) with (N * (den * P)) by ring.
      apply Z.mul_le_mono_nonneg_r; [nia | lia]. }
    assert (K2 : num * Q < 2 * (den * a * P)).
    { apply (Z.mul_lt_mono_pos_l D _ _ HD).
      replace (D * (num * Q)) with (N * den * P) by (rewrite Hratio; ring).
      replace (D * (2 * (den * a * P))) with (2 * (D * a) * (den * P)) by ring.
      replace (N * den * P) with (N * (den * P)) by ring.
      apply Z.mul_lt_mono_pos_r; [nia | lia]. }
    split.
    - apply (Z.mul_le_mono_pos_r _ _ Q HQ).
      replace (den * c * Q) with (den * a * P * b)
        by (transitivity (den * (c * Q)); [rewrite <- E |]; ring).
      replace (num * b * Q) with (num * Q * b) by ring.
      apply Z.mul_le_mono_nonneg_r; lia.
    - apply (Z.mul_lt_mono_pos_r Q _ _ HQ).
      replace (2 * (den * c) * Q) with (2 * (den * a * P) * b)
        by (transitivity (2 * den * (c * Q)); [rewrite <- E |]; ring).
      replace (num * b * Q) with (num * Q * b) by ring.
      apply Z.mul_lt_mono_pos_r; lia. }
  rewrite HL. replace (e1 + (prec - 1) - (prec - 1)) with e1 by lia.
  cbv zeta.
  replace (half_even (num * 2 ^ Z.max (- e1) 0) (den * 2 ^ Z.max e1 0)) with m;
    [reflexivity |].
  unfold m. symmetry. apply half_even_ratio.
  - pose proof (pow2_max_pos e1). nia.
  - exact HD1.
  - assert (E : 2 ^ Z.max (- e1) 0 * 2 ^ n * P = Q * 2 ^ Z.max e1 0).
    { unfold P, Q. rewrite <- !Z.pow_add_r by lia. f_equal. unfold e1. lia. }
    apply (Z.mul_reg_r _ _ P); [lia |]. unfold D1.
    transitivity (num * D * (2 ^ Z.max (- e1) 0 * 2 ^ n * P)); [ring |].
    rewrite E.
    transitivity (num * D * Q * 2 ^ Z.max e1 0); [ring |].
    rewrite <- Hratio. ring.
Qed.

(** [binary_round_aux] on the integer part and the location of a fraction
    [N / D], at the exponent [ex], gives the number [N / D * 2^ex] rounded
    to the nearest float, as long as the result is a normal number. *)
Lemma binary_round_aux_nearest_even (N D ex num den : Z) :
  0 < N -> 0 < D -> 0 < num -> 0 < den ->
  N * den * 2 ^ Z.max ex 0 = num * D * 2 ^ Z.max (- ex) 0 ->
  prec <= Zdigits2 (N / D) ->
  emin prec emax <= Zdigits2 (N / D) + ex - prec ->
  Zdigits2 (N / D) + ex - prec + 1 <= emax - prec ->
  binary_round_aux prec emax false (N / D) ex (loc_of (N mod D) D)
  = nearest_even prec num den.
Proof.
  intros HN HD Hnum Hden Hratio Hdig Hmin Hmax.
  destruct (nearest_even_at N D ex num den HN HD Hnum Hden Hratio Hdig)
    as (Hq1b & Hm2 & ->).
  set (mx := N / D) in *. set (dg := Zdigits2 mx) in *.
  set (n := dg - prec) in *.
  assert (Hn : 0 <= n) by (unfold n; lia).
  set (D1 := D * 2 ^ n) in *.
  assert (Hpn : 0 < 2 ^ n) by (apply Z.pow_pos_nonneg; lia).
  assert (HD1 : 0 < D1) by (unfold D1; nia).
  (* the first shift *)
  unfold binary_round_aux, shr_fexp. fold mx. fold dg.
  assert (Hfexp : fexp prec emax (dg + ex) - ex = n).
  { unfold fexp. rewrite Z.max_l by lia. unfold n. lia. }
  rewrite Hfexp.
  pose proof (shr_stands_for (shr_record_of_loc mx (loc_of (N mod D) D)) ex n N D
                HD ltac:(lia) Hn (shr_record_of_loc_stands_for N D)) as (He1 & Hst).
  destruct (shr (shr_record_of_loc mx (loc_of (N mod D) D)) ex n) as [mrs1 e1].
  cbn [fst snd] in He1, Hst. subst e1. fold D1 in Hst.
  rewrite (round_nearest_even_half_even mrs1 N D1 HD1 Hst).
  set (m2 := half_even N D1) in *.
  set (e1 := ex + n) in *.
  assert (Hpp : 0 < 2 ^ (prec - 1)) by (apply Z.pow_pos_nonneg; lia).
  assert (Epp : 2 ^ prec = 2 * 2 ^ (prec - 1)).
  { replace prec with (1 + (prec - 1)) at 1 by lia.
    rewrite Z.pow_add_r by lia. reflexivity. }
  (* the second shift *)
  destruct (Z.eqb_spec m2 (2 ^ prec)) as [Ecarry | Hno].
  - assert (Hdg2 : Zdigits2 m2 = prec + 1).
    { apply Zdigits2_unique; [lia |].
      replace (prec + 1 - 1) with prec by lia.
      rewrite Z.pow_add_r, Z.pow_1_r by lia. lia. }
    rewrite Hdg2.
    replace (fexp prec emax (prec + 1 + e1) - e1) with 1
      by (unfold fexp; rewrite Z.max_l by (unfold e1, n; lia); lia).
    rewrite Ecarry, Epp.
    destruct (2 ^ (prec - 1)) as [| p | p] eqn:Ep; try lia.
    cbn [shr_record_of_loc shr iter_pos shr_1 shr_m Z.mul Pos.mul Z.to_pos].
    replace (e1 + 1 <=? emax - prec) with true
      by (symmetry; apply Z.leb_le; unfold e1, n; lia).
    reflexivity.
  - assert (Hdg2 : Zdigits2 m2 = prec) by (apply Zdigits2_unique; lia).
    rewrite Hdg2.
    replace (fexp prec emax (prec + e1) - e1) with 0
      by (unfold fexp; rewrite Z.max_l by (unfold e1, n; lia); lia).
    cbn [shr_record_of_loc shr shr_m].
    destruct m2 as [| p | p]; try lia.
    replace (e1 <=? emax - prec) with true
      by (symmetry; apply Z.leb_le; unfold e1, n; lia).
    reflexivity.
Qed.

End Nearest.

Lemma iter_xO_pow2 (p d : positive) :
  Zpos (Pos.iter xO p d) = Zpos p * 2 ^ Zpos d.
Proof.
  induction d as [| d IH] using Pos.peano_ind.
  - cbn [Pos.iter]. rewrite Z.pow_1_r. lia.
  - rewrite Pos.iter_succ, Pos2Z.inj_xO, IH, Pos2Z.inj_succ, Z.pow_succ_r by lia.
    ring.
Qed.

Lemma binary_round_aux_exact (prec emax : Z) (m : positive) (e : Z) :
  0 < prec -> Zdigits2 (Zpos m) = prec ->
  emin prec emax <= e -> e <= emax - prec ->
  binary_round_aux prec emax false (Zpos m) e loc_Exact = S754_finite false m e.
Proof.
  intros Hp Hd Hlo Hhi. unfold binary_round_aux, shr_fexp. rewrite Hd.
  replace (fexp prec emax (prec + e) - e) with 0
    by (unfold fexp; rewrite Z.max_l by lia; lia).
  cbn [shr_record_of_loc shr shr_m loc_of_shr_record round_nearest_even].
  rewrite Hd.
  replace (fexp prec emax (prec + e) - e) with 0
    by (unfold fexp; rewrite Z.max_l by lia; lia).
  cbn [shr_record_of_loc shr shr_m].
  replace (e <=? emax - prec) with true by (symmetry; apply Z.leb_le; lia).
  reflexivity.
Qed.

(** An integer of at most [prec] bits is a float: its significand is the
    integer shifted to [prec] bits. *)
Lemma binary_normalize_integer (prec emax n : Z) :
  0 < prec -> 0 < n < 2 ^ prec ->
  emin prec emax <= 1 - prec -> 0 <= emax - prec ->
  binary_normalize prec emax n 0 false
  = S754_finite false (Z.to_pos (n * 2 ^ (prec - Zdigits2 n))) (Zdigits2 n - prec)
  /\ Zdigits2 (n * 2 ^ (prec - Zdigits2 n)) = prec
  /\ 0 < Zdigits2 n <= prec.
Proof.
  intros Hp Hn Hmin Hmax.
  destruct (Zdigits2_bounds n ltac:(lia)) as (Hb & Hdpos).
  set (dg := Zdigits2 n) in *.
  assert (Hdg : dg <= prec).
  { destruct (Z.le_gt_cases dg prec) as [? | Hgt]; [assumption | exfalso].
    assert (2 ^ prec <= 2 ^ (dg - 1)) by (apply Z.pow_le_mono_r; lia). lia. }
  assert (Hs : 0 < 2 ^ (prec - dg)) by (apply Z.pow_pos_nonneg; lia).
  assert (Hdm : Zdigits2 (n * 2 ^ (prec - dg)) = prec).
  { apply Zdigits2_unique; [exact Hp |].
    replace (2 ^ (prec - 1)) with (2 ^ (dg - 1) * 2 ^ (prec - dg))
      by (rewrite <- Z.pow_add_r by lia; f_equal; lia).
    replace (2 ^ prec) with (2 ^ dg * 2 ^ (prec - dg))
      by (rewrite <- Z.pow_add_r by lia; f_equal; lia).
    nia. }
  split; [| split; [exact Hdm | lia]].
  destruct n as [| p | p]; try lia.
  unfold binary_normalize, binary_round, shl_align.
  change (Zpos (digits2_pos p)) with (Zdigits2 (Zpos p)). fold dg.
  replace (fexp prec emax (dg + 0)) with (dg - prec)
    by (unfold fexp; rewrite Z.add_0_r, Z.max_l by lia; reflexivity).
  rewrite Z.sub_0_r.
  destruct (dg - prec) as [| k | k] eqn:Hk; try lia.
  - replace (prec - dg) with 0 in * by lia.
    rewrite Z.pow_0_r, Z.mul_1_r in *. cbn [Z.to_pos].
    apply binary_round_aux_exact; first [lia | exact Hdm].
  - replace (prec - dg) with (Zpos k) in * by lia.
    rewrite <- iter_xO_pow2 in *. cbn [Z.to_pos].
    apply binary_round_aux_exact; first [lia | exact Hdm].
Qed.

(** The division of two significands of [prec] bits: the first one is
    shifted by [prec] bits and divided by the second. *)
Lemma SFdiv_core_binary_normal (prec emax m1 e1 m2 e2 : Z) :
  0 < prec -> 0 < m1 -> 0 < m2 ->
  Zdigits2 m1 = prec -> Zdigits2 m2 = prec ->
  emin prec emax <= e1 - e2 - prec ->
  SFdiv_core_binary prec emax m1 e1 m2 e2
  = ((m1 * 2 ^ prec) / m2, e1 - e2 - prec, loc_of ((m1 * 2 ^ prec) mod m2) m2).
Proof.
  intros Hp H1 H2 Hd1 Hd2 Hmin. unfold SFdiv_core_binary. rewrite Hd1, Hd2.
  replace (Z.min (fexp prec emax (prec + e1 - (prec + e2))) (e1 - e2))
    with (e1 - e2 - prec)
    by (unfold fexp; rewrite Z.max_l by lia; lia).
  replace (e1 - e2 - (e1 - e2 - prec)) with prec by lia.
  destruct prec as [| p | p] eqn:Ep; try lia.
  rewrite Z.shiftl_mul_pow2 by lia.
  unfold Z.div, Z.modulo.
  pose proof (Z.mod_pos_bound (m1 * 2 ^ Zpos p) m2 H2) as B.
  unfold Z.modulo in B.
  destruct (Z.div_eucl (m1 * 2 ^ Zpos p) m2) as [q r]. cbn [fst snd] in *.
  rewrite new_location_loc_of by lia. reflexivity.
Qed.

(** Python's [a / b] for two positive integers below [2^53]: the model's
    division of the two floats is the quotient rounded to binary64, a
    normal number. *)
Lemma truediv_nearest_even (a b : Z) :
  0 < a < 2 ^ 53 -> 0 < b < 2 ^ 53 ->
  SFdiv 53 1024 (f64_of_Z a) (f64_of_Z b) = nearest_even 53 a b
  /\ exists m e, nearest_even 53 a b = S754_finite false m e
                 /\ Zdigits2 (Zpos m) = 53 /\ -105 <= e <= 1.
Proof.
  intros Ha Hb. unfold f64_of_Z.
  destruct (binary_normalize_integer 53 1024 a ltac:(lia) Ha ltac:(cbv; discriminate) ltac:(lia))
    as (-> & Hda & Hda').
  destruct (binary_normalize_integer 53 1024 b ltac:(lia) Hb ltac:(cbv; discriminate) ltac:(lia))
    as (-> & Hdb & Hdb').
  set (da := Zdigits2 a) in *. set (db := Zdigits2 b) in *.
  assert (Hsa : 0 < 2 ^ (53 - da)) by (apply Z.pow_pos_nonneg; lia).
  assert (Hsb : 0 < 2 ^ (53 - db)) by (apply Z.pow_pos_nonneg; lia).
  set (ma := a * 2 ^ (53 - da)) in *. set (mb := b * 2 ^ (53 - db)) in *.
  assert (Hma : 0 < ma) by (unfold ma; nia).
  assert (Hmb : 0 < mb) by (unfold mb; nia).
  destruct (Zdigits2_bounds ma Hma) as (Bma & _). rewrite Hda in Bma.
  destruct (Zdigits2_bounds mb Hmb) as (Bmb & _). rewrite Hdb in Bmb.
  change (53 - 1) with 52 in *.
  assert (Hq : 2 ^ 52 <= ma * 2 ^ 53 / mb < 2 ^ 54).
  { split.
    - apply Z.div_le_lower_bound; [lia |]. nia.
    - apply Z.div_lt_upper_bound; [lia |].
      change (2 ^ 54) with (2 * 2 ^ 53). nia. }
  assert (Hdq : 53 <= Zdigits2 (ma * 2 ^ 53 / mb) <= 54).
  { destruct (Zdigits2_bounds (ma * 2 ^ 53 / mb) ltac:(lia)) as (Bq & _).
    split.
    - destruct (Z.le_gt_cases 53 (Zdigits2 (ma * 2 ^ 53 / mb))) as [? | Hlt]; [assumption | exfalso].
      assert (2 ^ Zdigits2 (ma * 2 ^ 53 / mb) <= 2 ^ 52) by (apply Z.pow_le_mono_r; lia). lia.
    - destruct (Z.le_gt_cases (Zdigits2 (ma * 2 ^ 53 / mb)) 54) as [? | Hgt]; [assumption | exfalso].
      assert (2 ^ 54 <= 2 ^ (Zdigits2 (ma * 2 ^ 53 / mb) - 1)) by (apply Z.pow_le_mono_r; lia). lia. }
  assert (Hratio : ma * 2 ^ 53 * b * 2 ^ Z.max (da - 53 - (db - 53) - 53) 0
                   = a * mb * 2 ^ Z.max (- (da - 53 - (db - 53) - 53)) 0).
  { rewrite (Z.max_r _ 0), (Z.max_l _ 0), Z.pow_0_r, Z.mul_1_r by lia.
    replace (- (da - 53 - (db - 53) - 53)) with (53 + db - da) by lia.
    assert (E : 2 ^ (53 - db) * 2 ^ (53 + db - da) = 2 ^ (53 - da) * 2 ^ 53).
    { rewrite <- !Z.pow_add_r by lia. f_equal. lia. }
    unfold ma, mb.
    transitivity (a * b * (2 ^ (53 - da) * 2 ^ 53)); [ring |].
    rewrite <- E. ring. }
  split.
  - unfold SFdiv. rewrite !Z2Pos.id by assumption.
    rewrite (SFdiv_core_binary_normal 53 1024 ma (da - 53) mb (db - 53));
      try assumption; try lia; [| unfold emin; lia].
    cbn [xorb].
    apply binary_round_aux_nearest_even;
      first [lia | exact Hratio | unfold emin; lia].
  - destruct (nearest_even_at 53 ltac:(lia) (ma * 2 ^ 53) mb (da - 53 - (db - 53) - 53) a b
                ltac:(lia) Hmb ltac:(lia) ltac:(lia) Hratio ltac:(lia))
      as (_ & Hm & ->).
    set (m := half_even _ _) in *.
    destruct (Z.eqb_spec m (2 ^ 53)) as [E | E].
    + eexists. eexists. split; [reflexivity |]. split; [reflexivity | lia].
    + eexists. eexists. split; [reflexivity |].
      rewrite Z2Pos.id by lia. split; [| lia].
      apply Zdigits2_unique; lia.
Qed.

(** The conversion of such a binary64 number to binary32 rounds it to
    the nearest binary32 number. *)
Lemma f64_to_f32_nearest_even (m : positive) (e : Z) :
  Zdigits2 (Zpos m) = 53 -> -105 <= e <= 1 ->
  f64_to_f32 (S754_finite false m e)
  = nearest_even 24 (Zpos m * 2 ^ Z.max e 0) (2 ^ Z.max (- e) 0).
Proof.
  intros Hd He. unfold f64_to_f32, binary_normalize, cond_Zopp, binary_round, shl_align.
  change (Zpos (digits2_pos m)) with (Zdigits2 (Zpos m)). rewrite Hd.
  replace (fexp 24 128 (53 + e) - e) with 29
    by (unfold fexp, emin; rewrite Z.max_l by lia; lia).
  pose proof (binary_round_aux_nearest_even 24 128 ltac:(lia) (Zpos m) 1 e
                (Zpos m * 2 ^ Z.max e 0) (2 ^ Z.max (- e) 0)) as G.
  rewrite Z.div_1_r, Z.mod_1_r, Hd in G.
  pose proof (pow2_max_pos e). pose proof (pow2_max_pos (- e)).
  apply G; first [lia | nia | ring | unfold emin; lia].
Qed.

(** [torch.tensor(a / b)] for two lengths: the quotient, rounded twice. *)
Lemma quotient_tensor (a b : Z) :
  0 <= a < 2 ^ 53 -> 0 < b < 2 ^ 53 ->
  f64_to_f32 (SFdiv 53 1024 (f64_of_Z a) (f64_of_Z b)) = rounded_quotient a b.
Proof.
  intros Ha Hb. unfold rounded_quotient.
  destruct (Z.eq_dec a 0) as [-> | Hne].
  - unfold f64_of_Z at 1. cbn [binary_normalize].
    destruct (binary_normalize_integer 53 1024 b ltac:(lia) Hb ltac:(cbv; discriminate) ltac:(lia))
      as (E & _). unfold f64_of_Z. rewrite E. reflexivity.
  - destruct (truediv_nearest_even a b ltac:(lia) Hb) as (-> & m & e & -> & Hd & He).
    apply f64_to_f32_nearest_even; assumption.
Qed.

(** A number that has [prec] bits is its own rounding. *)
Lemma nearest_even_exact (prec m ex num den : Z) :
  0 < prec -> 0 < num -> 0 < den ->
  Zdigits2 m = prec ->
  m * den * 2 ^ Z.max ex 0 = num * 2 ^ Z.max (- ex) 0 ->
  nearest_even prec num den = S754_finite false (Z.to_pos m) ex.
Proof.
  intros Hp Hnum Hden Hd Hratio.
  assert (Hm : 0 < m).
  { destruct m as [| p | p]; try lia; cbn in Hd; lia. }
  destruct (Zdigits2_bounds m Hm) as (B & _). rewrite Hd in B.
  pose proof (nearest_even_at prec Hp m 1 ex num den Hm ltac:(lia) Hnum Hden) as H.
  cbv zeta in H.
  rewrite Z.div_1_r, Hd, Z.sub_diag, Z.pow_0_r, Z.mul_1_r, Z.add_0_r in H.
  destruct H as (_ & _ & ->); [rewrite <- Hratio; ring | lia |].
  unfold half_even. rewrite Z.mod_1_r, Z.div_1_r. cbn [Z.mul Z.compare].
  replace (m =? 2 ^ prec) with false by (symmetry; apply Z.eqb_neq; lia).
  reflexivity.
Qed.

(** When the quotient is an integer of at most 24 bits, that integer is
    what the two roundings leave. *)
Lemma rounded_quotient_exact (q b : Z) :
  0 < q < 2 ^ 24 -> 0 < b ->
  rounded_quotient (q * b) b = f32_of_Z q.
Proof.
  intros Hq Hb. unfold rounded_quotient, f32_of_Z.
  destruct (binary_normalize_integer 24 128 q ltac:(lia) Hq ltac:(cbv; discriminate) ltac:(lia))
    as (-> & Hd24 & Hdq).
  set (dq := Zdigits2 q) in *.
  assert (Hs : 0 < 2 ^ (53 - dq)) by (apply Z.pow_pos_nonneg; lia).
  assert (Hs' : 0 < 2 ^ (24 - dq)) by (apply Z.pow_pos_nonneg; lia).
  destruct (Zdigits2_bounds q ltac:(lia)) as (Bq & _). fold dq in Bq.
  assert (Hd53 : Zdigits2 (q * 2 ^ (53 - dq)) = 53).
  { apply Zdigits2_unique; [lia |].
    replace (2 ^ (53 - 1)) with (2 ^ (dq - 1) * 2 ^ (53 - dq))
      by (rewrite <- Z.pow_add_r by lia; f_equal; lia).
    replace (2 ^ 53) with (2 ^ dq * 2 ^ (53 - dq))
      by (rewrite <- Z.pow_add_r by lia; f_equal; lia).
    nia. }
  rewrite (nearest_even_exact 53 (q * 2 ^ (53 - dq)) (dq - 53) (q * b) b);
    try lia; try assumption; try nia.
  - rewrite Z2Pos.id by nia.
    rewrite (Z.max_r (dq - 53) 0), (Z.max_l (- (dq - 53)) 0), Z.pow_0_r, Z.mul_1_r by lia.
    replace (- (dq - 53)) with (53 - dq) by lia.
    apply (nearest_even_exact 24 (q * 2 ^ (24 - dq)) (dq - 24));
      try lia; try nia; try exact Hd24.
    rewrite (Z.max_r (dq - 24) 0), (Z.max_l (- (dq - 24)) 0), Z.pow_0_r, Z.mul_1_r by lia.
    replace (- (dq - 24)) with (24 - dq) by lia. ring.
  - rewrite (Z.max_r (dq - 53) 0), (Z.max_l (- (dq - 53)) 0), Z.pow_0_r, Z.mul_1_r by lia.
    replace (- (dq - 53)) with (53 - dq) by lia. ring.
Qed.

(** An integer of at most 24 bits, as a binary32 number, is the quotient
    it was computed from. *)
Lemma f32_of_Z_is_fraction (q b : Z) :
  0 < q < 2 ^ 24 -> is_fraction (f32_of_Z q) (q * b) b.
Proof.
  intros Hq. unfold f32_of_Z.
  destruct (binary_normalize_integer 24 128 q ltac:(lia) Hq
              ltac:(cbv; discriminate) ltac:(lia)) as (-> & _ & Hdq).
  assert (Hs : 0 < 2 ^ (24 - Zdigits2 q)) by (apply Z.pow_pos_nonneg; lia).
  cbn [is_fraction]. rewrite Z2Pos.id by nia.
  rewrite Z.max_r, Z.max_l, Z.pow_0_r, Z.mul_1_r by lia.
  replace (- (Zdigits2 q - 24)) with (24 - Zdigits2 q) by lia. ring.
Qed.

Lemma half_even_error (n d : Z) :
  0 < d -> 2 * Z.abs (half_even n d * d - n) <= d.
Proof.
  intros Hd. unfold half_even.
  pose proof (Z.div_mod n d ltac:(lia)) as E.
  pose proof (Z.mod_pos_bound n d Hd) as B.
  destruct (Z.compare_spec (2 * (n mod d)) d) as [C | C | C];
    [destruct (Z.even (n / d)) | |]; nia.
Qed.

(** The reference is what its name says: a number of [prec] significant
    bits that lies within half a unit in the last place of the quotient. *)
Lemma nearest_even_half_ulp (prec num den : Z) :
  0 < prec -> 0 < num -> 0 < den ->
  exists m e,
    nearest_even prec num den = S754_finite false m e
    /\ 2 ^ (prec - 1) <= Zpos m < 2 ^ prec
    /\ 2 * Z.abs (Zpos m * 2 ^ Z.max e 0 * den - num * 2 ^ Z.max (- e) 0)
       <= den * 2 ^ Z.max e 0.
Proof.
  intros Hp Hnum Hden.
  set (K := prec + Z.log2 den + 1).
  pose proof (Z.log2_nonneg den) as Hl.
  assert (HK : 0 < K) by (unfold K; lia).
  assert (HpK : 0 < 2 ^ K) by (apply Z.pow_pos_nonneg; lia).
  assert (Hden' : den < 2 ^ (Z.log2 den + 1)).
  { replace (Z.log2 den + 1) with (Z.succ (Z.log2 den)) by lia.
    apply Z.log2_spec. exact Hden. }
  assert (HNq : 2 ^ prec <= num * 2 ^ K / den).
  { apply Z.div_le_lower_bound; [exact Hden |].
    unfold K. replace (prec + Z.log2 den + 1) with (prec + (Z.log2 den + 1)) by lia.
    rewrite Z.pow_add_r by lia.
    assert (0 < 2 ^ prec) by (apply Z.pow_pos_nonneg; lia).
    set (c := 2 ^ (Z.log2 den + 1)) in *. set (a := 2 ^ prec) in *.
    assert (den * a <= c * a) by (apply Z.mul_le_mono_nonneg_r; lia).
    assert (1 * (a * c) <= num * (a * c)) by (apply Z.mul_le_mono_nonneg_r; nia).
    lia. }
  assert (Hdig : prec <= Zdigits2 (num * 2 ^ K / den)).
  { assert (0 < 2 ^ prec) by (apply Z.pow_pos_nonneg; lia).
    destruct (Zdigits2_bounds (num * 2 ^ K / den) ltac:(lia)) as (B & _).
    destruct (Z.le_gt_cases prec (Zdigits2 (num * 2 ^ K / den))) as [? | Hlt];
      [assumption | exfalso].
    assert (2 ^ Zdigits2 (num * 2 ^ K / den) <= 2 ^ prec)
      by (apply Z.pow_le_mono_r; lia).
    lia. }
  assert (Hratio : num * 2 ^ K * den * 2 ^ Z.max (- K) 0
                   = num * den * 2 ^ Z.max (- - K) 0).
  { rewrite Z.max_r, Z.max_l, Z.pow_0_r by lia.
    replace (- - K) with K by lia. ring. }
  pose proof (nearest_even_at prec Hp (num * 2 ^ K) den (- K) num den
                ltac:(nia) Hden Hnum Hden Hratio Hdig) as H.
  cbv zeta in H.
  set (n := Zdigits2 (num * 2 ^ K / den) - prec) in *.
  assert (Hn : 0 <= n) by (unfold n; lia).
  assert (Hpn : 0 < 2 ^ n) by (apply Z.pow_pos_nonneg; lia).
  set (D1 := den * 2 ^ n) in *.
  assert (HD1 : 0 < D1) by (unfold D1; nia).
  set (N := num * 2 ^ K) in *.
  set (m0 := half_even N D1) in *.
  destruct H as (_ & Hm0 & ->).
  pose proof (half_even_error N D1 HD1) as Herr. fold m0 in Herr.
  assert (Hpp : 0 < 2 ^ (prec - 1)) by (apply Z.pow_pos_nonneg; lia).
  assert (Epp : 2 ^ prec = 2 * 2 ^ (prec - 1)).
  { replace prec with (1 + (prec - 1)) at 1 by lia.
    rewrite Z.pow_add_r by lia. reflexivity. }
  destruct (Z.eqb_spec m0 (2 ^ prec)) as [Ecarry | Hno].
  - exists (Z.to_pos (2 ^ (prec - 1))), (- K + n + 1).
    split; [reflexivity |]. rewrite Z2Pos.id by lia.
    split; [lia |].
    set (e := - K + n + 1).
    pose proof (pow2_max_pos e) as Hpe. pose proof (pow2_max_pos (- e)) as Hpe'.
    assert (I : 2 ^ Z.max (- e) 0 * 2 ^ n * 2 = 2 ^ K * 2 ^ Z.max e 0).
    { replace 2 with (2 ^ 1) at 3 by reflexivity.
      rewrite <- !Z.pow_add_r by lia. f_equal. unfold e. lia. }
    set (A := 2 ^ Z.max e 0) in *. set (B := 2 ^ Z.max (- e) 0) in *.
    assert (I' : num * B * (2 * D1) = N * den * A).
    { unfold D1, N. transitivity (num * den * (B * 2 ^ n * 2)); [ring |].
      rewrite I. ring. }
    apply (Z.mul_le_mono_pos_r _ _ (2 * D1)); [lia |].
    rewrite Ecarry in Herr.
    replace (2 * Z.abs (2 ^ (prec - 1) * A * den - num * B) * (2 * D1))
      with (2 * Z.abs ((2 ^ (prec - 1) * A * den - num * B) * (2 * D1)))
      by (rewrite Z.abs_mul, (Z.abs_eq (2 * D1)) by lia; ring).
    replace ((2 ^ (prec - 1) * A * den - num * B) * (2 * D1))
      with ((2 ^ prec * D1 - N) * (den * A))
      by (rewrite Epp; transitivity (2 * 2 ^ (prec - 1) * D1 * (den * A) - num * B * (2 * D1));
          [rewrite I' |]; ring).
    rewrite Z.abs_mul, (Z.abs_eq (den * A)) by nia.
    nia.
  - exists (Z.to_pos m0), (- K + n).
    split; [reflexivity |]. rewrite Z2Pos.id by lia.
    split; [lia |].
    set (e := - K + n).
    pose proof (pow2_max_pos e) as Hpe. pose proof (pow2_max_pos (- e)) as Hpe'.
    assert (I : 2 ^ Z.max (- e) 0 * 2 ^ n = 2 ^ K * 2 ^ Z.max e 0).
    { rewrite <- !Z.pow_add_r by lia. f_equal. unfold e. lia. }
    set (A := 2 ^ Z.max e 0) in *. set (B := 2 ^ Z.max (- e) 0) in *.
    assert (I' : num * B * D1 = N * den * A).
    { unfold D1, N. transitivity (num * den * (B * 2 ^ n)); [ring |].
      rewrite I. ring. }
    apply (Z.mul_le_mono_pos_r _ _ D1); [lia |].
    replace (2 * Z.abs (m0 * A * den - num * B) * D1)
      with (2 * Z.abs ((m0 * A * den - num * B) * D1))
      by (rewrite Z.abs_mul, (Z.abs_eq D1) by lia; ring).
    replace ((m0 * A * den - num * B) * D1)
      with ((m0 * D1 - N) * (den * A))
      by (transitivity (m0 * D1 * (den * A) - num * B * D1); [rewrite I' |]; ring).
    rewrite Z.abs_mul, (Z.abs_eq (den * A)) by nia.
    nia.
Qed.

(** C8, as the code has it.  With a non-empty [indices_1] (and partitions
    of fewer than [2^53] records, so that their lengths are Python floats),
    [get_pos_weights] returns the binary32 tensor of 1.0 and of the quotient
    [len(indices_0) / len(indices_1)] rounded to the nearest binary64
    number, that one rounded to the nearest binary32 number, ties to even.
    When [len(indices_1)] divides [len(indices_0)] and the quotient is
    below [2^24] the entry is that integer, the quotient itself, as with 80
    records labelled 0 and 20 labelled 1: [1.0, 4.0], that is
    8388608 * 2^-23 and 8388608 * 2^-21. *)
Theorem get_pos_weights_value (self : MolDatasetTriplet) :
  indices_1 self <> [] ->
  (Z.of_nat (List.length (indices_0 self)) < 2 ^ 53 ->
   Z.of_nat (List.length (indices_1 self)) < 2 ^ 53 ->
   get_pos_weights self
   = Ok [f32_of_Z 1;
         rounded_quotient (Z.of_nat (List.length (indices_0 self)))
                          (Z.of_nat (List.length (indices_1 self)))]
   /\ forall q, 0 < q < 2 ^ 24 ->
                Z.of_nat (List.length (indices_0 self))
                = q * Z.of_nat (List.length (indices_1 self)) ->
                get_pos_weights self = Ok [f32_of_Z 1; f32_of_Z q]
                /\ is_fraction (f32_of_Z q)
                     (Z.of_nat (List.length (indices_0 self)))
                     (Z.of_nat (List.length (indices_1 self))))
  /\ (List.length (indices_0 self) = 80%nat ->
      List.length (indices_1 self) = 20%nat ->
      get_pos_weights self
      = Ok [S754_finite false 8388608 (-23); S754_finite false 8388608 (-21)]).
Proof.
  intros H1. split.
  - intros Hlen0 Hlen1.
    assert (Hvalue : get_pos_weights self
                     = Ok [f32_of_Z 1;
                           rounded_quotient (Z.of_nat (List.length (indices_0 self)))
                             (Z.of_nat (List.length (indices_1 self)))]).
    { unfold get_pos_weights, py_truediv.
      destruct (indices_1 self) as [| i rest]; [congruence |].
      cbn [List.length bind] in *.
      rewrite quotient_tensor by lia. reflexivity. }
    split; [exact Hvalue |].
    intros q Hq Hdiv. rewrite Hvalue, Hdiv.
    split; [| apply f32_of_Z_is_fraction; exact Hq].
    rewrite rounded_quotient_exact; [reflexivity | exact Hq |].
    destruct (indices_1 self); [congruence | cbn [List.length]; lia].
  - intros H80 H20. unfold get_pos_weights. rewrite H80, H20.
    vm_compute. reflexivity.
Qed.

Lemma get_pos_weights_value_witness :
  match MolDatasetTriplet_init lcg_numpy 0 (store_of 80 20) false false
          (PyBool false) None with
  | Ok self =>
      indices_1 self <> []
      /\ get_pos_weights self = Ok [f32_of_Z 1; rounded_quotient 80 20]
      /\ get_pos_weights self = Ok [f32_of_Z 1; f32_of_Z 4]
      /\ get_pos_weights self
         = Ok [S754_finite false 8388608 (-23); S754_finite false 8388608 (-21)]
  | Raise _ => False
  end.
Proof.
  rewrite init_plain by reflexivity.
  assert (H1 : indices_1 (kept_store (store_of 80 20) false false (PyBool false) None)
               <> []) by (vm_compute; discriminate).
  assert (H80 : List.length (indices_0 (kept_store (store_of 80 20) false false
                                          (PyBool false) None)) = 80%nat)
    by (vm_compute; reflexivity).
  assert (H20 : List.length (indices_1 (kept_store (store_of 80 20) false false
                                          (PyBool false) None)) = 20%nat)
    by (vm_compute; reflexivity).
  destruct (get_pos_weights_value _ H1) as (Hgeneral & Hinstance).
  destruct Hgeneral as (Hvalue & Hexact); [rewrite H80; lia | rewrite H20; lia |].
  rewrite H80, H20 in Hvalue, Hexact.
  split; [exact H1 |]. split; [exact Hvalue |].
  split; [apply (Hexact 4); lia | apply Hinstance; assumption].
Defined.

(** The claim that the second entry is the quotient itself fails where the
    quotient is no binary32 number: with one record labelled 0 and three
    labelled 1 the entry is 11184811 * 2^-25 = 0.3333333432674408, which is
    not one third (three times it is not 1), and not Python's float
    [1 / 3] = 6004799503160661 * 2^-54 either. *)
Lemma get_pos_weights_not_the_quotient :
  match MolDatasetTriplet_init lcg_numpy 0 (store_of 1 3) false false
          (PyBool false) None with
  | Ok self =>
      List.length (indices_0 self) = 1%nat
      /\ List.length (indices_1 self) = 3%nat
      /\ get_pos_weights self
         = Ok [f32_of_Z 1; S754_finite false 11184811 (-25)]
      /\ ~ is_fraction (S754_finite false 11184811 (-25)) 1 3
      /\ py_truediv 1 3 = Ok (S754_finite false 6004799503160661 (-54))
      /\ ~ is_fraction (S754_finite false 11184811 (-25))
                       6004799503160661 (2 ^ 54)
  | Raise _ => False
  end.
Proof.
  rewrite init_plain by reflexivity.
  split; [vm_compute; reflexivity |].
  split; [vm_compute; reflexivity |].
  split; [vm_compute; reflexivity |].
  split; [vm_compute; discriminate |].
  split; [vm_compute; reflexivity |].
  vm_compute. discriminate.
Qed.

(** ** refresh_fixed_triplets *)

(** [__get_fixed_dataset] returns only for a seed numpy accepts and a
    store with records whose two partitions are both non-empty: numpy
    refuses any other seed, the first record already draws from both
    partitions, and without a record [anchor_label] is never bound. *)
Lemma get_fixed_dataset_returns np fresh self cache :
  __get_fixed_dataset np fresh self = Ok cache ->
  seed_accepted (seed_fixed_triplets self)
  /\ y self <> [] /\ indices_0 self <> [] /\ indices_1 self <> [].
Proof.
  unfold __get_fixed_dataset, fixed_indices. intros H.
  apply bind_ok in H. destruct H as (((pos & neg) & last) & Hdrawn & H).
  apply bind_ok in Hdrawn. destruct Hdrawn as (g & Hg & Hloop).
  split.
  - unfold RandomState in Hg.
    destruct (seed_fixed_triplets self) as [s |]; [| exact I].
    destruct ((0 <=? s) && (s <? 2 ^ 32)) eqn:Hs; [| discriminate].
    apply andb_prop in Hs. destruct Hs as (Hlo & Hhi).
    apply Z.leb_le in Hlo. apply Z.ltb_lt in Hhi. cbn [seed_accepted]. lia.
  - destruct (y self) as [| v t].
    + cbn in Hloop. injection Hloop as <- <- <-. cbn in H. discriminate.
    + split; [discriminate |].
      change (tolist (v :: t)) with ([f32_to_f64 v] :: tolist t) in Hloop.
      cbn [fixed_loop] in Hloop. unfold list_item at 1 in Hloop.
      cbn [nth_error bind] in Hloop.
      destruct (f64_eq (f32_to_f64 v) 1);
        apply bind_ok in Hloop; destruct Hloop as ([p g1] & Hp & Hloop);
        apply bind_ok in Hloop; destruct Hloop as ([n g2] & Hn & _);
        split; intros Hempty; rewrite Hempty in *; discriminate.
Qed.

(** C10, as the code has it.  [refresh_fixed_triplets(s)] changes the
    stored seed and, when it returns, the cache, and nothing else: the
    store, the partitions and the flags are the ones before the call, and
    [__getitem__] on a dataset with [use_fixed_triplets] false and [train]
    false gives what it gave before.  The call returns whenever numpy
    accepts the seed and both partitions (the ones of the dataset's labels,
    over a store with as many fingerprints as labels) are non-empty, and
    only then: with a seed numpy refuses or with an empty partition it
    raises.  When it raises, the seed is stored all the same and the cache
    is the one before. *)
Theorem refresh_fixed_triplets_effect np py fresh self seed :
  let (outcome, self') := refresh_fixed_triplets np fresh self seed in
  (X self' = X self /\ y self' = y self /\ smiles self' = smiles self
   /\ n_molecules self' = n_molecules self
   /\ indices_0 self' = indices_0 self /\ indices_1 self' = indices_1 self
   /\ train self' = train self /\ oversample self' = oversample self
   /\ use_fixed_triplets self' = use_fixed_triplets self)
  /\ seed_fixed_triplets self' = seed
  /\ (forall e, outcome = Raise e -> fixed_triplets self' = fixed_triplets self)
  /\ (truthy (use_fixed_triplets self) = false -> train self = false ->
      forall id0 g, __getitem__ py self' id0 g = __getitem__ py self id0 g)
  /\ (seed_accepted seed -> partitions_current self ->
      List.length (X self) = List.length (y self) ->
      indices_0 self <> [] -> indices_1 self <> [] ->
      outcome = Ok tt /\ exists cache, fixed_triplets self' = Some cache)
  /\ (~ (seed_accepted seed /\ indices_0 self <> [] /\ indices_1 self <> []) ->
      exists e, outcome = Raise e
                /\ seed_fixed_triplets self' = seed
                /\ fixed_triplets self' = fixed_triplets self).
Proof.
  unfold refresh_fixed_triplets.
  destruct (__get_fixed_dataset np fresh (set_seed self seed)) as [cache | e] eqn:Hc.
  - split; [cbn; repeat split; reflexivity |].
    split; [reflexivity |].
    split; [discriminate |].
    split; [| split].
    + intros Hf Ht id0 g. unfold __getitem__. cbn. rewrite Hf, Ht. reflexivity.
    + intros _ _ _ _ _. split; [reflexivity | cbn; eauto].
    + intros Hnot. exfalso. apply Hnot.
      destruct (get_fixed_dataset_returns np fresh _ _ Hc) as (Hs & _ & H0 & H1).
      auto.
  - split; [cbn; repeat split; reflexivity |].
    split; [reflexivity |].
    split; [reflexivity |].
    split; [| split].
    + intros Hf Ht id0 g. unfold __getitem__. cbn. rewrite Hf, Ht. reflexivity.
    + intros Hseed (Hp0 & Hp1) Hlen H0 H1. exfalso.
      destruct (get_fixed_dataset_ok np fresh (set_seed self seed))
        as (pos & neg & pmf & nmf & l & _ & _ & _ & _ & _ & _ & Hok).
      * exact Hseed.
      * exact H0.
      * exact H1.
      * cbn. intros Hy. rewrite Hp0, Hy in H0. now apply H0.
      * cbn. rewrite Hp0, Hp1, Hlen.
        intros i [Hi | Hi]; eapply rows_equal_lt; exact Hi.
      * congruence.
    + intros _. exists e. repeat split.
Qed.

(** A refresh that returns, on a store with both classes, and one that
    raises, with a seed of 33 bits. *)
Lemma refresh_fixed_triplets_effect_witness :
  match MolDatasetTriplet_init lcg_numpy 0 (store_of 2 1) false false
          (PyBool false) None with
  | Ok self =>
      (let (outcome, self') := refresh_fixed_triplets lcg_numpy 0 self (Some 1) in
       outcome = Ok tt
       /\ seed_fixed_triplets self' = Some 1
       /\ (forall id0 g, __getitem__ lcg_python self' id0 g
                         = __getitem__ lcg_python self id0 g))
      /\ (let (outcome, self') :=
            refresh_fixed_triplets lcg_numpy 0 self (Some (2 ^ 32)) in
          exists e, outcome = Raise e
                    /\ seed_fixed_triplets self' = Some (2 ^ 32)
                    /\ fixed_triplets self' = fixed_triplets self)
  | Raise _ => False
  end.
Proof.
  rewrite init_plain by reflexivity.
  split.
  - pose proof (refresh_fixed_triplets_effect lcg_numpy lcg_python 0
                  (kept_store (store_of 2 1) false false (PyBool false) None)
                  (Some 1)) as H.
    destruct (refresh_fixed_triplets lcg_numpy 0
                (kept_store (store_of 2 1) false false (PyBool false) None)
                (Some 1)) as [outcome self'].
    destruct H as (_ & Hseed & _ & Hget & Hok & _).
    split; [| split].
    + apply Hok.
      * cbn [seed_accepted]. lia.
      * split; reflexivity.
      * reflexivity.
      * vm_compute. discriminate.
      * vm_compute. discriminate.
    + exact Hseed.
    + apply Hget; reflexivity.
  - pose proof (refresh_fixed_triplets_effect lcg_numpy lcg_python 0
                  (kept_store (store_of 2 1) false false (PyBool false) None)
                  (Some (2 ^ 32))) as H.
    destruct (refresh_fixed_triplets lcg_numpy 0
                (kept_store (store_of 2 1) false false (PyBool false) None)
                (Some (2 ^ 32))) as [outcome self'].
    destruct H as (_ & _ & _ & _ & _ & Hraise).
    apply Hraise. cbn [seed_accepted]. lia.
Defined.

(** The claim that the call always succeeds fails on a store with one
    class: the dataset is constructed (no triplet is drawn at construction
    without fixed triplets) and the refresh raises [ValueError], numpy
    being asked to choose from the empty partition. *)
Lemma refresh_single_class_raises :
  match MolDatasetTriplet_init lcg_numpy 0 (store_of 2 0) false false
          (PyBool false) None with
  | Ok self =>
      fst (refresh_fixed_triplets lcg_numpy 0 self (Some 1)) = Raise ValueError
  | Raise _ => False
  end.
Proof. vm_compute. reflexivity. Qed.

(** ** The seeds of the training loop *)

Lemma sum_to_closed (e : nat) :
  sum_to e = Z.of_nat e * (Z.of_nat e + 1) / 2.
Proof.
  assert (H : 2 * sum_to e = Z.of_nat e * (Z.of_nat e + 1)).
  { induction e as [| e IH]; [reflexivity |].
    cbn [sum_to]. rewrite Z.mul_add_distr_l, IH. lia. }
  rewrite <- H, Z.mul_comm, Z.div_mul by lia. reflexivity.
Qed.

Lemma sum_to_epoch (e : nat) :
  (sum_to e = Z.of_nat e <-> (e <= 1)%nat) /\ Z.of_nat e <= sum_to e.
Proof.
  assert (H : 2 * sum_to e = Z.of_nat e * (Z.of_nat e + 1)).
  { induction e as [| e IH]; [reflexivity |].
    cbn [sum_to]. rewrite Z.mul_add_distr_l, IH. lia. }
  split; [split; intros He |]; nia.
Qed.

Section LoopSeeds.

Variable np : NumpyRandom.
Variable World : Type.
Variable phases : nat -> World -> MolDatasetTriplet
                  -> result (World * MolDatasetTriplet).

(** The phases read the dataset and may reorder it; they leave the
    stored seed alone. *)
Hypothesis phases_keep_seed :
  forall e w d w' d',
    phases e w d = Ok (w', d') ->
    seed_fixed_triplets d' = seed_fixed_triplets d.

Variable fresh : np_state np.
Variable s0 : Z.

Lemma refresh_stores_seed self seed :
  seed_fixed_triplets (snd (refresh_fixed_triplets np fresh self seed)) = seed.
Proof.
  unfold refresh_fixed_triplets.
  destruct (__get_fixed_dataset np fresh (set_seed self seed)); reflexivity.
Qed.

(** The trace of the loop from [epoch] on: the events of [k] epochs, and
    after them, if a refresh raised, that refresh. *)
Lemma epochs_trace :
  forall remaining epoch w dataset trace,
    seed_fixed_triplets dataset = Some (s0 + sum_to (pred epoch)) ->
    exists k,
      (k <= remaining)%nat /\
      let run := epochs np World phases fresh true remaining epoch w dataset trace in
      ((snd run = trace ++ flat_map (epoch_events s0) (seq epoch k)
        /\ (is_ok (fst run) = true -> k = remaining))
       \/ (snd run = trace ++ flat_map (epoch_events s0) (seq epoch k)
                     ++ [Refreshed (epoch + k) (s0 + sum_to (epoch + k))]
           /\ is_ok (fst run) = false
           /\ (k < remaining)%nat /\ (0 < epoch + k)%nat)).
Proof.
  induction remaining as [| remaining IH]; intros epoch w dataset trace Hseed.
  - exists 0%nat. split; [lia |]. left. cbn. rewrite app_nil_r. auto.
  - destruct epoch as [| e]; cbn [pred] in Hseed.
    + (* the first epoch: no refresh *)
      cbn [epochs Nat.ltb Nat.leb andb]. rewrite Hseed.
      destruct (phases 0%nat w dataset) as [[w' d2] | err] eqn:Hph.
      * destruct (IH 1%nat w' d2 (trace ++ [Phases 0 (Some (s0 + sum_to 0))]))
          as (k & Hk & Hrun).
        { rewrite (phases_keep_seed _ _ _ _ _ Hph). exact Hseed. }
        exists (S k). split; [lia |].
        cbn zeta in Hrun |- *.
        cbn [seq flat_map]. unfold epoch_events at 1 3. cbn [Nat.ltb Nat.leb app].
        destruct Hrun as [(Ht & Hok) | (Ht & Hko & Hlt & _)].
        -- left. split; [| intros H; f_equal; auto].
           rewrite Ht, <- app_assoc. reflexivity.
        -- right. split; [| repeat split; [exact Hko | lia | lia]].
           rewrite Ht, <- app_assoc. reflexivity.
      * exists 1%nat. split; [lia |]. left. cbn [fst snd is_ok seq flat_map].
        unfold epoch_events. cbn [Nat.ltb Nat.leb app]. rewrite ?app_nil_r.
        split; [reflexivity | discriminate].
    + (* a later epoch: the refresh comes first *)
      cbn [epochs Nat.ltb Nat.leb andb]. rewrite Hseed.
      replace (s0 + sum_to e + Z.of_nat (S e)) with (s0 + sum_to (S e))
        by (cbn [sum_to]; lia).
      pose proof (refresh_stores_seed dataset (Some (s0 + sum_to (S e))))
        as Hstored.
      destruct (refresh_fixed_triplets np fresh dataset (Some (s0 + sum_to (S e))))
        as [outcome d1].
      cbn [snd] in Hstored.
      destruct outcome as [[] | err].
      * rewrite Hstored.
        destruct (phases (S e) w d1) as [[w' d2] | err] eqn:Hph.
        -- destruct (IH (S (S e)) w' d2
                       ((trace ++ [Refreshed (S e) (s0 + sum_to (S e))])
                        ++ [Phases (S e) (Some (s0 + sum_to (S e)))]))
             as (k & Hk & Hrun).
           { rewrite (phases_keep_seed _ _ _ _ _ Hph). exact Hstored. }
           exists (S k). split; [lia |].
           cbn zeta in Hrun |- *.
           cbn [seq flat_map]. unfold epoch_events at 1 3.
           cbn [Nat.ltb Nat.leb app].
           destruct Hrun as [(Ht & Hok) | (Ht & Hko & Hlt & _)].
           ++ left. split; [| intros H; f_equal; auto].
              rewrite Ht, <- !app_assoc. reflexivity.
           ++ right. split; [| repeat split; [exact Hko | lia | lia]].
              rewrite Ht, <- !app_assoc. cbn [app].
              replace (S e + S k)%nat with (S (S e) + k)%nat by lia.
              reflexivity.
        -- exists 1%nat. split; [lia |]. left. cbn [fst snd is_ok seq flat_map].
           unfold epoch_events. cbn [Nat.ltb Nat.leb app].
           rewrite ?app_nil_r, <- ?app_assoc.
           split; [reflexivity | discriminate].
      * exists 0%nat. split; [lia |]. right. cbn [fst snd is_ok seq flat_map app].
        rewrite Nat.add_0_r. repeat split; lia.
Qed.

Lemma In_epoch_events_Refreshed e s x :
  In (Refreshed e s) (epoch_events s0 x) ->
  e = x /\ (0 < e)%nat /\ s = s0 + sum_to e.
Proof.
  unfold epoch_events. destruct x as [| x]; cbn.
  - intros [H | []]. discriminate.
  - intros [H | [H | []]]; [| discriminate].
    injection H as <- <-. repeat split. lia.
Qed.

Lemma In_epoch_events_Phases e held x :
  In (Phases e held) (epoch_events s0 x) ->
  e = x /\ held = Some (s0 + sum_to e).
Proof.
  unfold epoch_events. destruct x as [| x]; cbn.
  - intros [H | []]. injection H as <- <-. auto.
  - intros [H | [H | []]]; [discriminate |].
    injection H as <- <-. auto.
Qed.

Lemma seq_split_at (a k e : nat) :
  (a <= e < a + k)%nat ->
  seq a k = seq a (e - a) ++ e :: seq (S e) (a + k - S e).
Proof.
  intros He.
  replace k with ((e - a) + S (a + k - S e))%nat at 1 by lia.
  rewrite seq_app. cbn [seq].
  replace (a + (e - a))%nat with e by lia. reflexivity.
Qed.

(** The seeds of a whole run of [train_triplet] in fixed mode. *)
Lemma train_triplet_trace w dataset n_epochs :
  seed_fixed_triplets dataset = Some s0 ->
  let run := train_triplet np World phases fresh w dataset n_epochs true in
  exists k,
    (k <= n_epochs)%nat /\
    ((snd run = flat_map (epoch_events s0) (seq 0 k)
      /\ (is_ok (fst run) = true -> k = n_epochs))
     \/ (snd run = flat_map (epoch_events s0) (seq 0 k)
                   ++ [Refreshed k (s0 + sum_to k)]
         /\ is_ok (fst run) = false /\ (0 < k < n_epochs)%nat)).
Proof.
  intros Hseed. unfold train_triplet.
  destruct (py_truediv _ _) as [weights_1 | err].
  - destruct (epochs_trace n_epochs 0%nat w dataset [])
      as (k & Hk & Hrun).
    { cbn [pred sum_to]. rewrite Z.add_0_r. exact Hseed. }
    exists k. split; [exact Hk |].
    cbn zeta in Hrun |- *. cbn [app Nat.add] in Hrun.
    destruct Hrun as [H | (Ht & Hko & Hlt & Hpos)];
      [left; exact H | right; repeat split; assumption].
  - exists 0%nat. split; [lia |]. left. cbn. split; [reflexivity | discriminate].
Qed.

End LoopSeeds.

(** The seeds of the refreshes, for every model, loader and loss: as long
    as the phases of an epoch, when they return, leave the stored seed of
    the training dataset alone.  In fixed mode the loop calls
    [refresh_fixed_triplets] in every epoch [e > 0] it reaches, before that
    epoch's phases, and never in epoch 0.  The argument is the seed the
    dataset holds at that moment plus [e]; as every refresh stores its
    argument, that is the construction seed plus [1 + 2 + ... + e], which is
    the construction seed plus [e] in epoch 1 and in no later epoch.  The
    phases of epoch [e] then run on a dataset holding that seed. *)
Lemma train_triplet_refresh_seed np World phases fresh w dataset n_epochs s0 :
  seed_fixed_triplets dataset = Some s0 ->
  (forall e w d w' d',
      phases e w d = Ok (w', d') ->
      seed_fixed_triplets d' = seed_fixed_triplets d) ->
  let run := train_triplet np World phases fresh w dataset n_epochs true in
  (forall e s, In (Refreshed e s) (snd run) ->
               (0 < e < n_epochs)%nat /\ s = s0 + sum_to e
               /\ (s = s0 + Z.of_nat e <-> e = 1%nat))
  /\ (forall e held, (0 < e)%nat -> In (Phases e held) (snd run) ->
        held = Some (s0 + sum_to e)
        /\ exists before after,
             snd run = before ++ Refreshed e (s0 + sum_to e)
                                 :: Phases e held :: after)
  /\ (is_ok (fst run) = true ->
      snd run = flat_map (epoch_events s0) (seq 0 n_epochs)).
Proof.
  intros Hseed Hkeep.
  destruct (train_triplet_trace np World phases Hkeep fresh s0 w dataset n_epochs Hseed)
    as (k & Hk & Hrun).
  cbn zeta in Hrun |- *.
  set (run := train_triplet np World phases fresh w dataset n_epochs true) in *.
  assert (Hin : forall ev, In ev (snd run) ->
            In ev (flat_map (epoch_events s0) (seq 0 k))
            \/ (ev = Refreshed k (s0 + sum_to k) /\ (0 < k < n_epochs)%nat)).
  { intros ev Hev. destruct Hrun as [(Ht & _) | (Ht & _ & Hlt)]; rewrite Ht in Hev.
    - now left.
    - apply in_app_or in Hev. destruct Hev as [Hev | [<- | []]]; auto. }
  split; [| split].
  - intros e s Hev.
    assert (Hes : (0 < e < n_epochs)%nat /\ s = s0 + sum_to e).
    { destruct (Hin _ Hev) as [Hfm | (Heq & Hlt)].
      - apply in_flat_map in Hfm. destruct Hfm as (x & Hx & Hfm).
        apply In_epoch_events_Refreshed in Hfm. destruct Hfm as (-> & Hpos & ->).
        apply in_seq in Hx. split; [lia | reflexivity].
      - injection Heq as -> ->. auto. }
    destruct Hes as (He & ->). split; [exact He |]. split; [reflexivity |].
    pose proof (sum_to_epoch e). lia.
  - intros e held Hpos Hev. destruct (Hin _ Hev) as [Hfm | (Heq & _)];
      [| discriminate].
    apply in_flat_map in Hfm. destruct Hfm as (x & Hx & Hfm).
    apply In_epoch_events_Phases in Hfm. destruct Hfm as (Heq & ->). subst x.
    split; [reflexivity |].
    apply in_seq in Hx.
    assert (Hfm : flat_map (epoch_events s0) (seq 0 k)
                  = flat_map (epoch_events s0) (seq 0 e)
                    ++ Refreshed e (s0 + sum_to e)
                       :: Phases e (Some (s0 + sum_to e))
                       :: flat_map (epoch_events s0) (seq (S e) (k - S e))).
    { rewrite (seq_split_at 0 k e) by lia.
      rewrite Nat.sub_0_r, flat_map_app. cbn [flat_map Nat.add].
      unfold epoch_events at 2.
      destruct e as [| e]; [lia |]. reflexivity. }
    destruct Hrun as [(Ht & _) | (Ht & _)]; rewrite Ht, Hfm.
    + eauto.
    + rewrite <- app_assoc. cbn [app]. eauto.
  - intros Hok. destruct Hrun as [(Ht & Hn) | (_ & Hko & _)].
    + rewrite Ht, (Hn Hok). reflexivity.
    + congruence.
Qed.

(** The phases of [train_triplet] hand the training dataset on as
    [shuffle_data] returned it: nothing else in an epoch touches it. *)
Lemma epoch_phases_dataset (StateDict Ext : Type) set_mode shuffle_data
    run_batches round5 (state_dict : Ext -> StateDict) now save_checkpoint
    dataset_name checkpoints_dir fixed epoch st dataset st' dataset' :
  epoch_phases StateDict Ext set_mode shuffle_data run_batches round5
    state_dict now save_checkpoint dataset_name checkpoints_dir fixed
    epoch st dataset = Ok (st', dataset') ->
  exists e1 e2, shuffle_data dataset e1 = Ok (dataset', e2).
Proof.
  unfold epoch_phases. intros H.
  apply bind_ok in H. destruct H as ([st1 d1] & Htrain & H).
  apply bind_ok in H. destruct H as ([st2 d2] & Htest & H).
  apply bind_ok in H. destruct H as (ext' & _ & H).
  injection H as _ <-.
  unfold phase in Htrain, Htest.
  apply bind_ok in Htrain. destruct Htrain as (e1 & _ & Htrain).
  apply bind_ok in Htrain. destruct Htrain as ([d e2] & Hshuffle & Htrain).
  apply bind_ok in Htrain. destruct Htrain as ([losses e3] & _ & Htrain).
  apply bind_ok in Htest. destruct Htest as (e4 & _ & Htest).
  cbn [bind] in Htest.
  apply bind_ok in Htest. destruct Htest as ([losses' e5] & _ & Htest).
  destruct (match losses with [] => batch_id st | _ :: _ => _ end);
    [| discriminate].
  destruct (match losses' with [] => batch_id st1 | _ :: _ => _ end);
    [| discriminate].
  injection Htrain as _ <-. injection Htest as _ <-.
  exists e1, e2. exact Hshuffle.
Qed.

(** Neither [MolDatasetTriplet] nor [MolDataset] defines [shuffle_data]:
    on a dataset of the repository's own class the call in the train phase
    raises [AttributeError], so that the loop ends in epoch 0, whatever the
    model and the loaders are, and refreshes nothing. *)
Lemma train_triplet_without_shuffle_data (StateDict Ext : Type) set_mode
    run_batches round5 (state_dict : Ext -> StateDict) now save_checkpoint
    dataset_name checkpoints_dir fixed np fresh (e0 e1 : Ext) dataset n_epochs :
  indices_1 dataset <> [] -> (0 < n_epochs)%nat ->
  set_mode true e0 = Ok e1 ->
  train_triplet np (loop_state StateDict Ext)
    (epoch_phases StateDict Ext set_mode (fun _ _ => Raise AttributeError)
       run_batches round5 state_dict now save_checkpoint dataset_name
       checkpoints_dir fixed)
    fresh (first_state StateDict Ext e0) dataset n_epochs fixed
  = (Raise AttributeError, [Phases 0 (seed_fixed_triplets dataset)]).
Proof.
  intros H1 Hn Hmode. unfold train_triplet, py_truediv.
  destruct (indices_1 dataset) as [| i rest]; [congruence |].
  cbn [List.length]. destruct n_epochs as [| n]; [lia |].
  cbn [epochs Nat.ltb Nat.leb andb].
  unfold epoch_phases at 1. unfold phase at 1.
  cbn [first_state ext]. rewrite Hmode. reflexivity.
Qed.

(** The lemma on the seeds applies to the loaders that ask the dataset for
    its items: three epochs on a dataset that serves its items and was
    constructed with the seed 0. *)
Lemma train_triplet_refresh_seed_served :
  match MolDatasetTriplet_init lcg_numpy 0 (store_of 2 1) false false
          (PyBool false) (Some 0),
        MolDatasetTriplet_init lcg_numpy 0 (store_of 2 1) false false
          (PyBool false) None with
  | Ok dataset, Ok test_dataset =>
      forall e s,
        In (Refreshed e s)
           (snd (train_triplet lcg_numpy (loop_state unit (py_state lcg_python))
                   (served_phases lcg_python test_dataset) 0
                   (first_state unit (py_state lcg_python) 0) dataset 3 true)) ->
        (0 < e < 3)%nat /\ s = 0 + sum_to e
        /\ (s = 0 + Z.of_nat e <-> e = 1%nat)
  | _, _ => False
  end.
Proof.
  rewrite !init_plain by reflexivity.
  apply (train_triplet_refresh_seed lcg_numpy (loop_state unit (py_state lcg_python))
           (served_phases lcg_python
              (kept_store (store_of 2 1) false false (PyBool false) None))
           0 (first_state unit (py_state lcg_python) 0)
           (kept_store (store_of 2 1) false false (PyBool false) (Some 0))
           3%nat 0 eq_refl).
  intros e w d w' d' H. unfold served_phases in H.
  apply epoch_phases_dataset in H. destruct H as (e1 & e2 & H).
  injection H as <- _. reflexivity.
Defined.


(** * Further properties of the code *)

(** ** Labels as the code tests them *)

Lemma f32_eq_1_inv (v : float32) :
  f32_eq v 1 = true -> v = S754_finite false 8388608 (-23).
Proof.
  unfold f32_eq. rewrite f32_of_Z_1.
  destruct v as [s | s | | s m e]; try destruct s;
    cbv [SFeqb SFcompare]; try discriminate.
  destruct (Z.compare_spec e (-23)) as [-> | _ | _]; try discriminate.
  change (Pos.compare_cont Eq m 8388608) with (Pos.compare m 8388608).
  destruct (Pos.compare_spec m 8388608) as [-> | _ | _]; try discriminate.
  reflexivity.
Qed.

Lemma f32_eq_0_inv (v : float32) :
  f32_eq v 0 = true -> exists s, v = S754_zero s.
Proof.
  unfold f32_eq. rewrite f32_of_Z_0.
  destruct v as [s | s | | s m e]; try destruct s;
    cbv [SFeqb SFcompare]; try discriminate; eauto.
Qed.

(** On a binary label the test [anchor_label == 1] on the Python float
    agrees with the test [y == 1] on the tensor entry. *)
Lemma anchor_test_binary (v : float32) :
  f32_eq v 0 = true \/ f32_eq v 1 = true ->
  f64_eq (f32_to_f64 v) 1 = f32_eq v 1.
Proof.
  intros [H0 | H1].
  - destruct (f32_eq_0_inv v H0) as (s & ->). destruct s; vm_compute; reflexivity.
  - rewrite (f32_eq_1_inv v H1). vm_compute. reflexivity.
Qed.

(** The absolute difference of two binary labels, in binary32: [0.0] when
    they are in the same class and [1.0] when they are not. *)
Lemma abs_difference_binary (a b : float32) :
  f32_eq a 0 = true \/ f32_eq a 1 = true ->
  f32_eq b 0 = true \/ f32_eq b 1 = true ->
  SFabs (SFsub 24 128 a b)
  = if Bool.eqb (f32_eq a 1) (f32_eq b 1) then f32_of_Z 0 else f32_of_Z 1.
Proof.
  intros [Ha | Ha] [Hb | Hb].
  - destruct (f32_eq_0_inv a Ha) as ([] & ->), (f32_eq_0_inv b Hb) as ([] & ->);
      vm_compute; reflexivity.
  - destruct (f32_eq_0_inv a Ha) as ([] & ->); rewrite (f32_eq_1_inv b Hb);
      vm_compute; reflexivity.
  - destruct (f32_eq_0_inv b Hb) as ([] & ->); rewrite (f32_eq_1_inv a Ha);
      vm_compute; reflexivity.
  - rewrite (f32_eq_1_inv a Ha), (f32_eq_1_inv b Hb). vm_compute. reflexivity.
Qed.

(** ** The pair dataset *)

Lemma and_then_ok py {A B : Type} (c : drawing py A) (k : A -> drawing py B)
    (g g' : py_state py) (b : B) :
  and_then py c k g = (Ok b, g') ->
  exists a g1, c g = (Ok a, g1) /\ k a g1 = (Ok b, g').
Proof.
  unfold and_then. destruct (c g) as [[a | e] g1]; intros H.
  - eauto.
  - discriminate.
Qed.

Lemma and_then_pure py {A B : Type} (a : A) (k : A -> drawing py B)
    (g : py_state py) :
  and_then py (pure py (Ok a)) k g = k a g.
Proof. reflexivity. Qed.

Lemma pure_ok py {A : Type} (r : result A) (g g' : py_state py) (a : A) :
  pure py r g = (Ok a, g') -> r = Ok a /\ g' = g.
Proof.
  unfold pure. intros H. injection H as -> ->. auto.
Qed.

Lemma list_item_ok {A : Type} (l : list A) (k : nat) (a : A) :
  list_item l k = Ok a <-> nth_error l k = Some a.
Proof.
  unfold list_item. destruct (nth_error l k); split; congruence.
Qed.

Lemma list_item_lt {A : Type} (l : list A) (k : nat) :
  (k < List.length l)%nat -> exists a, list_item l k = Ok a.
Proof.
  intros Hk. unfold list_item.
  destruct (nth_error l k) eqn:H; [eauto |].
  apply nth_error_None in H. lia.
Qed.

Lemma list_item_ge {A : Type} (l : list A) (k : nat) :
  (List.length l <= k)%nat -> list_item l k = Raise IndexError.
Proof.
  intros Hk. unfold list_item.
  apply nth_error_None in Hk. now rewrite Hk.
Qed.

(** [random.randint(0, n - 1)] over a length [n]. *)
Lemma random_randint_length py (n : nat) (g : py_state py) :
  random_randint py 0 (Z.of_nat n - 1) g
  = match n with
    | O => (Raise ValueError, g)
    | S _ => (Ok (Z.of_nat (fst (py_randbelow py n g))), snd (py_randbelow py n g))
    end.
Proof.
  unfold random_randint.
  replace (Z.of_nat n - 1 + 1 - 0) with (Z.of_nat n) by lia.
  destruct n as [| n'].
  - reflexivity.
  - replace (0 <? Z.of_nat (S n')) with true by (symmetry; apply Z.ltb_lt; lia).
    rewrite Nat2Z.id. destruct (py_randbelow py (S n') g). reflexivity.
Qed.

(** X1.  [MolDataset.__getitem__] on a dataset built from a store of [N]
    molecules.  With no molecule it raises [ValueError] (the empty range of
    [randint]) whatever the index.  With [N > 0] aligned records and
    [id0 < N] it returns the fingerprints of [id0] and of the drawn
    molecule [id1 < N] with the absolute difference of their labels, and
    the generator has made one draw.  The draw comes before the index is
    used: an index out of range raises [IndexError] after that draw. *)
Theorem pair_getitem_outcome py (dc_dataset : dc_Datset) (id0 : nat)
    (g : py_state py) :
  let self := MolDataset_init dc_dataset in
  let N := List.length (dc_ids dc_dataset) in
  (N = 0%nat -> MolDataset__getitem__ py self id0 g = (Raise ValueError, g))
  /\ (List.length (dc_X dc_dataset) = N -> List.length (dc_y dc_dataset) = N ->
      (id0 < N)%nat ->
      (fst (py_randbelow py N g) < N)%nat
      /\ exists mf0 mf1 y0 y1,
           nth_error (md_X self) id0 = Some mf0
           /\ nth_error (md_X self) (fst (py_randbelow py N g)) = Some mf1
           /\ nth_error (md_y self) id0 = Some y0
           /\ nth_error (md_y self) (fst (py_randbelow py N g)) = Some y1
           /\ MolDataset__getitem__ py self id0 g
              = (Ok (Tensor1 mf0, Tensor1 mf1,
                     Tensor1 [SFabs (SFsub 24 128 y0 y1)]),
                 snd (py_randbelow py N g)))
  /\ ((0 < N)%nat -> (List.length (dc_X dc_dataset) <= id0)%nat ->
      MolDataset__getitem__ py self id0 g
      = (Raise IndexError, snd (py_randbelow py N g))).
Proof.
  cbn zeta. unfold MolDataset__getitem__, MolDataset_len.
  cbn [MolDataset_init md_n_molecules md_X md_y].
  split; [| split].
  - intros HN. unfold and_then at 1. rewrite random_randint_length, HN. reflexivity.
  - intros HX Hy Hid.
    pose proof (py_randbelow_lt py (List.length (dc_ids dc_dataset)) g) as Hlt.
    assert (Hpos : (0 < List.length (dc_ids dc_dataset))%nat) by lia.
    specialize (Hlt Hpos). split; [exact Hlt |].
    set (id1 := fst (py_randbelow py (List.length (dc_ids dc_dataset)) g)) in *.
    destruct (list_item_lt (map (map f64_to_f32) (dc_X dc_dataset)) id0)
      as (mf0 & Hmf0); [rewrite length_map; lia |].
    destruct (list_item_lt (map (map f64_to_f32) (dc_X dc_dataset)) id1)
      as (mf1 & Hmf1); [rewrite length_map; lia |].
    destruct (list_item_lt (map f64_to_f32 (dc_y dc_dataset)) id0)
      as (y0 & Hy0); [rewrite length_map; lia |].
    destruct (list_item_lt (map f64_to_f32 (dc_y dc_dataset)) id1)
      as (y1 & Hy1); [rewrite length_map; lia |].
    exists mf0, mf1, y0, y1.
    repeat (split; [apply list_item_ok; assumption |]).
    unfold and_then at 1. rewrite random_randint_length.
    destruct (List.length (dc_ids dc_dataset)) as [| n] eqn:HN; [lia |].
    fold id1. unfold and_then, pure, fingerprint.
    rewrite Nat2Z.id, Hmf0, Hmf1, Hy0, Hy1. reflexivity.
  - intros Hpos Hid.
    unfold and_then at 1. rewrite random_randint_length.
    destruct (List.length (dc_ids dc_dataset)) as [| n] eqn:HN; [lia |].
    unfold and_then, pure, fingerprint.
    rewrite list_item_ge by (rewrite length_map; exact Hid). reflexivity.
Qed.

Lemma store_of_binary (zeros ones : nat) :
  Forall (fun v => f32_eq v 0 = true \/ f32_eq v 1 = true)
    (map f64_to_f32 (dc_y (store_of zeros ones))).
Proof.
  unfold store_of. cbn [dc_y]. rewrite map_app, !map_repeat.
  apply Forall_app. split; apply Forall_forall; intros v Hv;
    apply repeat_spec in Hv; subst v;
    [left | right]; vm_compute; reflexivity.
Qed.

Lemma pair_getitem_outcome_witness :
  is_ok (fst (MolDataset__getitem__ lcg_python (MolDataset_init (store_of 1 1))
                0 5)) = true.
Proof.
  destruct (proj1 (proj2 (pair_getitem_outcome lcg_python (store_of 1 1) 0 5))
              eq_refl eq_refl) as (_ & mf0 & mf1 & y0 & y1 & _ & _ & _ & _ & H).
  - vm_compute. lia.
  - rewrite H. reflexivity.
Defined.

(** X2.  Over binary labels the target [MolDataset.__getitem__] returns is
    [0.0] when the molecule and the drawn one are in the same class and
    [1.0] when they are not. *)
Theorem pair_target_binary py (self : MolDataset) (id0 : nat)
    (g g' : py_state py) (mf0 mf1 target : pyobj) :
  Forall (fun v => f32_eq v 0 = true \/ f32_eq v 1 = true) (md_y self) ->
  MolDataset__getitem__ py self id0 g = (Ok (mf0, mf1, target), g') ->
  exists y0 y1,
    nth_error (md_y self) id0 = Some y0
    /\ nth_error (md_y self) (fst (py_randbelow py (md_n_molecules self) g))
       = Some y1
    /\ target = Tensor1 [if Bool.eqb (f32_eq y0 1) (f32_eq y1 1)
                         then f32_of_Z 0 else f32_of_Z 1].
Proof.
  intros Hbin H. unfold MolDataset__getitem__, MolDataset_len in H.
  apply and_then_ok in H. destruct H as (id1 & g1 & Hdraw & H).
  rewrite random_randint_length in Hdraw.
  destruct (md_n_molecules self) as [| n] eqn:HN; [discriminate |].
  injection Hdraw as <- <-. rewrite Nat2Z.id in H.
  apply and_then_ok in H. destruct H as (m0 & g2 & _ & H).
  apply and_then_ok in H. destruct H as (m1 & g3 & _ & H).
  apply and_then_ok in H. destruct H as (y0 & g4 & Hy0 & H).
  apply and_then_ok in H. destruct H as (y1 & g5 & Hy1 & H).
  apply pure_ok in Hy0, Hy1, H.
  destruct Hy0 as (Hy0 & _), Hy1 as (Hy1 & _), H as (H & _).
  apply list_item_ok in Hy0, Hy1.
  exists y0, y1. repeat split; try assumption.
  injection H as _ _ <-.
  rewrite Forall_forall in Hbin.
  rewrite abs_difference_binary by (apply Hbin; eapply nth_error_In; eassumption).
  reflexivity.
Qed.

Lemma pair_target_binary_witness :
  match MolDataset__getitem__ lcg_python (MolDataset_init (store_of 1 1)) 0 5 with
  | (Ok (_, _, target), _) => target = Tensor1 [f32_of_Z 1]
  | (Raise _, _) => False
  end.
Proof.
  destruct (MolDataset__getitem__ lcg_python (MolDataset_init (store_of 1 1)) 0 5)
    as [[[[mf0 mf1] target] | e] g'] eqn:H;
    [| vm_compute in H; discriminate H].
  destruct (pair_target_binary lcg_python (MolDataset_init (store_of 1 1)) 0 5
              g' mf0 mf1 target (store_of_binary 1 1) H)
    as (y0 & y1 & Hy0 & Hy1 & ->).
  vm_compute in Hy0, Hy1. injection Hy0 as <-. injection Hy1 as <-.
  vm_compute. reflexivity.
Defined.

(** ** Triplets drawn on the fly *)

Section OnTheFly.

Variable py : PyRandom.

Lemma random_choice_nil (g : py_state py) :
  random_choice py [] g = (Raise IndexError, g).
Proof. reflexivity. Qed.

Lemma random_choice_ok (seq : list nat) (g : py_state py) :
  seq <> [] ->
  exists v, random_choice py seq g
            = (Ok v, snd (py_randbelow py (List.length seq) g))
            /\ In v seq.
Proof.
  intros Hseq. unfold random_choice. destruct seq as [| x rest]; [congruence |].
  pose proof (py_randbelow_lt py (List.length (x :: rest)) g) as Hlt.
  destruct (py_randbelow py (List.length (x :: rest)) g) as [k g1].
  cbn [fst snd] in *.
  destruct (list_item_lt (x :: rest) k) as (v & Hv); [apply Hlt; cbn; lia |].
  exists v. rewrite Hv. split; [reflexivity |].
  apply list_item_ok in Hv. eapply nth_error_In. exact Hv.
Qed.

Lemma random_choice_inv (seq : list nat) (g g' : py_state py) (v : nat) :
  random_choice py seq g = (Ok v, g') -> In v seq.
Proof.
  unfold random_choice. destruct seq as [| x rest]; [discriminate |].
  destruct (py_randbelow py (List.length (x :: rest)) g) as [k g1].
  intros H. injection H as H _.
  apply list_item_ok in H. eapply nth_error_In. exact H.
Qed.

Lemma getitem_on_the_fly (self : MolDatasetTriplet) (id0 : nat) :
  truthy (use_fixed_triplets self) = false -> train self = false ->
  __getitem__ py self id0
  = and_then py (pure py (list_item (X self) id0)) (fun anchor_mf =>
    and_then py (pure py (list_item (y self) id0)) (fun label =>
    and_then py (two_draws py self (f32_to_f64 label)) (fun drawn =>
    and_then py (pure py (list_item (X self) (fst drawn))) (fun positive_mf =>
    and_then py (pure py (list_item (X self) (snd drawn))) (fun negative_mf =>
    pure py (Ok (Tensor1 anchor_mf, Tensor1 positive_mf, Tensor1 negative_mf,
                 PyFloat (f32_to_f64 label)))))))).
Proof.
  intros Hf Ht. unfold __getitem__. rewrite Hf, Ht. reflexivity.
Qed.

Lemma two_draws_inv (self : MolDatasetTriplet) (anchor_label : float64)
    (g g' : py_state py) (p n : nat) :
  two_draws py self anchor_label g = (Ok (p, n), g') ->
  In p (if f64_eq anchor_label 1 then indices_1 self else indices_0 self)
  /\ In n (if f64_eq anchor_label 1 then indices_0 self else indices_1 self).
Proof.
  unfold two_draws. destruct (f64_eq anchor_label 1); intros H;
    apply and_then_ok in H; destruct H as (p' & g1 & Hp & H);
    apply and_then_ok in H; destruct H as (n' & g2 & Hn & H);
    apply pure_ok in H; destruct H as (H & _); injection H as <- <-;
    split; eapply random_choice_inv; eassumption.
Qed.

Lemma two_draws_ok (self : MolDatasetTriplet) (anchor_label : float64)
    (g : py_state py) :
  indices_0 self <> [] -> indices_1 self <> [] ->
  exists p n g', two_draws py self anchor_label g = (Ok (p, n), g')
                 /\ (In p (indices_0 self) \/ In p (indices_1 self))
                 /\ (In n (indices_0 self) \/ In n (indices_1 self)).
Proof.
  intros H0 H1. unfold two_draws. destruct (f64_eq anchor_label 1).
  - destruct (random_choice_ok (indices_1 self) g H1) as (p & Hp & Hinp).
    destruct (random_choice_ok (indices_0 self)
                (snd (py_randbelow py (List.length (indices_1 self)) g)) H0)
      as (n & Hn & Hinn).
    exists p, n. eexists. unfold and_then, pure. rewrite Hp, Hn. auto.
  - destruct (random_choice_ok (indices_0 self) g H0) as (p & Hp & Hinp).
    destruct (random_choice_ok (indices_1 self)
                (snd (py_randbelow py (List.length (indices_0 self)) g)) H1)
      as (n & Hn & Hinn).
    exists p, n. eexists. unfold and_then, pure. rewrite Hp, Hn. auto.
Qed.

Lemma two_draws_empty (self : MolDatasetTriplet) (anchor_label : float64)
    (g : py_state py) :
  indices_0 self = [] \/ indices_1 self = [] ->
  fst (two_draws py self anchor_label g) = Raise IndexError.
Proof.
  intros Hempty. unfold two_draws, and_then.
  destruct (f64_eq anchor_label 1).
  - destruct (indices_1 self) as [| i1 r1] eqn:E1; [reflexivity |].
    destruct (random_choice_ok (i1 :: r1) g) as (p & -> & _); [discriminate |].
    destruct Hempty as [-> | H]; [reflexivity | discriminate].
  - destruct (indices_0 self) as [| i0 r0] eqn:E0; [reflexivity |].
    destruct (random_choice_ok (i0 :: r0) g) as (p & -> & _); [discriminate |].
    destruct Hempty as [H | ->]; [discriminate | reflexivity].
Qed.

End OnTheFly.

(** X3.  What [__getitem__] returns on a dataset without fixed triplets
    and with [train] false, over binary labels: the anchor is the features
    of [id0], the positive is the features of a record of the anchor's
    class, the negative the features of a record of the other class, and
    the label is the anchor's own. *)
Theorem getitem_eval_triplet py (self : MolDatasetTriplet) (id0 : nat)
    (g g' : py_state py) (anchor_mf positive_mf negative_mf anchor_label : pyobj) :
  truthy (use_fixed_triplets self) = false -> train self = false ->
  partitions_current self ->
  Forall (fun v => f32_eq v 0 = true \/ f32_eq v 1 = true) (y self) ->
  __getitem__ py self id0 g
  = (Ok (anchor_mf, positive_mf, negative_mf, anchor_label), g') ->
  exists v p n vp vn xa xp xn,
    nth_error (y self) id0 = Some v
    /\ nth_error (y self) p = Some vp /\ nth_error (y self) n = Some vn
    /\ f32_eq vp 1 = f32_eq v 1 /\ f32_eq vn 1 = negb (f32_eq v 1)
    /\ nth_error (X self) id0 = Some xa
    /\ nth_error (X self) p = Some xp /\ nth_error (X self) n = Some xn
    /\ anchor_mf = Tensor1 xa /\ positive_mf = Tensor1 xp
    /\ negative_mf = Tensor1 xn /\ anchor_label = PyFloat (f32_to_f64 v).
Proof.
  intros Hf Ht (Hp0 & Hp1) Hbin H.
  rewrite getitem_on_the_fly in H by assumption.
  apply and_then_ok in H. destruct H as (xa & g1 & Hxa & H).
  apply and_then_ok in H. destruct H as (v & g2 & Hv & H).
  apply and_then_ok in H. destruct H as ([p n] & g3 & Hdraw & H).
  apply and_then_ok in H. destruct H as (xp & g4 & Hxp & H).
  apply and_then_ok in H. destruct H as (xn & g5 & Hxn & H).
  apply pure_ok in Hxa, Hv, Hxp, Hxn, H.
  destruct Hxa as (Hxa & _), Hv as (Hv & _), Hxp as (Hxp & _),
           Hxn as (Hxn & _), H as (H & _).
  apply list_item_ok in Hxa, Hv, Hxp, Hxn. cbn [fst snd] in Hxp, Hxn.
  injection H as <- <- <- <-.
  apply two_draws_inv in Hdraw. destruct Hdraw as (Hinp & Hinn).
  rewrite Forall_forall in Hbin.
  rewrite anchor_test_binary in Hinp, Hinn
    by (apply Hbin; eapply nth_error_In; exact Hv).
  rewrite Hp0, Hp1 in Hinp, Hinn.
  assert (Hclass : forall i c, In i (rows_equal (y self) c) ->
            (c = 0 \/ c = 1) ->
            exists w, nth_error (y self) i = Some w
                      /\ f32_eq w 1 = (c =? 1)).
  { intros i c Hi Hc. apply In_rows_equal in Hi. destruct Hi as (w & Hw & Hwc).
    exists w. split; [exact Hw |].
    destruct Hc as [-> | ->]; [| exact Hwc].
    destruct (f32_eq w 1) eqn:Hw1; [| reflexivity].
    exfalso. exact (f32_eq_zero_one w Hwc Hw1). }
  destruct (f32_eq v 1) eqn:Hv1.
  - destruct (Hclass p 1 Hinp (or_intror eq_refl)) as (vp & Hvp & Hcp).
    destruct (Hclass n 0 Hinn (or_introl eq_refl)) as (vn & Hvn & Hcn).
    change (1 =? 1) with true in Hcp. change (0 =? 1) with false in Hcn.
    exists v, p, n, vp, vn, xa, xp, xn. rewrite Hv1. repeat split; assumption.
  - destruct (Hclass p 0 Hinp (or_introl eq_refl)) as (vp & Hvp & Hcp).
    destruct (Hclass n 1 Hinn (or_intror eq_refl)) as (vn & Hvn & Hcn).
    change (0 =? 1) with false in Hcp. change (1 =? 1) with true in Hcn.
    exists v, p, n, vp, vn, xa, xp, xn. rewrite Hv1. repeat split; assumption.
Qed.

Lemma getitem_eval_triplet_witness :
  match __getitem__ lcg_python
          (kept_store (store_of 2 1) false false (PyBool false) None) 2 5 with
  | (Ok (anchor_mf, positive_mf, negative_mf, anchor_label), _) =>
      anchor_label = PyFloat (f64_of_Z 1)
  | (Raise _, _) => False
  end.
Proof.
  destruct (__getitem__ lcg_python
              (kept_store (store_of 2 1) false false (PyBool false) None) 2 5)
    as [[[[[a p] n] l] | e] g'] eqn:H;
    [| vm_compute in H; discriminate H].
  destruct (getitem_eval_triplet lcg_python
              (kept_store (store_of 2 1) false false (PyBool false) None)
              2 5 g' a p n l eq_refl eq_refl (conj eq_refl eq_refl)
              (store_of_binary 2 1) H)
    as (v & pi & ni & vp & vn & xa & xp & xn & Hv & _ & _ & _ & _ & _ & _ & _
        & _ & _ & _ & ->).
  vm_compute in Hv. injection Hv as <-. vm_compute. reflexivity.
Defined.

(** X4.  When [__getitem__] on such a dataset returns, for an index of a
    record: it returns a triplet if both partitions are non-empty (and hold
    rows of [X]), and raises [IndexError] if one of them is empty, as
    [random.choice] is then given an empty list. *)
Theorem getitem_eval_outcome py (self : MolDatasetTriplet) (id0 : nat)
    (g : py_state py) :
  truthy (use_fixed_triplets self) = false -> train self = false ->
  (id0 < List.length (X self))%nat -> (id0 < List.length (y self))%nat ->
  (indices_0 self <> [] -> indices_1 self <> [] ->
   (forall i, In i (indices_0 self) \/ In i (indices_1 self) ->
              (i < List.length (X self))%nat) ->
   is_ok (fst (__getitem__ py self id0 g)) = true)
  /\ (indices_0 self = [] \/ indices_1 self = [] ->
      fst (__getitem__ py self id0 g) = Raise IndexError).
Proof.
  intros Hf Ht HX Hy.
  rewrite getitem_on_the_fly by assumption.
  destruct (list_item_lt (X self) id0 HX) as (xa & Hxa).
  destruct (list_item_lt (y self) id0 Hy) as (v & Hv).
  rewrite Hxa, Hv, !and_then_pure. cbv beta.
  split.
  - intros H0 H1 Hrows.
    destruct (two_draws_ok py self (f32_to_f64 v) g H0 H1)
      as (p & n & g1 & Hdraw & Hp & Hn).
    destruct (list_item_lt (X self) p (Hrows p Hp)) as (xp & Hxp).
    destruct (list_item_lt (X self) n (Hrows n Hn)) as (xn & Hxn).
    unfold and_then at 1. rewrite Hdraw. cbn [fst snd].
    rewrite Hxp, Hxn, !and_then_pure. reflexivity.
  - intros Hempty.
    pose proof (two_draws_empty py self (f32_to_f64 v) g Hempty) as Hdraw.
    unfold and_then at 1.
    destruct (two_draws py self (f32_to_f64 v) g) as [[d | e] g1];
      cbn [fst] in Hdraw; [discriminate |].
    cbn [fst]. injection Hdraw as ->. reflexivity.
Qed.

Lemma getitem_eval_outcome_witness :
  is_ok (fst (__getitem__ lcg_python
                (kept_store (store_of 2 1) false false (PyBool false) None) 0 5))
  = true
  /\ fst (__getitem__ lcg_python
            (kept_store (store_of 2 0) false false (PyBool false) None) 0 5)
     = Raise IndexError.
Proof.
  split.
  - apply (proj1 (getitem_eval_outcome lcg_python
                    (kept_store (store_of 2 1) false false (PyBool false) None)
                    0 5 eq_refl eq_refl
                    ltac:(vm_compute; lia) ltac:(vm_compute; lia))).
    + vm_compute. discriminate.
    + vm_compute. discriminate.
    + vm_compute. intros i [[<- | [<- | []]] | [<- | []]]; lia.
  - apply (proj2 (getitem_eval_outcome lcg_python
                    (kept_store (store_of 2 0) false false (PyBool false) None)
                    0 5 eq_refl eq_refl
                    ltac:(vm_compute; lia) ltac:(vm_compute; lia))).
    right. vm_compute. reflexivity.
Defined.

(** ** When fixed triplets can be generated, and what they are *)

Section FixedOutcome.

Variable np : NumpyRandom.

Lemma choice_nil (g : np_state np) : choice np [] g = Raise ValueError.
Proof. reflexivity. Qed.

Lemma choice_inv (a : list nat) (g g' : np_state np) (v : nat) :
  choice np a g = Ok (v, g') -> In v a.
Proof.
  unfold choice. destruct a as [| x rest]; [discriminate |].
  destruct (np_randint np (List.length (x :: rest)) g) as [k g1].
  intros H. apply bind_ok in H. destruct H as (w & Hw & H).
  injection H as <- _. apply list_item_ok in Hw.
  eapply nth_error_In. exact Hw.
Qed.

(** With a record to process and an empty partition the loop stops at the
    first record: numpy is asked to choose from an empty list. *)
Lemma fixed_loop_empty_partition (i0 i1 : list nat) (v : float32)
    (t : list float32) g acc_p acc_n before :
  i0 = [] \/ i1 = [] ->
  fixed_loop np (tolist (v :: t)) i0 i1 g acc_p acc_n before = Raise ValueError.
Proof.
  intros Hempty.
  change (tolist (v :: t)) with ([f32_to_f64 v] :: tolist t).
  cbn [fixed_loop]. unfold list_item at 1. cbn [nth_error bind].
  destruct (f64_eq (f32_to_f64 v) 1).
  - destruct i1 as [| x1 r1]; [reflexivity |].
    destruct (choice_ok np (x1 :: r1) g) as (p & g1 & -> & _); [discriminate |].
    cbn [bind]. destruct Hempty as [-> | H]; [reflexivity | discriminate].
  - destruct i0 as [| x0 r0]; [reflexivity |].
    destruct (choice_ok np (x0 :: r0) g) as (p & g1 & -> & _); [discriminate |].
    cbn [bind]. destruct Hempty as [H | ->]; [discriminate | reflexivity].
Qed.

Lemma fixed_loop_inv (i0 i1 : list nat) :
  forall (t : list float32) g acc_p acc_n before pos neg last,
    fixed_loop np (tolist t) i0 i1 g acc_p acc_n before = Ok (pos, neg, last) ->
    exists pos' neg',
      pos = acc_p ++ pos' /\ neg = acc_n ++ neg'
      /\ last = leaked_label t before
      /\ Forall2 (fun v p => In p (if f64_eq (f32_to_f64 v) 1 then i1 else i0)) t pos'
      /\ Forall2 (fun v n => In n (if f64_eq (f32_to_f64 v) 1 then i0 else i1)) t neg'.
Proof.
  induction t as [| v t IH]; intros g acc_p acc_n before pos neg last H.
  - cbn in H. injection H as <- <- <-. exists [], [].
    rewrite !app_nil_r. repeat split; constructor.
  - change (tolist (v :: t)) with ([f32_to_f64 v] :: tolist t) in H.
    cbn [fixed_loop] in H. unfold list_item at 1 in H. cbn [nth_error bind] in H.
    destruct (f64_eq (f32_to_f64 v) 1) eqn:Hv;
      apply bind_ok in H; destruct H as ([p g1] & Hp & H);
      apply bind_ok in H; destruct H as ([n g2] & Hn & H);
      apply IH in H; destruct H as (pos' & neg' & -> & -> & -> & Hpos & Hneg);
      apply choice_inv in Hp, Hn;
      exists (p :: pos'), (n :: neg'); rewrite <- !app_assoc; cbn [app];
      (split; [reflexivity |]); (split; [reflexivity |]);
      (split; [reflexivity |]);
      split; constructor; try assumption; rewrite Hv; assumption.
Qed.

Lemma index_rows_inv {A : Type} (t : list A) (idx : list nat) (rows : list A) :
  index_rows t idx = Ok rows ->
  Forall2 (fun i r => nth_error t i = Some r) idx rows.
Proof.
  revert rows. induction idx as [| i idx IH]; cbn [index_rows]; intros rows H.
  - injection H as <-. constructor.
  - bind_inv H. injection H as <-. constructor.
    + now apply list_item_ok.
    + now apply IH.
Qed.

Lemma Forall2_nth_error {A B : Type} (P : A -> B -> Prop) (l : list A)
    (l' : list B) :
  Forall2 P l l' ->
  forall i a, nth_error l i = Some a ->
              exists b, nth_error l' i = Some b /\ P a b.
Proof.
  induction 1 as [| x x' l l' Hx _ IH]; intros i a Hi.
  - destruct i; discriminate.
  - destruct i as [| i]; cbn in Hi |- *.
    + injection Hi as <-. eauto.
    + apply IH. exact Hi.
Qed.

End FixedOutcome.

(** X5.  The outcome of [__get_fixed_dataset], which the fixed branch of
    the constructor and [refresh_fixed_triplets] both run.  A seed outside
    [0, 2^32 - 1] raises [ValueError]; with a seed numpy accepts, a store
    without records raises [UnboundLocalError] ([anchor_label] is never
    bound), a store with records and an empty partition raises
    [ValueError], and a store with records and two non-empty partitions of
    rows of [X] yields a cache. *)
Theorem get_fixed_dataset_outcome np fresh (self : MolDatasetTriplet) :
  (~ seed_accepted (seed_fixed_triplets self) ->
   __get_fixed_dataset np fresh self = Raise ValueError)
  /\ (seed_accepted (seed_fixed_triplets self) -> y self = [] ->
      __get_fixed_dataset np fresh self = Raise UnboundLocalError)
  /\ (seed_accepted (seed_fixed_triplets self) -> y self <> [] ->
      indices_0 self = [] \/ indices_1 self = [] ->
      __get_fixed_dataset np fresh self = Raise ValueError)
  /\ (seed_accepted (seed_fixed_triplets self) -> y self <> [] ->
      indices_0 self <> [] -> indices_1 self <> [] ->
      (forall i, In i (indices_0 self) \/ In i (indices_1 self) ->
                 (i < List.length (X self))%nat) ->
      is_ok (__get_fixed_dataset np fresh self) = true).
Proof.
  split; [| split; [| split]].
  - intros Hseed. unfold __get_fixed_dataset, fixed_indices, RandomState.
    destruct (seed_fixed_triplets self) as [s |]; [| now destruct Hseed].
    destruct ((0 <=? s) && (s <? 2 ^ 32)) eqn:Hs; [| reflexivity].
    exfalso. apply Hseed. cbn [seed_accepted].
    apply andb_prop in Hs. destruct Hs as (Hlo & Hhi).
    apply Z.leb_le in Hlo. apply Z.ltb_lt in Hhi. lia.
  - intros Hseed Hy. destruct (RandomState_ok np fresh _ Hseed) as (g & Hg).
    unfold __get_fixed_dataset, fixed_indices. rewrite Hg, Hy. reflexivity.
  - intros Hseed Hy Hempty. destruct (RandomState_ok np fresh _ Hseed) as (g & Hg).
    unfold __get_fixed_dataset, fixed_indices. rewrite Hg. cbn [bind].
    destruct (y self) as [| v t]; [congruence |].
    rewrite fixed_loop_empty_partition by exact Hempty. reflexivity.
  - intros Hseed Hy H0 H1 Hrows.
    destruct (get_fixed_dataset_ok np fresh self Hseed H0 H1 Hy Hrows)
      as (pos & neg & pmf & nmf & l & _ & _ & _ & _ & _ & _ & ->).
    reflexivity.
Qed.

Lemma get_fixed_dataset_outcome_witness :
  __get_fixed_dataset lcg_numpy 0
    (kept_store (store_of 1 1) false false (PyBool true) (Some (-1)))
  = Raise ValueError
  /\ __get_fixed_dataset lcg_numpy 0
       (kept_store (store_of 0 0) false false (PyBool true) (Some 7))
     = Raise UnboundLocalError
  /\ __get_fixed_dataset lcg_numpy 0
       (kept_store (store_of 0 2) false false (PyBool true) (Some 7))
     = Raise ValueError
  /\ is_ok (__get_fixed_dataset lcg_numpy 0
              (kept_store (store_of 2 1) false false (PyBool true) (Some 7)))
     = true.
Proof.
  split; [| split; [| split]].
  - apply (proj1 (get_fixed_dataset_outcome lcg_numpy 0 _)).
    cbn [kept_store seed_fixed_triplets seed_accepted]. lia.
  - apply (proj1 (proj2 (get_fixed_dataset_outcome lcg_numpy 0 _))).
    + cbn [kept_store seed_fixed_triplets seed_accepted]. lia.
    + reflexivity.
  - apply (proj1 (proj2 (proj2 (get_fixed_dataset_outcome lcg_numpy 0 _)))).
    + cbn [kept_store seed_fixed_triplets seed_accepted]. lia.
    + vm_compute. discriminate.
    + left. vm_compute. reflexivity.
  - apply (proj2 (proj2 (proj2 (get_fixed_dataset_outcome lcg_numpy 0 _)))).
    + cbn [kept_store seed_fixed_triplets seed_accepted]. lia.
    + vm_compute. discriminate.
    + vm_compute. discriminate.
    + vm_compute. discriminate.
    + vm_compute. intros i [[<- | [<- | []]] | [<- | []]]; lia.
Defined.

(** X6.  What a generated cache holds, over binary labels: all features,
    then for every record the features of a drawn record of its own class
    and the features of a drawn record of the other class, one row each per
    record, and as fourth component the label of the last record alone. *)
Theorem fixed_cache_triplets np fresh (self : MolDatasetTriplet)
    (cache : list pyobj) :
  __get_fixed_dataset np fresh self = Ok cache ->
  partitions_current self ->
  Forall (fun v => f32_eq v 0 = true \/ f32_eq v 1 = true) (y self) ->
  exists positive_mf negative_mf records last,
    cache = [Tensor2 (X self); Tensor2 positive_mf; Tensor2 negative_mf;
             PyFloat (f32_to_f64 last)]
    /\ y self = records ++ [last]
    /\ List.length positive_mf = List.length (y self)
    /\ List.length negative_mf = List.length (y self)
    /\ forall i v, nth_error (y self) i = Some v ->
         exists p n vp vn xp xn,
           nth_error (y self) p = Some vp /\ nth_error (y self) n = Some vn
           /\ f32_eq vp 1 = f32_eq v 1 /\ f32_eq vn 1 = negb (f32_eq v 1)
           /\ nth_error (X self) p = Some xp /\ nth_error (X self) n = Some xn
           /\ nth_error positive_mf i = Some xp
           /\ nth_error negative_mf i = Some xn.
Proof.
  intros H (Hp0 & Hp1) Hbin.
  unfold __get_fixed_dataset in H.
  apply bind_ok in H. destruct H as (((pos & neg) & last) & Hfi & H).
  apply bind_ok in H. destruct H as (positive_mf & Hpmf & H).
  apply bind_ok in H. destruct H as (negative_mf & Hnmf & H).
  destruct last as [l |]; [| discriminate]. injection H as <-.
  unfold fixed_indices in Hfi.
  apply bind_ok in Hfi. destruct Hfi as (g & _ & Hloop).
  apply fixed_loop_inv in Hloop.
  destruct Hloop as (pos' & neg' & Hpos_eq & Hneg_eq & Hlast & Hpos & Hneg).
  cbn [app] in Hpos_eq, Hneg_eq. subst pos' neg'.
  assert (Hy : exists records last, y self = records ++ [last]
                                    /\ l = f32_to_f64 last).
  { destruct (y self) as [| v t] eqn:Ey; [discriminate |].
    destruct (@exists_last _ (v :: t)) as (records & lastv & Hsplit);
      [discriminate |].
    exists records, lastv. split; [exact Hsplit |].
    rewrite Hsplit, leaked_label_last in Hlast. congruence. }
  destruct Hy as (records & lastv & Hsplit & ->).
  exists positive_mf, negative_mf, records, lastv.
  pose proof (index_rows_length _ _ _ Hpmf) as Hlp.
  pose proof (index_rows_length _ _ _ Hnmf) as Hln.
  pose proof (Forall2_length Hpos) as Hlpos.
  pose proof (Forall2_length Hneg) as Hlneg.
  split; [reflexivity |]. split; [exact Hsplit |].
  split; [congruence |]. split; [congruence |].
  intros i v Hv.
  destruct (Forall2_nth_error _ _ _ Hpos i v Hv) as (p & Hpi & Hinp).
  destruct (Forall2_nth_error _ _ _ Hneg i v Hv) as (n & Hni & Hinn).
  apply index_rows_inv in Hpmf, Hnmf.
  destruct (Forall2_nth_error _ _ _ Hpmf i p Hpi) as (xp & Hxpi & Hxp).
  destruct (Forall2_nth_error _ _ _ Hnmf i n Hni) as (xn & Hxni & Hxn).
  rewrite Forall_forall in Hbin.
  rewrite anchor_test_binary in Hinp, Hinn
    by (apply Hbin; eapply nth_error_In; exact Hv).
  rewrite Hp0, Hp1 in Hinp, Hinn.
  assert (Hone : forall k, In k (rows_equal (y self) 1) ->
            exists w, nth_error (y self) k = Some w /\ f32_eq w 1 = true).
  { intros k Hk. apply In_rows_equal in Hk. exact Hk. }
  assert (Hzero : forall k, In k (rows_equal (y self) 0) ->
            exists w, nth_error (y self) k = Some w /\ f32_eq w 1 = false).
  { intros k Hk. apply In_rows_equal in Hk. destruct Hk as (w & Hw & Hw0).
    exists w. split; [exact Hw |].
    destruct (f32_eq w 1) eqn:Hw1; [| reflexivity].
    exfalso. exact (f32_eq_zero_one w Hw0 Hw1). }
  destruct (f32_eq v 1) eqn:Hv1.
  - destruct (Hone p Hinp) as (vp & Hvp & Hcp).
    destruct (Hzero n Hinn) as (vn & Hvn & Hcn).
    exists p, n, vp, vn, xp, xn. repeat split; assumption.
  - destruct (Hzero p Hinp) as (vp & Hvp & Hcp).
    destruct (Hone n Hinn) as (vn & Hvn & Hcn).
    exists p, n, vp, vn, xp, xn. repeat split; assumption.
Qed.

Lemma fixed_cache_triplets_witness :
  match MolDatasetTriplet_init lcg_numpy 0 (store_of 2 1) false false
          (PyBool true) (Some 7) with
  | Ok self =>
      exists positive_mf negative_mf,
        fixed_triplets self
        = Some [Tensor2 (X self); Tensor2 positive_mf; Tensor2 negative_mf;
                PyFloat (f64_of_Z 1)]
        /\ List.length positive_mf = 3%nat
  | Raise _ => False
  end.
Proof.
  rewrite init_fixed by reflexivity.
  destruct (__get_fixed_dataset lcg_numpy 0
              (kept_store (store_of 2 1) false false (PyBool true) (Some 7)))
    as [cache | e] eqn:H; [| vm_compute in H; discriminate H].
  cbn [bind].
  destruct (fixed_cache_triplets lcg_numpy 0 _ cache H (conj eq_refl eq_refl)
              (store_of_binary 2 1))
    as (positive_mf & negative_mf & records & last & -> & Hy & Hlp & _ & _).
  exists positive_mf, negative_mf.
  assert (Hlast : last = f32_of_Z 1).
  { assert (Hrev : rev (records ++ [last])
                   = rev [f32_of_Z 0; f32_of_Z 0; f32_of_Z 1]).
    { rewrite <- Hy. vm_compute. reflexivity. }
    rewrite rev_app_distr in Hrev. cbn [rev app] in Hrev.
    injection Hrev as Hl _. exact Hl. }
  split.
  - cbn. rewrite Hlast. repeat f_equal.
  - rewrite Hlp. vm_compute. reflexivity.
Defined.

(** ** Dataset names *)

Lemma substring_all (s : string) : substring 0 (String.length s) s = s.
Proof.
  induction s as [| c s IH]; cbn; [reflexivity | now rewrite IH].
Qed.

Lemma after_underscore_tox21 (task : string) :
  after_underscore (String.append "tox21_" task) = task.
Proof.
  unfold after_underscore. cbn [String.append].
  replace (String.index 0 "_" (String "t" (String "o" (String "x"
             (String "2" (String "1" (String "_" task)))))))
    with (Some 5%nat) by (cbn; destruct task; reflexivity).
  cbn [String.length substring Nat.sub].
  rewrite Nat.sub_0_r. apply substring_all.
Qed.

(** X7.  A name ["tox21_" ++ task] is routed to [load_tox21] with the one
    task [task], the text after the first underscore, for every [task]
    (empty, or with further underscores); the other four loaders are not
    called. *)
Theorem load_by_name_tox21 (dc : DeepChem) (task : string)
    (featurizer : Z * Z) (splitter : option (Splitter dc)) :
  load_by_name dc (String.append "tox21_" task) featurizer splitter
  = (datasets <- load_tox21 dc featurizer splitter [task] ;; Ok (Some datasets)).
Proof.
  unfold load_by_name. rewrite after_underscore_tox21. reflexivity.
Qed.

(** X8.  A name that is none of ["hiv"], ["delaney"], ["lipo"],
    ["freesolv"] and does not start with ["tox21"] reaches [datasets[0]]
    with [datasets] unbound: [get_dataset] raises [UnboundLocalError],
    with or without a splitter and whatever the loaders would do, unless it
    has returned [None] before for fixed triplets without the triplet
    loss. *)
Theorem get_dataset_unknown_name np (dc : DeepChem) entropy (dataset_name : string)
    (splitter : option (Splitter dc)) cf_radius cf_size triplet_loss
    oversample_flag use_fixed_train_triplets seed :
  String.eqb dataset_name "hiv" = false ->
  String.eqb dataset_name "delaney" = false ->
  String.eqb dataset_name "lipo" = false ->
  String.eqb dataset_name "freesolv" = false ->
  String.eqb (substring 0 5 dataset_name) "tox21" = false ->
  get_dataset np dc entropy dataset_name splitter cf_radius cf_size
    triplet_loss oversample_flag use_fixed_train_triplets seed
  = if use_fixed_train_triplets && negb triplet_loss then Ok NoDataset
    else Raise UnboundLocalError.
Proof.
  intros H1 H2 H3 H4 H5. unfold get_dataset, load_by_name.
  rewrite H1, H2, H3, H4, H5.
  destruct (use_fixed_train_triplets && negb triplet_loss); [reflexivity |].
  cbn [bind]. destruct splitter, triplet_loss; reflexivity.
Qed.

Lemma get_dataset_unknown_name_witness :
  get_dataset lcg_numpy three_splits (fun k => Z.of_nat k) "bbbp" (Some tt)
    4 2048 true false true None
  = Raise UnboundLocalError.
Proof.
  apply (get_dataset_unknown_name lcg_numpy three_splits (fun k => Z.of_nat k)
           "bbbp" (Some tt) 4 2048 true false true None);
    reflexivity.
Defined.

(** ** The epoch loop in general *)

Section LoopInvariant.

Variable np : NumpyRandom.
Variable World : Type.
Variable phases : nat -> World -> MolDatasetTriplet
                  -> result (World * MolDatasetTriplet).
Variable fresh : np_state np.

(** What the phases of every epoch maintain holds when the loop returns. *)
Lemma epochs_invariant (I : nat -> World -> Prop) (fixed : bool) :
  (forall e w d w' d', I e w -> phases e w d = Ok (w', d') -> I (S e) w') ->
  forall remaining epoch w dataset trace w',
    I epoch w ->
    fst (epochs np World phases fresh fixed remaining epoch w dataset trace)
    = Ok w' ->
    I (epoch + remaining)%nat w'.
Proof.
  intros Hstep. induction remaining as [| remaining IH];
    intros epoch w dataset trace w' HI H.
  - cbn in H. injection H as <-. now rewrite Nat.add_0_r.
  - cbn [epochs] in H.
    destruct ((0 <? epoch)%nat && fixed).
    + destruct (seed_fixed_triplets dataset) as [s |]; [| discriminate].
      destruct (refresh_fixed_triplets np fresh dataset (Some (s + Z.of_nat epoch)))
        as [[[] | err] d1]; [| discriminate].
      destruct (phases epoch w d1) as [[w1 d2] | err] eqn:Hph; [| discriminate].
      apply IH in H; [| eapply Hstep; eassumption].
      now replace (epoch + S remaining)%nat with (S epoch + remaining)%nat by lia.
    + destruct (phases epoch w dataset) as [[w1 d2] | err] eqn:Hph; [| discriminate].
      apply IH in H; [| eapply Hstep; eassumption].
      now replace (epoch + S remaining)%nat with (S epoch + remaining)%nat by lia.
Qed.

(** Without the flag no refresh is ever logged. *)
Lemma epochs_no_refresh :
  forall remaining epoch w dataset trace ev,
    In ev (snd (epochs np World phases fresh false remaining epoch w dataset trace)) ->
    In ev trace \/ exists e held, ev = Phases e held.
Proof.
  induction remaining as [| remaining IH]; intros epoch w dataset trace ev H.
  - now left.
  - cbn [epochs] in H. rewrite andb_false_r in H.
    destruct (phases epoch w dataset) as [[w1 d2] | err].
    + apply IH in H. destruct H as [H | H]; [| now right].
      apply in_app_or in H. destruct H as [H | [<- | []]]; eauto.
    + cbn [snd] in H. apply in_app_or in H. destruct H as [H | [<- | []]]; eauto.
Qed.

End LoopInvariant.

(** X9.  Without [use_fixed_training_triplets] the loop never calls
    [refresh_fixed_triplets], in no epoch and whatever the phases do: the
    triplets of the training dataset are regenerated by nobody. *)
Theorem train_triplet_never_refreshes np World phases fresh w dataset n_epochs
    (e : nat) (s : Z) :
  ~ In (Refreshed e s)
       (snd (train_triplet np World phases fresh w dataset n_epochs false)).
Proof.
  unfold train_triplet. destruct (py_truediv _ _); [| intros []].
  intros H. apply epochs_no_refresh in H.
  destruct H as [[] | (e' & held & H)]. discriminate.
Qed.

(** X10.  In fixed mode on a dataset that holds no seed (constructed with
    the default [seed_fixed_triplets = None]) the first epoch runs, and the
    second one raises [TypeError] when the loop adds the epoch to the seed,
    before any refresh. *)
Theorem train_triplet_fixed_without_seed np World phases fresh w dataset
    n_epochs w' dataset' :
  indices_1 dataset <> [] ->
  seed_fixed_triplets dataset = None ->
  phases 0%nat w dataset = Ok (w', dataset') ->
  seed_fixed_triplets dataset' = None ->
  (2 <= n_epochs)%nat ->
  train_triplet np World phases fresh w dataset n_epochs true
  = (Raise TypeError, [Phases 0 None]).
Proof.
  intros H1 Hseed Hph Hseed' Hn. unfold train_triplet, py_truediv.
  destruct (indices_1 dataset) as [| i rest]; [congruence |].
  cbn [List.length].
  destruct n_epochs as [| [| n]]; [lia | lia |].
  cbn [epochs Nat.ltb Nat.leb andb]. rewrite Hph, Hseed, Hseed'. reflexivity.
Qed.

Lemma train_triplet_fixed_without_seed_witness :
  match MolDatasetTriplet_init lcg_numpy 0 (store_of 2 1) true false
          (PyBool true) None with
  | Ok dataset =>
      train_triplet lcg_numpy unit (fun _ w d => Ok (w, d)) 0 tt dataset 3 true
      = (Raise TypeError, [Phases 0 None])
  | Raise _ => False
  end.
Proof.
  destruct (MolDatasetTriplet_init lcg_numpy 0 (store_of 2 1) true false
              (PyBool true) None) as [dataset | e] eqn:Hinit;
    [| vm_compute in Hinit; discriminate Hinit].
  assert (Hfields : indices_1 dataset <> [] /\ seed_fixed_triplets dataset = None).
  { pose proof Hinit as Hvalue. vm_compute in Hvalue. injection Hvalue as <-.
    split; [discriminate | reflexivity]. }
  destruct Hfields as (H1 & Hseed).
  apply (train_triplet_fixed_without_seed lcg_numpy unit (fun _ w d => Ok (w, d))
           0 tt dataset 3 tt dataset H1 Hseed eq_refl Hseed).
  lia.
Defined.

(** ** Losses, checkpoints and the report *)

Lemma map_fst_combine {A B : Type} (l : list A) (l' : list B) :
  List.length l = List.length l' -> map fst (combine l l') = l.
Proof.
  revert l'. induction l as [| a l IH]; intros [| b l'] H; try discriminate.
  - reflexivity.
  - cbn. f_equal. apply IH. now injection H.
Qed.

Lemma map_snd_combine {A B : Type} (l : list A) (l' : list B) :
  List.length l = List.length l' -> map snd (combine l l') = l'.
Proof.
  revert l'. induction l as [| a l IH]; intros [| b l'] H; try discriminate.
  - reflexivity.
  - cbn. f_equal. apply IH. now injection H.
Qed.

Section Accounting.

Variables StateDict Ext : Type.
Variable set_mode : bool -> Ext -> result Ext.
Variable shuffle_data : MolDatasetTriplet -> Ext -> result (MolDatasetTriplet * Ext).
Variable run_batches : bool -> nat -> MolDatasetTriplet -> Ext
                       -> result (list float64 * Ext).
Variable round5 : float64 -> float64.
Variable state_dict : Ext -> StateDict.
Variable now : Ext -> string.
Variable save_checkpoint : checkpoint StateDict -> string -> Ext -> result Ext.
Variable dataset_name : string.
Variable checkpoints_dir : string.
Variable fixed : bool.

Let the_phase :=
  phase StateDict Ext set_mode shuffle_data run_batches round5.
Let the_phases :=
  epoch_phases StateDict Ext set_mode shuffle_data run_batches round5
    state_dict now save_checkpoint dataset_name checkpoints_dir fixed.

(** A phase that returns has appended one loss to the history of its
    state and has left the other history and the checkpoints alone. *)
Lemma phase_ok (is_train : bool) (epoch : nat) st dataset st' dataset' :
  the_phase is_train epoch st dataset = Ok (st', dataset') ->
  exists epoch_loss,
    train_loss st' = (if is_train then train_loss st ++ [epoch_loss]
                      else train_loss st)
    /\ test_loss st' = (if is_train then test_loss st
                        else test_loss st ++ [epoch_loss])
    /\ saved st' = saved st.
Proof.
  unfold the_phase, phase. intros H.
  apply bind_ok in H. destruct H as (ext1 & _ & H).
  apply bind_ok in H. destruct H as ([d1 ext2] & _ & H).
  apply bind_ok in H. destruct H as ([losses ext3] & _ & H).
  destruct (match losses with [] => batch_id st | _ :: _ => _ end) as [b |];
    [| discriminate].
  injection H as <- _. eexists. cbn. repeat split.
Qed.

Lemma epoch_phases_ok (epoch : nat) st dataset st' dataset' :
  the_phases epoch st dataset = Ok (st', dataset') ->
  exists train_epoch_loss test_epoch_loss ck,
    train_loss st' = train_loss st ++ [train_epoch_loss]
    /\ test_loss st' = test_loss st ++ [test_epoch_loss]
    /\ saved st'
       = saved st ++ [(checkpoint_path checkpoints_dir dataset_name epoch, ck)]
    /\ ck_epoch ck = epoch /\ ck_dataset ck = dataset_name
    /\ ck_used_fixed_training_triplets ck = fixed
    /\ ck_train_loss ck = train_loss st'
    /\ ck_test_loss ck = test_loss st'.
Proof.
  unfold the_phases, epoch_phases. intros H.
  apply bind_ok in H. destruct H as ([st1 d1] & Htrain & H).
  apply bind_ok in H. destruct H as ([st2 d2] & Htest & H).
  apply bind_ok in H. destruct H as (ext' & _ & H).
  injection H as <- _.
  apply phase_ok in Htrain, Htest.
  destruct Htrain as (x & Hx1 & Hx2 & Hx3), Htest as (x' & Hy1 & Hy2 & Hy3).
  exists x, x'. eexists. cbn.
  rewrite Hy1, Hy2, Hy3, Hx1, Hx2, Hx3. repeat split.
Qed.

Lemma accounted_step (e : nat) st dataset st' dataset' :
  accounted checkpoints_dir dataset_name fixed e st ->
  the_phases e st dataset = Ok (st', dataset') ->
  accounted checkpoints_dir dataset_name fixed (S e) st'.
Proof.
  intros (Htl & Htel & Hsl & Hsaved) H.
  apply epoch_phases_ok in H.
  destruct H as (x & x' & ck & Ht & Hte & Hs & Hck1 & Hck2 & Hck3 & Hck4 & Hck5).
  unfold accounted. rewrite Ht, Hte, Hs, !length_app. cbn [List.length].
  repeat (split; [lia |]).
  intros k path ck' Hk.
  destruct (Nat.lt_ge_cases k e) as [Hlt | Hge].
  - rewrite nth_error_app1 in Hk by lia.
    destruct (Hsaved k path ck' Hk) as (Hp & He & Hd & Hf & Hktl & Hktel).
    repeat (split; [assumption |]).
    rewrite !firstn_app.
    replace (S k - List.length (train_loss st))%nat with 0%nat by lia.
    replace (S k - List.length (test_loss st))%nat with 0%nat by lia.
    cbn [firstn]. rewrite !app_nil_r. auto.
  - assert (Hke : k = e).
    { assert (k < List.length (saved st ++ [(checkpoint_path checkpoints_dir dataset_name e, ck)]))%nat
        by (apply nth_error_Some; congruence).
      rewrite length_app in H. cbn in H. lia. }
    subst k. rewrite nth_error_app2 in Hk by lia.
    rewrite Hsl, Nat.sub_diag in Hk. cbn in Hk. injection Hk as <- <-.
    repeat (split; [assumption || reflexivity |]).
    rewrite Hck4, Hck5, Ht, Hte.
    split; symmetry; apply firstn_all2; rewrite length_app; cbn; lia.
Qed.

End Accounting.

(** X11.  The accounting of a run of [train_triplet] that completes its
    [n_epochs] epochs: both loss histories have [n_epochs] entries, so the
    report's three columns have one length and the report is built, with
    the epochs [0 .. n_epochs - 1] beside the two histories; and
    [save_checkpoint] was called once per epoch, for epoch [k] with the path
    of epoch [k] and the histories cut after epoch [k]. *)
Theorem train_triplet_accounting (StateDict Ext : Type) set_mode shuffle_data
    run_batches round5 (state_dict : Ext -> StateDict) now save_checkpoint
    dataset_name checkpoints_dir fixed np fresh (e0 : Ext) dataset n_epochs st :
  fst (train_triplet np (loop_state StateDict Ext)
         (epoch_phases StateDict Ext set_mode shuffle_data run_batches round5
            state_dict now save_checkpoint dataset_name checkpoints_dir fixed)
         fresh (first_state StateDict Ext e0) dataset n_epochs fixed)
  = Ok st ->
  List.length (train_loss st) = n_epochs
  /\ List.length (test_loss st) = n_epochs
  /\ (exists report,
        report_df StateDict Ext n_epochs st = Ok report
        /\ map (fun row => fst (fst row)) report = seq 0 n_epochs
        /\ map (fun row => snd (fst row)) report = train_loss st
        /\ map snd report = test_loss st)
  /\ List.length (saved st) = n_epochs
  /\ forall k, (k < n_epochs)%nat ->
       exists ck,
         nth_error (saved st) k
         = Some (checkpoint_path checkpoints_dir dataset_name k, ck)
         /\ ck_epoch ck = k
         /\ ck_train_loss ck = firstn (S k) (train_loss st)
         /\ ck_test_loss ck = firstn (S k) (test_loss st).
Proof.
  intros H. unfold train_triplet in H.
  destruct (py_truediv _ _) as [weights_1 | err]; [| discriminate].
  apply (epochs_invariant np _ _ fresh
           (accounted checkpoints_dir dataset_name fixed) fixed) in H.
  - cbn [Nat.add] in H. destruct H as (Htl & Htel & Hsl & Hsaved).
    split; [exact Htl |]. split; [exact Htel |]. split; [| split; [exact Hsl |]].
    + unfold report_df. rewrite Htl, Htel, Nat.eqb_refl. cbn [andb].
      eexists. split; [reflexivity |].
      assert (Hlen : List.length (combine (seq 0 n_epochs) (train_loss st))
                     = List.length (test_loss st)).
      { rewrite length_combine, length_seq, Htl, Htel. lia. }
      rewrite <- (map_map fst fst), <- (map_map fst snd).
      rewrite (map_fst_combine _ _ Hlen), (map_snd_combine _ _ Hlen).
      rewrite map_fst_combine, map_snd_combine
        by (rewrite length_seq; congruence).
      auto.
    + intros k Hk.
      destruct (nth_error (saved st) k) as [[path ck] |] eqn:Hnth;
        [| apply nth_error_None in Hnth; lia].
      destruct (Hsaved k path ck Hnth) as (-> & He & _ & _ & Ht & Hte).
      exists ck. auto.
  - intros e w d w' d'. apply accounted_step.
  - unfold accounted, first_state. cbn [train_loss test_loss saved List.length].
    repeat (split; [reflexivity |]).
    intros k path ck Hk. destruct k; discriminate.
Qed.

Lemma train_triplet_accounting_witness :
  match fst (train_triplet lcg_numpy (loop_state unit unit)
               (epoch_phases unit unit (fun _ e => Ok e) (fun d e => Ok (d, e))
                  (fun _ _ _ e => Ok ([f64_of_Z 1; f64_of_Z 3], e))
                  (fun x => x) (fun e => e) (fun _ => "2024-01-01 00:00:00")
                  (fun _ _ e => Ok e) "hiv" "checkpoints" false)
               0 (first_state unit unit tt)
               (kept_store (store_of 2 1) true false (PyBool false) None)
               2 false) with
  | Ok st =>
      List.length (train_loss st) = 2%nat
      /\ map fst (saved st) = ["checkpoints/hiv_0"; "checkpoints/hiv_1"]
  | Raise _ => False
  end.
Proof.
  destruct (fst (train_triplet lcg_numpy (loop_state unit unit)
               (epoch_phases unit unit (fun _ e => Ok e) (fun d e => Ok (d, e))
                  (fun _ _ _ e => Ok ([f64_of_Z 1; f64_of_Z 3], e))
                  (fun x => x) (fun e => e) (fun _ => "2024-01-01 00:00:00")
                  (fun _ _ e => Ok e) "hiv" "checkpoints" false)
               0 (first_state unit unit tt)
               (kept_store (store_of 2 1) true false (PyBool false) None)
               2 false)) as [st | e] eqn:H;
    [| vm_compute in H; discriminate H].
  destruct (train_triplet_accounting _ _ _ _ _ _ _ _ _ _ _ _ _ _ _ _ _ _ H)
    as (Htl & _ & _ & Hsl & Hsaved).
  split; [exact Htl |].
  destruct (Hsaved 0%nat ltac:(lia)) as (ck0 & H0 & _).
  destruct (Hsaved 1%nat ltac:(lia)) as (ck1 & H1 & _).
  destruct (saved st) as [| [p0 c0] [| [p1 c1] [| ? ?]]]; try discriminate.
  cbn in H0, H1. injection H0 as <- _. injection H1 as <- _.
  vm_compute. reflexivity.
Defined.

(** X12.  [batch_id] is bound by the batch loop and by nothing else.  If
    the train loader yields no batch in the first epoch, [train_triplet]
    raises [UnboundLocalError] when it averages the loss.  Once a phase has
    seen a batch the variable stays bound: an epoch whose train loader
    yields [k > 0] batches and whose test loader yields none does not
    raise, and records as test loss [round(0.0 / k, 5)], the divisor being
    the number of train batches. *)
Theorem batch_id_scoping (StateDict Ext : Type) set_mode shuffle_data
    run_batches round5 (state_dict : Ext -> StateDict) now save_checkpoint
    dataset_name checkpoints_dir fixed :
  (forall np fresh e0 e1 e2 e3 dataset dataset1 n_epochs,
      indices_1 dataset <> [] -> (0 < n_epochs)%nat ->
      set_mode true e0 = Ok e1 ->
      shuffle_data dataset e1 = Ok (dataset1, e2) ->
      run_batches true 0%nat dataset1 e2 = Ok ([], e3) ->
      fst (train_triplet np (loop_state StateDict Ext)
             (epoch_phases StateDict Ext set_mode shuffle_data run_batches
                round5 state_dict now save_checkpoint dataset_name
                checkpoints_dir fixed)
             fresh (first_state StateDict Ext e0) dataset n_epochs fixed)
      = Raise UnboundLocalError)
  /\ (forall epoch st dataset dataset1 e1 e2 e3 e4 e5 e6 loss losses,
      set_mode true (ext st) = Ok e1 ->
      shuffle_data dataset e1 = Ok (dataset1, e2) ->
      run_batches true epoch dataset1 e2 = Ok (loss :: losses, e3) ->
      set_mode false e3 = Ok e4 ->
      run_batches false epoch dataset1 e4 = Ok ([], e5) ->
      (forall ck path, save_checkpoint ck path e5 = Ok e6) ->
      exists st',
        epoch_phases StateDict Ext set_mode shuffle_data run_batches round5
          state_dict now save_checkpoint dataset_name checkpoints_dir fixed
          epoch st dataset = Ok (st', dataset1)
        /\ test_loss st'
           = test_loss st
             ++ [round5 (SFdiv 53 1024 (S754_zero false)
                           (f64_of_Z (Z.of_nat (List.length (loss :: losses)))))]).
Proof.
  split.
  - intros np fresh e0 e1 e2 e3 dataset dataset1 n_epochs H1 Hn Hmode Hshuffle Hrun.
    unfold train_triplet, py_truediv.
    destruct (indices_1 dataset) as [| i rest]; [congruence |].
    cbn [List.length]. destruct n_epochs as [| n]; [lia |].
    cbn [epochs Nat.ltb Nat.leb andb].
    unfold epoch_phases at 1. unfold phase at 1.
    cbn [first_state ext batch_id]. rewrite Hmode. cbn [bind].
    rewrite Hshuffle. cbn [bind]. rewrite Hrun. reflexivity.
  - intros epoch st dataset dataset1 e1 e2 e3 e4 e5 e6 loss losses
      Hmode Hshuffle Hrun Hmode' Hrun' Hsave.
    unfold epoch_phases, phase.
    rewrite Hmode. cbn [bind]. rewrite Hshuffle. cbn [bind].
    rewrite Hrun. cbn [bind ext batch_id train_loss test_loss saved].
    rewrite Hmode'. cbn [bind]. rewrite Hrun'.
    cbn [bind ext batch_id train_loss test_loss saved fold_left].
    rewrite Hsave. cbn [bind].
    eexists. split; [reflexivity |].
    cbn [test_loss List.length].
    replace (Z.of_nat (S (List.length losses) - 1) + 1)
      with (Z.of_nat (S (List.length losses))) by lia.
    reflexivity.
Qed.

Lemma batch_id_scoping_witness :
  fst (train_triplet lcg_numpy (loop_state unit unit)
         (epoch_phases unit unit (fun _ e => Ok e) (fun d e => Ok (d, e))
            (fun _ _ _ e => Ok ([], e)) (fun x => x) (fun e => e)
            (fun _ => "2024-01-01 00:00:00") (fun _ _ e => Ok e)
            "hiv" "checkpoints" false)
         0 (first_state unit unit tt)
         (kept_store (store_of 2 1) true false (PyBool false) None) 2 false)
  = Raise UnboundLocalError
  /\ is_ok (epoch_phases unit unit (fun _ e => Ok e) (fun d e => Ok (d, e))
              (fun is_train _ _ e =>
                 Ok (if is_train then [f64_of_Z 1; f64_of_Z 3] else [], e))
              (fun x => x) (fun e => e) (fun _ => "2024-01-01 00:00:00")
              (fun _ _ e => Ok e) "hiv" "checkpoints" false
              0 (first_state unit unit tt)
              (kept_store (store_of 2 1) true false (PyBool false) None))
     = true.
Proof.
  split.
  - apply (proj1 (batch_id_scoping unit unit (fun _ e => Ok e)
                    (fun d e => Ok (d, e)) (fun _ _ _ e => Ok ([], e))
                    (fun x => x) (fun e => e) (fun _ => "2024-01-01 00:00:00")
                    (fun _ _ e => Ok e) "hiv" "checkpoints" false)
             lcg_numpy 0 tt tt tt tt
             (kept_store (store_of 2 1) true false (PyBool false) None)
             (kept_store (store_of 2 1) true false (PyBool false) None) 2%nat).
    + vm_compute. discriminate.
    + lia.
    + reflexivity.
    + reflexivity.
    + reflexivity.
  - destruct (proj2 (batch_id_scoping unit unit (fun _ e => Ok e)
                       (fun d e => Ok (d, e))
                       (fun is_train _ _ e =>
                          Ok (if is_train then [f64_of_Z 1; f64_of_Z 3] else [], e))
                       (fun x => x) (fun e => e)
                       (fun _ => "2024-01-01 00:00:00")
                       (fun _ _ e => Ok e) "hiv" "checkpoints" false)
                0%nat (first_state unit unit tt)
                (kept_store (store_of 2 1) true false (PyBool false) None)
                (kept_store (store_of 2 1) true false (PyBool false) None)
                tt tt tt tt tt tt (f64_of_Z 1) [f64_of_Z 3]
                eq_refl eq_refl eq_refl eq_refl eq_refl (fun _ _ => eq_refl))
      as (st' & -> & _).
    reflexivity.
Defined.

(** ** Checkpoint paths *)

Lemma append_cancel_l (s a b : string) :
  String.append s a = String.append s b -> a = b.
Proof.
  induction s as [| c s IH]; cbn; intros H; [exact H |].
  injection H as H. now apply IH.
Qed.

Lemma py_str_nat_inj (a b : nat) :
  py_str (PyInt (Z.of_nat a)) = py_str (PyInt (Z.of_nat b)) -> a = b.
Proof.
  cbn [py_str]. intros H.
  assert (Hnonnil : forall z, Z.to_int z <> Decimal.Pos Decimal.Nil
                              /\ Z.to_int z <> Decimal.Neg Decimal.Nil).
  { intros z. split; intros Hz; pose proof (f_equal Z.of_int Hz) as Hz';
      rewrite DecimalZ.of_to in Hz'; cbn in Hz'; subst z; discriminate Hz. }
  apply (f_equal NilZero.int_of_string) in H.
  rewrite !NilZero.isi in H by apply Hnonnil.
  injection H as H. apply DecimalZ.to_int_inj in H. lia.
Qed.

(** X13.  Within a run (one directory, one dataset name) two different
    epochs never share a checkpoint path: no checkpoint is written over
    another. *)
Theorem checkpoint_path_inj (checkpoints_dir dataset_name : string) (e1 e2 : nat) :
  e1 <> e2 ->
  checkpoint_path checkpoints_dir dataset_name e1
  <> checkpoint_path checkpoints_dir dataset_name e2.
Proof.
  intros Hne H. apply Hne.
  unfold checkpoint_path in H. cbn [String.concat] in H.
  repeat (apply append_cancel_l in H).
  apply py_str_nat_inj. exact H.
Qed.

Lemma checkpoint_path_inj_witness :
  checkpoint_path "checkpoints" "hiv" 1 <> checkpoint_path "checkpoints" "hiv" 10.
Proof.
  apply (checkpoint_path_inj "checkpoints" "hiv" 1 10). lia.
Defined.

(** ** The pair target does not depend on the order of the pair *)

Lemma SFabs_binary_round (prec emax : Z) (s s' : bool) (m : positive) (e : Z) :
  SFabs (binary_round prec emax s m e) = SFabs (binary_round prec emax s' m e).
Proof.
  unfold binary_round.
  destruct (shl_align m e (fexp prec emax (Z.pos (digits2_pos m) + e))) as [mz ez].
  unfold binary_round_aux.
  destruct (shr_fexp prec emax (Z.pos mz) ez loc_Exact) as [mrs' e'].
  destruct (shr_fexp prec emax
              (round_nearest_even (shr_m mrs') (loc_of_shr_record mrs')) e'
              loc_Exact) as [mrs'' e''].
  destruct (shr_m mrs''); try reflexivity.
  destruct (e'' <=? emax - prec); reflexivity.
Qed.

Lemma SFabs_binary_normalize_opp (prec emax : Z) (m e : Z) :
  SFabs (binary_normalize prec emax (- m) e false)
  = SFabs (binary_normalize prec emax m e false).
Proof.
  destruct m as [| p | p]; cbn [Z.opp binary_normalize].
  - reflexivity.
  - apply SFabs_binary_round.
  - apply SFabs_binary_round.
Qed.

Lemma SFabs_SFsub_comm (prec emax : Z) (a b : spec_float) :
  SFabs (SFsub prec emax a b) = SFabs (SFsub prec emax b a).
Proof.
  destruct a as [sa | sa | | sa ma ea], b as [sb | sb | | sb mb eb];
    try (destruct sa, sb; reflexivity);
    try (destruct sa; reflexivity);
    try (destruct sb; reflexivity);
    try reflexivity.
  unfold SFsub. rewrite (Z.min_comm eb ea).
  rewrite <- SFabs_binary_normalize_opp. f_equal. f_equal. lia.
Qed.

Lemma pair_getitem_inv py (self : MolDataset) (id0 : nat) (g g1 : py_state py)
    (a b t : pyobj) :
  MolDataset__getitem__ py self id0 g = (Ok (a, b, t), g1) ->
  exists mf0 mf1 y0 y1,
    nth_error (md_X self) id0 = Some mf0
    /\ nth_error (md_X self) (fst (py_randbelow py (md_n_molecules self) g))
       = Some mf1
    /\ nth_error (md_y self) id0 = Some y0
    /\ nth_error (md_y self) (fst (py_randbelow py (md_n_molecules self) g))
       = Some y1
    /\ a = Tensor1 mf0 /\ b = Tensor1 mf1
    /\ t = Tensor1 [SFabs (SFsub 24 128 y0 y1)].
Proof.
  intros H. unfold MolDataset__getitem__, MolDataset_len in H.
  apply and_then_ok in H. destruct H as (id1 & g2 & Hdraw & H).
  rewrite random_randint_length in Hdraw.
  destruct (md_n_molecules self) as [| n] eqn:HN; [discriminate |].
  injection Hdraw as <- <-. rewrite Nat2Z.id in H.
  apply and_then_ok in H. destruct H as (mf0 & g3 & Hmf0 & H).
  apply and_then_ok in H. destruct H as (mf1 & g4 & Hmf1 & H).
  apply and_then_ok in H. destruct H as (y0 & g5 & Hy0 & H).
  apply and_then_ok in H. destruct H as (y1 & g6 & Hy1 & H).
  apply pure_ok in Hmf0, Hmf1, Hy0, Hy1, H.
  destruct Hmf0 as (Hmf0 & _), Hmf1 as (Hmf1 & _), Hy0 as (Hy0 & _),
           Hy1 as (Hy1 & _), H as (H & _).
  apply list_item_ok in Hmf0, Hmf1, Hy0, Hy1.
  injection H as <- <- <-.
  exists mf0, mf1, y0, y1. repeat split; assumption.
Qed.

(** X14.  The pair target does not depend on which molecule of a pair is
    the index and which is drawn: if [__getitem__] at [i] draws [j] and
    [__getitem__] at [j] draws [i], the two calls return the same target
    and the two fingerprints in swapped places.  This holds for every
    label, binary or not. *)
Theorem pair_target_symmetric py (self : MolDataset) (i j : nat)
    (g g' gi gj : py_state py) (a b t a' b' t' : pyobj) :
  fst (py_randbelow py (md_n_molecules self) g) = j ->
  fst (py_randbelow py (md_n_molecules self) g') = i ->
  MolDataset__getitem__ py self i g = (Ok (a, b, t), gi) ->
  MolDataset__getitem__ py self j g' = (Ok (a', b', t'), gj) ->
  t' = t /\ a' = b /\ b' = a.
Proof.
  intros Hj Hi H H'.
  apply pair_getitem_inv in H, H'.
  destruct H as (mf0 & mf1 & y0 & y1 & Hm0 & Hm1 & Hy0 & Hy1 & -> & -> & ->).
  destruct H' as (mf0' & mf1' & y0' & y1' & Hm0' & Hm1' & Hy0' & Hy1' & -> & -> & ->).
  rewrite Hj in Hm1, Hy1. rewrite Hi in Hm1', Hy1'.
  assert (mf0' = mf1) by congruence. assert (mf1' = mf0) by congruence.
  assert (y0' = y1) by congruence. assert (y1' = y0) by congruence.
  subst. rewrite (SFabs_SFsub_comm 24 128 y1 y0). auto.
Qed.

Lemma pair_target_symmetric_witness :
  match MolDataset__getitem__ lcg_python (MolDataset_init (store_of 1 1)) 0 5,
        MolDataset__getitem__ lcg_python (MolDataset_init (store_of 1 1)) 1 4 with
  | (Ok (_, _, t), _), (Ok (_, _, t'), _) => t' = t
  | _, _ => False
  end.
Proof.
  destruct (MolDataset__getitem__ lcg_python (MolDataset_init (store_of 1 1)) 0 5)
    as [[[[a b] t] | e] gi] eqn:H; [| vm_compute in H; discriminate H].
  destruct (MolDataset__getitem__ lcg_python (MolDataset_init (store_of 1 1)) 1 4)
    as [[[[a' b'] t'] | e] gj] eqn:H'; [| vm_compute in H'; discriminate H'].
  exact (proj1 (pair_target_symmetric lcg_python (MolDataset_init (store_of 1 1))
                  0 1 5 4 gi gj a b t a' b' t' eq_refl eq_refl H H')).
Defined.

(** ** Stores without a record labelled 1 *)

Lemma rows_equal_from_none (t : list float32) (c : Z) :
  Forall (fun v => f32_eq v c = false) t ->
  forall k, rows_equal_from k t c = [].
Proof.
  induction 1 as [| v t Hv _ IH]; intros k; cbn [rows_equal_from].
  - reflexivity.
  - rewrite Hv. apply IH.
Qed.

(** X15.  On a store in which no label equals 1 every place that divides
    by [len(indices_1)] raises [ZeroDivisionError]: the constructor with
    [oversample] (before anything is concatenated), [get_pos_weights] on
    a dataset the constructor returns without [oversample], and
    [train_triplet] on such a dataset, before its first epoch and whatever
    the phases are. *)
Theorem no_positive_record np fresh (dc_dataset : dc_Datset) :
  Forall (fun v => f32_eq (f64_to_f32 v) 1 = false) (dc_y dc_dataset) ->
  (forall train_flag fixed_flag seed,
      truthy fixed_flag = false ->
      MolDatasetTriplet_init np fresh dc_dataset train_flag true fixed_flag seed
      = Raise ZeroDivisionError)
  /\ (forall train_flag fixed_flag seed self,
      MolDatasetTriplet_init np fresh dc_dataset train_flag false fixed_flag seed
      = Ok self ->
      get_pos_weights self = Raise ZeroDivisionError
      /\ forall World phases w n_epochs fixed,
           train_triplet np World phases fresh w self n_epochs fixed
           = (Raise ZeroDivisionError, [])).
Proof.
  intros Hnone.
  assert (Hempty : rows_equal (md_y (MolDataset_init dc_dataset)) 1 = []).
  { unfold rows_equal. apply rows_equal_from_none.
    cbn [MolDataset_init md_y]. apply Forall_map. exact Hnone. }
  split.
  - intros train_flag fixed_flag seed Hf.
    unfold MolDatasetTriplet_init. rewrite Hf, Hempty. reflexivity.
  - intros train_flag fixed_flag seed self Hinit.
    assert (H1 : indices_1 self = []).
    { destruct (init_partitions_current np _ _ _ _ _ _ _ Hinit) as (_ & ->).
      destruct (truthy fixed_flag) eqn:Hf.
      - rewrite init_fixed in Hinit by exact Hf.
        apply bind_ok in Hinit. destruct Hinit as (cache & _ & Hself).
        injection Hself as <-. exact Hempty.
      - rewrite init_plain in Hinit by exact Hf.
        injection Hinit as <-. exact Hempty. }
    split.
    + unfold get_pos_weights. rewrite H1. reflexivity.
    + intros World phases w n_epochs fixed.
      unfold train_triplet. rewrite H1. reflexivity.
Qed.

Lemma no_positive_record_witness :
  MolDatasetTriplet_init lcg_numpy 0 (store_of 2 0) true true (PyBool false) None
  = Raise ZeroDivisionError
  /\ get_pos_weights (kept_store (store_of 2 0) true false (PyBool false) None)
     = Raise ZeroDivisionError.
Proof.
  assert (Hnone : Forall (fun v => f32_eq (f64_to_f32 v) 1 = false)
                    (dc_y (store_of 2 0))).
  { unfold store_of. cbn [dc_y repeat app].
    repeat constructor; vm_compute; reflexivity. }
  destruct (no_positive_record lcg_numpy 0 (store_of 2 0) Hnone) as (Hover & Hplain).
  split.
  - apply Hover. reflexivity.
  - apply (Hplain true (PyBool false) None). apply init_plain. reflexivity.
Defined.

(** ** Stores with both classes *)

Lemma rows_equal_nonempty (t : list float32) (c : Z) (v : float32) :
  In v t -> f32_eq v c = true -> rows_equal t c <> [].
Proof.
  intros Hin Hv Hnil. apply In_nth_error in Hin. destruct Hin as (i & Hi).
  assert (H : In i (rows_equal t c)) by (apply In_rows_equal; eauto).
  rewrite Hnil in H. destruct H.
Qed.

(** X16.  On a store with as many fingerprints as labels that has a record
    labelled 0 and a record labelled 1, the constructor without
    [oversample] returns a dataset in either mode: without fixed triplets
    always, and then, built with [train] false, [__getitem__] returns a
    triplet at every index of a record; with fixed triplets whenever numpy
    accepts the seed. *)
Theorem two_class_store_served np py fresh (dc_dataset : dc_Datset)
    (v0 v1 : float64) :
  List.length (dc_X dc_dataset) = List.length (dc_y dc_dataset) ->
  In v0 (dc_y dc_dataset) -> f32_eq (f64_to_f32 v0) 0 = true ->
  In v1 (dc_y dc_dataset) -> f32_eq (f64_to_f32 v1) 1 = true ->
  (forall fixed_flag seed,
      truthy fixed_flag = false ->
      exists self,
        MolDatasetTriplet_init np fresh dc_dataset false false fixed_flag seed
        = Ok self
        /\ forall id0 g, (id0 < List.length (dc_y dc_dataset))%nat ->
             is_ok (fst (__getitem__ py self id0 g)) = true)
  /\ (forall train_flag fixed_flag seed,
      truthy fixed_flag = true -> seed_accepted seed ->
      is_ok (MolDatasetTriplet_init np fresh dc_dataset train_flag false
               fixed_flag seed) = true).
Proof.
  intros Hlen Hin0 Hv0 Hin1 Hv1.
  set (labels := md_y (MolDataset_init dc_dataset)).
  assert (H0 : rows_equal labels 0 <> []).
  { apply (rows_equal_nonempty labels 0 (f64_to_f32 v0)); [| exact Hv0].
    unfold labels. cbn [MolDataset_init md_y]. now apply in_map. }
  assert (H1 : rows_equal labels 1 <> []).
  { apply (rows_equal_nonempty labels 1 (f64_to_f32 v1)); [| exact Hv1].
    unfold labels. cbn [MolDataset_init md_y]. now apply in_map. }
  assert (Hrows : forall i, In i (rows_equal labels 0) \/ In i (rows_equal labels 1) ->
                            (i < List.length (md_X (MolDataset_init dc_dataset)))%nat).
  { intros i Hi. cbn [MolDataset_init md_X]. rewrite length_map, Hlen.
    replace (List.length (dc_y dc_dataset)) with (List.length labels)
      by (unfold labels; cbn [MolDataset_init md_y]; apply length_map).
    destruct Hi as [Hi | Hi]; eapply rows_equal_lt; exact Hi. }
  split.
  - intros fixed_flag seed Hf.
    exists (kept_store dc_dataset false false fixed_flag seed).
    split; [now apply init_plain |].
    intros id0 g Hid.
    apply (proj1 (getitem_eval_outcome py
                    (kept_store dc_dataset false false fixed_flag seed) id0 g
                    Hf eq_refl
                    ltac:(cbn; rewrite length_map; lia)
                    ltac:(cbn; rewrite length_map; lia))).
    + exact H0.
    + exact H1.
    + exact Hrows.
  - intros train_flag fixed_flag seed Hf Hseed.
    rewrite init_fixed by exact Hf.
    pose proof (proj2 (proj2 (proj2 (get_fixed_dataset_outcome np fresh
                  (kept_store dc_dataset train_flag false fixed_flag seed)))))
      as Hok.
    destruct (__get_fixed_dataset np fresh
                (kept_store dc_dataset train_flag false fixed_flag seed))
      as [cache | e]; [reflexivity |].
    apply Hok; try assumption.
    cbn [kept_store y]. intros Hy. fold labels in Hy.
    rewrite Hy in H0. now apply H0.
Qed.

Lemma two_class_store_served_witness :
  is_ok (fst (__getitem__ lcg_python
                (kept_store (store_of 2 1) false false (PyBool false) None) 2 9))
  = true
  /\ is_ok (MolDatasetTriplet_init lcg_numpy 0 (store_of 2 1) true false
              (PyBool true) (Some 7)) = true.
Proof.
  destruct (two_class_store_served lcg_numpy lcg_python 0 (store_of 2 1)
              (f64_of_Z 0) (f64_of_Z 1)) as (Hplain & Hfixed).
  - reflexivity.
  - vm_compute. auto.
  - vm_compute. reflexivity.
  - vm_compute. auto.
  - vm_compute. reflexivity.
  - split.
    + destruct (Hplain (PyBool false) None eq_refl) as (self & Hinit & Hget).
      rewrite init_plain in Hinit by reflexivity. injection Hinit as <-.
      apply Hget. vm_compute. lia.
    + apply Hfixed; [reflexivity | cbn [seed_accepted]; lia].
Defined.
